(** * JointInv.psstation: station registry, response-file scanners, PAZ lookup

    A shallow embedding of [src/JointInv/psstation.py].

    Conventions of the embedding:
    - Python [str] is [string]; comparisons are byte-wise, which agrees with
      Python's code-point order on UTF-8 text.
    - Python floats (longitudes, latitudes, elevations, tolerance) are
      idealised as exact rationals [Q].
    - A raised exception is a value of [exn]; a function that can raise
      returns [result].
    - Log and print calls have no influence on the returned values and are
      left out. *)

From Stdlib Require Import QArith Qabs Qminmax.
From stdpp Require Import gmap strings list.
From Stdlib Require Import Ascii.
From Stdlib Require DecimalString.

Close Scope Q_scope.

(** ** Exceptions and results *)

(** Why a [ValueError] was raised. *)
Inductive value_error : Type :=
| InvalidLiteral        (* int() on a string that is no integer literal *)
| NotEnoughValues       (* tuple unpacking, too few values *)
| TooManyValues         (* tuple unpacking, too many values *)
| NotInList             (* list.remove(x): x not in list *)
| EmptyReduction.       (* ndarray.max() of an empty array *)

Inductive exn : Type :=
| ValueError (why : value_error)
| NameError                       (* unbound local variable (UnboundLocalError) *)
| TypeError                       (* operand of the wrong type *)
| AssertionError
| SEEDParserException             (* obspy.io.xseed.utils *)
| NoPAZFound (msg : string)       (* pserrors.NoPAZFound *)
| OtherError (msg : string).      (* anything else an external callee raises *)

Inductive result (A : Type) : Type :=
| Ok (a : A)
| Raise (e : exn).
Arguments Ok {A} a.
Arguments Raise {A} e.

Global Instance result_ret : MRet result := λ A, Ok.
Global Instance result_bind : MBind result := λ A B k r,
  match r with
  | Ok a => k a
  | Raise e => Raise e
  end.

(** A [for] loop threading a state and stopping at the first exception. *)
Fixpoint for_each {A S} (body : S → A → result S) (xs : list A) (st : S) : result S :=
  match xs with
  | [] => Ok st
  | x :: xs' => st' ← body st x; for_each body xs' st'
  end.

(** ** class Station *)

Record Station : Type := mkStation {
  name : string;
  network : string;
  channel : string;
  file : string;
  basedir : string;
  subdirs : list string;
  coord : list (option Q)
}.

(** [Station.__init__]: a falsy [subdirs] (None or []) becomes [[]], a falsy
    [coord] (None or an empty sequence) becomes [(None, None)]. *)
Definition Station_init (name network channel filename basedir : string)
    (subdirs : option (list string)) (coord : option (list (option Q))) : Station :=
  {| name := name; network := network; channel := channel;
     file := filename; basedir := basedir;
     subdirs := match subdirs with
                | Some (d :: ds) => d :: ds
                | _ => []
                end;
     coord := match coord with
              | Some (c :: cs) => c :: cs
              | _ => [None; None]
              end |}.

(** [BOOLATTRS = ['name', 'network', 'channel']] *)
Definition BOOLATTRS (s : Station) : list string :=
  [name s; network s; channel s].

(** [all(x == y for ...)] over two attribute lists of equal length. *)
Fixpoint all_eq (xs ys : list string) : bool :=
  match xs, ys with
  | x :: xs', y :: ys' => String.eqb x y && all_eq xs' ys'
  | _, _ => true
  end.

(** Python's [<] on lists: the first position where the elements differ
    decides; a proper prefix is smaller. *)
Fixpoint py_list_lt (xs ys : list string) : bool :=
  match xs, ys with
  | [], [] => false
  | [], _ :: _ => true
  | _ :: _, [] => false
  | x :: xs', y :: ys' =>
      if String.eqb x y then py_list_lt xs' ys' else String.ltb x y
  end.

Definition Station_eq (a b : Station) : bool := all_eq (BOOLATTRS a) (BOOLATTRS b).
Definition Station_ne (a b : Station) : bool := negb (Station_eq a b).
Definition Station_lt (a b : Station) : bool := py_list_lt (BOOLATTRS a) (BOOLATTRS b).
Definition Station_le (a b : Station) : bool := Station_lt a b || Station_eq a b.
Definition Station_gt (a b : Station) : bool := negb (Station_le a b).
Definition Station_ge (a b : Station) : bool := negb (Station_lt a b).

(** ** Python built-ins and [os.path] functions used by the module *)

(** [s.split(sep)] for a one-character separator: never returns []. *)
Fixpoint str_split (sep : ascii) (s : string) : list string :=
  match s with
  | EmptyString => [EmptyString]
  | String c s' =>
      if Ascii.eqb c sep then EmptyString :: str_split sep s'
      else match str_split sep s' with
           | tok :: toks => String c tok :: toks
           | [] => [String c EmptyString]
           end
  end.

(** [sep.join(parts)] *)
Definition str_join (sep : string) (parts : list string) : string :=
  String.concat sep parts.

(** [l[i:j]] for [0 <= i <= j] *)
Definition slice {A} (i j : nat) (l : list A) : list A := take (j - i) (drop i l).

(** [s[i:j]] for [0 <= i <= j] *)
Definition str_slice (i j : nat) (s : string) : string := String.substring i (j - i) s.

(** The characters [int()] skips as white space around an ASCII literal:
    tab, line feed, vertical tab, form feed, carriage return and space. *)
Definition is_space (c : ascii) : bool :=
  let n := nat_of_ascii c in
  ((9 <=? n) && (n <=? 13) || (n =? 32))%nat.

Definition digit_of (c : ascii) : option Z :=
  let n := nat_of_ascii c in
  if ((48 <=? n) && (n <=? 57))%nat then Some (Z.of_nat (n - 48)) else None.

Fixpoint all_space (s : string) : bool :=
  match s with
  | EmptyString => true
  | String c s' => is_space c && all_space s'
  end.

(** Digits of a base-10 literal, single underscores allowed between digits,
    trailing white space allowed. [seen] tells whether the previous
    character was a digit. *)
Fixpoint int_digits (seen : bool) (acc : Z) (s : string) : option Z :=
  match s with
  | EmptyString => if seen then Some acc else None
  | String c s' =>
      match digit_of c with
      | Some d => int_digits true (10 * acc + d)%Z s'
      | None =>
          if negb seen then None
          else if Ascii.eqb c "_" then int_digits false acc s'
          else if is_space c && all_space s' then Some acc
          else None
      end
  end.

Fixpoint lstrip (s : string) : string :=
  match s with
  | String c s' => if is_space c then lstrip s' else s
  | EmptyString => s
  end.

(** [int(s)] on an ASCII string. *)
Definition py_int (s : string) : result Z :=
  let parsed :=
    match lstrip s with
    | String "+" r => int_digits false 0 r
    | String "-" r => Z.opp <$> int_digits false 0 r
    | r => int_digits false 0 r
    end in
  match parsed with
  | Some n => Ok n
  | None => Raise (ValueError InvalidLiteral)
  end.

(** [(p[:i], p[i:])] with [i = p.rfind('/') + 1] *)
Fixpoint rsplit_sep (p : string) : string * string :=
  match p with
  | EmptyString => (EmptyString, EmptyString)
  | String c p' =>
      let '(h, t) := rsplit_sep p' in
      match h with
      | String _ _ => (String c h, t)
      | EmptyString =>
          if Ascii.eqb c "/" then (String c EmptyString, t)
          else (EmptyString, String c t)
      end
  end.

(** [s.rstrip('/')] *)
Fixpoint rstrip_sep (s : string) : string :=
  match s with
  | EmptyString => EmptyString
  | String c s' =>
      match rstrip_sep s' with
      | EmptyString => if Ascii.eqb c "/" then EmptyString else String c EmptyString
      | r => String c r
      end
  end.

(** [posixpath.split] *)
Definition os_path_split (p : string) : string * string :=
  let '(head, tail) := rsplit_sep p in
  match rstrip_sep head with
  | EmptyString => (head, tail)           (* head is empty or all slashes *)
  | stripped => (stripped, tail)
  end.

(** [posixpath.basename] *)
Definition os_path_basename (p : string) : string := snd (rsplit_sep p).

Definition ends_with_sep (s : string) : bool :=
  match rsplit_sep s with
  | (String _ _, EmptyString) => true
  | _ => false
  end.

(** [posixpath.join(a, b)] *)
Definition os_path_join (a b : string) : string :=
  match b with
  | String "/" _ => b
  | _ =>
      match a with
      | EmptyString => b
      | _ => if ends_with_sep a then a +:+ b else a +:+ "/" +:+ b
      end
  end.

(** [glob.has_magic(s)]: the string holds one of the wildcard characters
    [*], [?] and [[]. On a directory name without them [glob] reads that
    one directory; with them it expands the name into the directories that
    match it. *)
Fixpoint has_magic (s : string) : bool :=
  match s with
  | EmptyString => false
  | String c s' =>
      Ascii.eqb c "*" || Ascii.eqb c "?" || Ascii.eqb c "[" || has_magic s'
  end.

(** The entries of a directory whose name starts with a literal prefix, each
    joined to the directory path. The directory name is taken as it is
    written, which is what [glob] does when [has_magic] is false on it.
    [listing] is the content of the directory as the operating system
    enumerates it. *)
Definition glob_prefix (dir : string) (listing : list string) (pfx : string) : list string :=
  os_path_join dir <$> filter (λ n, String.prefix pfx n = true) listing.

(** ** get_stations: inputs *)

(** [datetime.date] *)
Record date : Type := mkDate { year : Z; month : Z; day : Z }.

(** One entry of [inv.getInventory()['channels']] of a dataless inventory. *)
Record dataless_channel : Type := mkChannel {
  channel_id : string;
  dl_longitude : Q;
  dl_latitude : Q
}.

(** A dataless inventory, seen through [getInventory()['channels']]. *)
Definition dataless_inventory : Type := list dataless_channel.

(** A station and a network of a StationXML inventory. *)
Record xml_station : Type := mkXmlStation {
  xs_code : string;
  xs_longitude : Q;
  xs_latitude : Q
}.

Record xml_network : Type := mkXmlNetwork {
  net_code : string;
  net_stations : list xml_station
}.

(** Iterating a StationXML inventory yields its networks. *)
Definition xml_inventory : Type := list xml_network.

(** One record of the station database, as [get_station_database] builds
    it: [{"stla": .., "stlo": .., "stel": ..}]. *)
Record station_info : Type := mkInfo { stla : Q; stlo : Q; stel : Q }.

(** The [database] argument: [None] stands for the default [False]. *)
Definition database_arg : Type := option (gmap string station_info).

(** Truth value of the [database] argument: [False] and the empty
    dictionary are falsy. *)
Definition database_truthy (database : database_arg) : bool :=
  match database with
  | Some db => negb (size db =? 0)%nat
  | None => false
  end.

(** ** get_stations: the shared store

    Station objects are mutated in place while they sit in the list
    [stations] (and in its shallow copy), so the embedding keeps the objects
    in a heap and the list holds references. *)

(** A reference is an address in the heap. *)
Abbreviation ref := nat (only parsing).

Record store : Type := mkStore {
  heap : list Station;          (* the Station objects, by address *)
  stations : list ref           (* the Python list [stations] *)
}.

Definition set_subdirs (f : list string → list string) (s : Station) : Station :=
  mkStation (name s) (network s) (channel s) (file s) (basedir s) (f (subdirs s)) (coord s).

Definition set_coord (c : list (option Q)) (s : Station) : Station :=
  mkStation (name s) (network s) (channel s) (file s) (basedir s) (subdirs s) c.

Global Instance Station_inhabited : Inhabited Station :=
  populate (mkStation EmptyString EmptyString EmptyString EmptyString EmptyString [] []).

(** The list the function returns: the objects the references point to. *)
Definition deref (st : store) : list Station :=
  (λ r, heap st !!! r) <$> stations st.

(** ** get_stations: scanning the miniseed files *)

(** [(a, b) < (c, d)] on pairs of integers *)
Definition pair_ltb (a b c d : Z) : bool :=
  ((a <? c) || (a =? c) && (b <? d))%Z.

(** [allowed and x not in allowed]: a filter that is None or [] lets
    everything pass. *)
Definition filtered_out (allowed : list string) (x : string) : bool :=
  match allowed with
  | [] => false
  | _ => negb (bool_decide (x ∈ allowed))
  end.

(** [a, b, c, d = l] *)
Definition unpack4 (l : list string) : result (string * string * string * string) :=
  match l with
  | [a; b; c; d] => Ok (a, b, c, d)
  | _ :: _ :: _ :: _ :: _ :: _ => Raise (ValueError TooManyValues)
  | _ => Raise (ValueError NotEnoughValues)
  end.

(** What one file contributes: its station key, the file-name pattern and
    its date directory. *)
Record sighting : Type := mkSighting {
  sg_network : string;
  sg_name : string;
  sg_channel : string;
  sg_filename : string;
  sg_subdir : string
}.

(** Python's [==] on lists of strings. *)
Fixpoint list_eqb (xs ys : list string) : bool :=
  match xs, ys with
  | [], [] => true
  | x :: xs', y :: ys' => String.eqb x y && list_eqb xs' ys'
  | _, _ => false
  end.

(** The part of the loop body before the station lookup: [Ok None] is a
    [continue]. *)
Definition inspect_file (startday endday : option date) (networks channels : list string)
    (f : string) : result (option sighting) :=
  let start_ym := (λ d, (year d, month d)) <$> startday in
  let end_ym := (λ d, (year d, month d)) <$> endday in
  let '(subdir, rawfilename) := os_path_split f in
  year ← py_int (str_slice 0 4 subdir);
  month ← py_int (str_slice 4 6 subdir);
  _ ← py_int (str_slice 6 8 subdir);
  if from_option (λ '(y, m), pair_ltb year month y m) false start_ym then Ok None
  else if from_option (λ '(y, m), pair_ltb y m year month) false end_ym then Ok None
  else
    '(network, name, loc, channel) ← unpack4 (slice 0 4 (str_split "." rawfilename));
    let filename := str_join "." [network; name; loc; channel; "*"; "mseed"] in
    if filtered_out networks network then Ok None
    else if filtered_out channels channel then Ok None
    else Ok (Some (mkSighting network name channel filename subdir)).

(** [match = lambda s: [s.network, s.name, s.channel] == [network, name, channel]] *)
Definition sighting_match (sg : sighting) (s : Station) : bool :=
  list_eqb [network s; name s; channel s] [sg_network sg; sg_name sg; sg_channel sg].

(** [next(s for s in stations if match(s))]: the first reference in the list
    whose object matches. *)
Definition find_station (sg : sighting) (st : store) : option ref :=
  snd <$> list_find (λ r, sighting_match sg (heap st !!! r) = true) (stations st).

(** The station lookup and its two outcomes. *)
Definition record_sighting (mseed_dir : string) (st : store) (sg : sighting) : store :=
  match find_station sg st with
  | None =>
      let station := Station_init (sg_name sg) (sg_network sg) (sg_channel sg)
                       (sg_filename sg) mseed_dir (Some [sg_subdir sg]) None in
      mkStore (heap st ++ [station]) (stations st ++ [length (heap st)])
  | Some r =>
      mkStore (alter (set_subdirs (λ ds, ds ++ [sg_subdir sg])) r (heap st)) (stations st)
  end.

Definition scan_file (mseed_dir : string) (startday endday : option date)
    (networks channels : list string) (st : store) (f : string) : result store :=
  osg ← inspect_file startday endday networks channels f;
  match osg with
  | None => Ok st
  | Some sg => Ok (record_sighting mseed_dir st sg)
  end.

(** The first loop of [get_stations]. [files] is what
    [psutils.filelist(mseed_dir, startday=.., endday=.., ext='mseed', subdirs=True)]
    returned. *)
Definition scan_files (mseed_dir : string) (files : list string)
    (startday endday : option date) (networks channels : list string) : result store :=
  for_each (scan_file mseed_dir startday endday networks channels) files (mkStore [] []).

(** ** get_stations: coordinates of the stations *)

(** A tuple of floats: [(lon, lat)] or [(lon, lat, elev)]. *)
Definition tuple : Type := list Q.

Fixpoint tuple_eqb (a b : tuple) : bool :=
  match a, b with
  | [], [] => true
  | x :: a', y :: b' => Qeq_bool x y && tuple_eqb a' b'
  | _, _ => false
  end.

(** Python sets of tuples, as duplicate-free lists in order of insertion. *)
Definition py_set_add (s : list tuple) (t : tuple) : list tuple :=
  if existsb (tuple_eqb t) s then s else s ++ [t].
Definition py_set_union (s : list tuple) (ts : list tuple) : list tuple :=
  foldl py_set_add s ts.
Definition py_set (ts : list tuple) : list tuple := py_set_union [] ts.

(** [(c['longitude'], c['latitude']) for inv in dataless_inventories
     for c in inv.getInventory()['channels']
     if c['channel_id'].split('.')[:2] == [sta.network, sta.name]] *)
Definition dataless_coords (dataless_inventories : list dataless_inventory)
    (sta : Station) : list tuple :=
  inv ← dataless_inventories;
  c ← inv;
  if list_eqb (slice 0 2 (str_split "." (channel_id c))) [network sta; name sta]
  then [[dl_longitude c; dl_latitude c]] else [].

(** [(s.longitude, s.latitude) for inv in xml_inventories for net in inv
     for s in net.stations if net.code == sta.network and s.code == sta.name] *)
Definition xml_coords (xml_inventories : list xml_inventory) (sta : Station) : list tuple :=
  inv ← xml_inventories;
  net ← inv;
  s ← net_stations net;
  if String.eqb (net_code net) (network sta) && String.eqb (xs_code s) (name sta)
  then [[xs_longitude s; xs_latitude s]] else [].

(** The [try] block: [stationinfo] is [None] when the name was never bound;
    a missing key is the handled [KeyError]. *)
Definition database_coords (stationinfo : option (gmap string station_info))
    (stationid : string) : result (list tuple) :=
  match stationinfo with
  | None => Raise NameError
  | Some info =>
      match info !! stationid with
      | Some e => Ok [[stlo e; stla e; stel e]]
      | None => Ok []
      end
  end.

(** [stations.remove(sta)]: drops the first element that is [sta] or equal
    to it under [Station.__eq__]. *)
Fixpoint remove_first (P : ref → bool) (l : list ref) : option (list ref) :=
  match l with
  | [] => None
  | r :: l' => if P r then Some l' else cons r <$> remove_first P l'
  end.

Definition stations_remove (st : store) (r : ref) : result store :=
  let sta := heap st !!! r in
  match remove_first (λ r', (r' =? r)%nat || Station_eq (heap st !!! r') sta) (stations st) with
  | Some l => Ok (mkStore (heap st) l)
  | None => Raise (ValueError NotInList)
  end.

(** [sta.coord = c] *)
Definition assign_coord (st : store) (r : ref) (c : list (option Q)) : store :=
  mkStore (alter (set_coord c) r (heap st)) (stations st).

(** [lon for lon, _ in coords_set] and [lat for _, lat in coords_set] *)
Definition unpack_pairs (pick : Q → Q → Q) (coords_set : list tuple) : result (list Q) :=
  mapM (M := result) (λ t : tuple,
    match t with
    | [lon; lat] => Ok (pick lon lat)
    | _ :: _ :: _ :: _ => Raise (ValueError TooManyValues)
    | _ => Raise (ValueError NotEnoughValues)
    end) coords_set.

(** [list(it.combinations(l, 2))] *)
Fixpoint combinations2 (l : list Q) : list (Q * Q) :=
  match l with
  | [] => []
  | x :: l' => (pair x <$> l') ++ combinations2 l'
  end.

(** [np.abs(np.diff(pairs)).max()] *)
Definition max_abs_diff (pairs : list (Q * Q)) : result Q :=
  match (λ '(a, b), Qabs (b - a)%Q) <$> pairs with
  | [] => Raise (ValueError EmptyReduction)
  | d :: ds => Ok (foldl Qmax d ds)
  end.

(** [np.mean(l)] *)
Definition np_mean (l : list Q) : Q :=
  (foldr Qplus 0%Q l / inject_Z (Z.of_nat (length l)))%Q.

(** The [if not coords_set / elif len(coords_set) == 1 / else] statement. *)
Definition apply_coords (coord_tolerance : Q) (st : store) (r : ref)
    (coords_set : list tuple) : result store :=
  match coords_set with
  | [] => stations_remove st r
  | [c] => Ok (assign_coord st r (Some <$> c))
  | _ =>
      lons ← unpack_pairs (λ lon _, lon) coords_set;
      let lons_combinations := combinations2 lons in
      lats ← unpack_pairs (λ _ lat, lat) coords_set;
      let lats_combinations := combinations2 lats in
      maxdiff_lon ← max_abs_diff lons_combinations;
      maxdiff_lat ← max_abs_diff lats_combinations;
      if Qle_bool maxdiff_lon coord_tolerance && Qle_bool maxdiff_lat coord_tolerance
      then Ok (assign_coord st r [Some (np_mean lons); Some (np_mean lats)])
      else stations_remove st r
  end.

(** The body of [for sta in copy(stations)]. The set built from the
    inventories is bound to [coords_set] and then rebound by the [try]
    statement, as in the source. *)
Definition resolve_station (xml_inventories : list xml_inventory)
    (dataless_inventories : list dataless_inventory)
    (stationinfo : option (gmap string station_info)) (coord_tolerance : Q)
    (st : store) (r : ref) : result store :=
  let sta := heap st !!! r in
  let coords_set := py_set (dataless_coords dataless_inventories sta) in
  let coords_set := py_set_union coords_set (xml_coords xml_inventories sta) in
  let stationid := str_join "." [network sta; name sta] in
  coords_set ← database_coords stationinfo stationid;
  apply_coords coord_tolerance st r coords_set.

(** [get_stations(mseed_dir, xml_inventories, dataless_inventories, database,
                  networks, channels, startday, endday, coord_tolerance)],
    with the result of [psutils.filelist] as [files]. *)
Definition get_stations (mseed_dir : string) (files : list string)
    (xml_inventories : list xml_inventory)
    (dataless_inventories : list dataless_inventory)
    (database : database_arg) (networks channels : list string)
    (startday endday : option date) (coord_tolerance : Q) : result (list Station) :=
  st ← scan_files mseed_dir files startday endday networks channels;
  (* if database: stationinfo = database *)
  let stationinfo := if database_truthy database then database else None in
  st ← for_each (resolve_station xml_inventories dataless_inventories
                   stationinfo coord_tolerance) (stations st) st;
  Ok (deref st).

(** ** Station.dist *)

(** [a, b, c = coord] *)
Definition unpack3 {A} (l : list A) : result (A * A * A) :=
  match l with
  | [a; b; c] => Ok (a, b, c)
  | _ :: _ :: _ :: _ :: _ => Raise (ValueError TooManyValues)
  | _ => Raise (ValueError NotEnoughValues)
  end.

(** [psutils.dist] is not part of this module; it is a parameter of
    [Station.dist]. *)
Definition Station_dist {R : Type}
    (psutils_dist : option Q → option Q → option Q → option Q → result R)
    (self other : Station) : result R :=
  '(lon1, lat1, _) ← unpack3 (coord self);
  '(lon2, lat2, _) ← unpack3 (coord other);
  psutils_dist lon1 lat1 lon2 lat2.

(** ** get_RESP_filelists and get_SACPZ_filelists *)

(** The values the name [resp_filepath] is bound to in [get_RESP_filelists]. *)
Inductive pyval : Type :=
| PyStr (s : string)
| PyList (l : list string).

(** [os.path.join(a, b)] accepts path strings only. *)
Definition os_path_join_val (a : pyval) (b : string) : result string :=
  match a with
  | PyStr s => Ok (os_path_join s b)
  | PyList _ => Raise TypeError
  end.

(** [a + b]: string concatenation or list concatenation. *)
Definition py_add (a b : pyval) : result pyval :=
  match a, b with
  | PyStr s, PyStr t => Ok (PyStr (s +:+ t))
  | PyList l, PyList k => Ok (PyList (l ++ k))
  | _, _ => Raise TypeError
  end.

(** [l.append(x)] on a list of strings. *)
Definition py_append (l : pyval) (x : pyval) : result pyval :=
  match l, x with
  | PyList items, PyStr s => Ok (PyList (items ++ [s]))
  | _, _ => Raise TypeError
  end.

(** [glob.glob(pathname)] for a pathname whose directory part holds no
    wildcard ([has_magic] is false on it) and whose last component is a
    literal prefix followed by [*]: glob splits the pathname with
    [os.path.split], matches the entries of that directory and joins each
    match to the directory. The statements about the functions that call
    [glob] carry the condition on the directory. *)
Definition glob_pattern (pattern : string) (listing : list string) : list string :=
  let '(dir, pat) := os_path_split pattern in
  match str_split "*" pat with
  | [pfx; EmptyString] => glob_prefix dir listing pfx
  | _ => []
  end.

(** [get_RESP_filelists(resp_filepath)]; [listing] is the content of the
    directory the glob would read. The first statement rebinds the
    parameter to an empty list. *)
Definition get_RESP_filelists (resp_filepath : string) (listing : list string)
    : result pyval :=
  let resp_filepath := PyList [] in
  pattern ← os_path_join_val resp_filepath "RESP*";
  let flist := glob_pattern pattern listing in
  resp_filepath ← for_each (λ acc f,
                      item ← py_add acc (PyStr f);
                      py_append acc item) flist resp_filepath;
  Ok resp_filepath.

(** [net, sta, chn, loc = os.path.basename(f).split('_')[2:6]] and
    [responseid = ".".join([net, sta, loc, chn])] *)
Definition responseid (f : string) : result string :=
  '(net, sta, chn, loc) ← unpack4 (slice 2 6 (str_split "_" (os_path_basename f)));
  Ok (str_join "." [net; sta; loc; chn]).

(** The body of the loop: [resp_file_path.update({responseid: f})]. *)
Definition sacpz_body (resp_file_path : gmap string string) (f : string)
    : result (gmap string string) :=
  id ← responseid f; Ok (<[id := f]> resp_file_path).

(** [get_SACPZ_filelists(resp_filepath)]; [listing] is the content of the
    directory [resp_filepath], whose name holds no wildcard of [glob]. *)
Definition get_SACPZ_filelists (resp_filepath : string) (listing : list string)
    : result (gmap string string) :=
  let flist := glob_pattern (os_path_join resp_filepath "SAC_PZ*") listing in
  for_each sacpz_body flist ∅.

(** ** get_paz *)

(** An inventory is an object with a [getPAZ] method (a dataless parser,
    seen through that method) or a dictionary with the keys [channelid],
    [startdate], [enddate] and [paz]. Times are integers (an absent date is
    [None]); the response itself is opaque. *)
Inductive inventory (PAZ : Type) : Type :=
| Parser (getPAZ : string → Z → result PAZ)
| PazDict (channelid : string) (startdate enddate : option Z) (paz : PAZ).
Arguments Parser {PAZ} getPAZ.
Arguments PazDict {PAZ} channelid startdate enddate paz.

Definition py_assert (b : bool) : result unit :=
  if b then Ok () else Raise AssertionError.

(** The body of the [try] block. *)
Definition inventory_paz {PAZ} (channelid : string) (t : Z) (inv : inventory PAZ)
    : result PAZ :=
  match inv with
  | Parser getPAZ => getPAZ channelid t
  | PazDict inv_channelid startdate enddate paz =>
      _ ← py_assert (String.eqb channelid inv_channelid);
      _ ← py_assert (from_option (λ d, (d <=? t)%Z) true startdate);
      _ ← py_assert (from_option (λ d, (t <=? d)%Z) true enddate);
      Ok paz
  end.

Fixpoint get_paz {PAZ} (channelid : string) (t : Z) (inventories : list (inventory PAZ))
    : result PAZ :=
  match inventories with
  | [] => Raise (NoPAZFound ("No PAZ found for channel " +:+ channelid))
  | inv :: rest =>
      match inventory_paz channelid t inv with
      | Ok paz => Ok paz
      | Raise SEEDParserException | Raise AssertionError => get_paz channelid t rest
      | Raise e => Raise e
      end
  end.

(** ** Vocabulary of the statements about get_stations *)

(** The key of a sighting, in the order of [BOOLATTRS]. *)
Definition sg_key (sg : sighting) : list string :=
  [sg_name sg; sg_network sg; sg_channel sg].

(** The sightings of the files that pass the filters, in file order; the
    first file that raises makes the whole scan raise. *)
Fixpoint sightings (startday endday : option date) (networks channels : list string)
    (files : list string) : result (list sighting) :=
  match files with
  | [] => Ok []
  | f :: fs =>
      osg ← inspect_file startday endday networks channels f;
      sgs ← sightings startday endday networks channels fs;
      Ok (option_list osg ++ sgs)
  end.

(** [".".join([sta.network, sta.name])] *)
Definition stationid (sta : Station) : string :=
  str_join "." [network sta; name sta].

(** The coordinate a database record stands for. *)
Definition info_coord (e : station_info) : list (option Q) :=
  [Some (stlo e); Some (stla e); Some (stel e)].

(** A station with the coordinate of its database record, if it has one. *)
Definition database_station (db : gmap string station_info) (s : Station) : option Station :=
  (λ e, set_coord (info_coord e) s) <$> db !! stationid s.

(** ** Vocabulary of the other statements *)

(** Lexicographic order of two triples of strings. *)
Definition lex3 (a b : Station) : Prop :=
  String.ltb (name a) (name b) = true ∨
  name a = name b ∧
    (String.ltb (network a) (network b) = true ∨
     network a = network b ∧ String.ltb (channel a) (channel b) = true).

(** The two exceptions the [except] clause of [get_paz] handles. *)
Definition falls_through {PAZ} (r : result PAZ) : Prop :=
  r = Raise SEEDParserException ∨ r = Raise AssertionError.

(** The validity window of a dictionary inventory contains [t]. *)
Definition in_window (startdate enddate : option Z) (t : Z) : Prop :=
  (∀ d, startdate = Some d → (d ≤ t)%Z) ∧ (∀ d, enddate = Some d → (t ≤ d)%Z).

(** A failed tuple unpacking. *)
Definition unpack_error {R} (r : result R) : Prop :=
  r = Raise (ValueError NotEnoughValues) ∨ r = Raise (ValueError TooManyValues).

(** The string holds no path separator. *)
Fixpoint no_sep (s : string) : bool :=
  match s with
  | EmptyString => true
  | String c s' => negb (Ascii.eqb c "/") && no_sep s'
  end.

(** Every object of the heap is in the list once, in order of creation. *)
Definition store_wf (st : store) : Prop :=
  stations st = seq 0 (length (heap st)).

(** What the scan has established after the sightings [sgs]. *)
Definition scan_inv (mseed_dir : string) (sgs : list sighting) (st : store) : Prop :=
  store_wf st ∧
  NoDup (BOOLATTRS <$> heap st) ∧
  (∀ s, s ∈ heap st →
     subdirs s = sg_subdir <$> filter (λ sg, sg_key sg = BOOLATTRS s) sgs ∧
     basedir s = mseed_dir ∧ coord s = [None; None]) ∧
  (∀ sg, sg ∈ sgs → ∃ s, s ∈ heap st ∧ BOOLATTRS s = sg_key sg).

(** The state of the second loop when the stations at the addresses below
    [i] have been dealt with: [kept] are those still in the list. *)
Definition resolve_inv (db : gmap string station_info) (h0 : list Station)
    (i : nat) (st : store) : Prop :=
  ∃ kept,
    stations st = kept ++ seq i (length h0 - i) ∧
    Forall (λ r, r < i) kept ∧
    length (heap st) = length h0 ∧
    BOOLATTRS <$> heap st = BOOLATTRS <$> h0 ∧
    drop i (heap st) = drop i h0 ∧
    (λ r, heap st !!! r) <$> kept = omap (database_station db) (take i h0).

(** ** Station.__repr__ and Station.getpath *)

(** ['<Station {0}.{1}.{2}>'.format(self.network, self.channel, self.name)] *)
Definition Station_repr (self : Station) : string :=
  "<Station " +:+ network self +:+ "." +:+ channel self +:+ "." +:+ name self +:+ ">".

(** [str(n)] for an integer [n >= 0] *)
Definition str_of_nat (n : Z) : string :=
  DecimalString.NilZero.string_of_uint (N.to_uint (Z.to_N n)).

(** The conversions [%m] and [%d]: two digits, padded with a zero. *)
Definition pad2 (n : Z) : string :=
  if (n <? 10)%Z then "0" +:+ str_of_nat n else str_of_nat n.

(** [d.strftime("%Y%m%d")] as the C library formats it: [%Y] is the year
    without padding. *)
Definition strftime_Ymd (d : date) : string :=
  str_of_nat (year d) +:+ pad2 (month d) +:+ pad2 (day d).

(** The argument of [getpath], a [UTCDateTime], [datetime] or [date]: its
    calendar day, and the text [format] gives for its attribute [date]
    ([None] for a [datetime.date], which has no such attribute). *)
Record moment : Type := mkMoment {
  calendar : date;
  date_attr : option string
}.

(** What [getpath] raises. *)
Inductive getpath_exn : Type :=
| NoData (message : string)       (* Exception('No data for station ...') *)
| AttributeError.                 (* the argument has no attribute [date] *)

(** Results of the functions that raise exceptions of their own. *)
Inductive outcome (E A : Type) : Type :=
| Returns (a : A)
| Raises (e : E).
Arguments Returns {E A} a.
Arguments Raises {E A} e.

(** [Station.getpath(date)] *)
Definition getpath (self : Station) (date : moment) : outcome getpath_exn string :=
  let subdir := strftime_Ymd (calendar date) in
  if bool_decide (subdir ∈ subdirs self)
  then Returns (os_path_join (os_path_join (basedir self) subdir) (file self))
  else match date_attr date with
       | Some d =>
           Raises (NoData ("No data for station " +:+ name self +:+
                           " at date " +:+ d +:+ "!!"))
       | None => Raises AttributeError
       end.

(** ** get_station_database *)

(** The ASCII characters [str.split()] treats as white space. *)
Definition is_str_space (c : ascii) : bool :=
  let n := nat_of_ascii c in
  ((9 <=? n) && (n <=? 13) || (28 <=? n) && (n <=? 32))%nat.

Definition cons_word (w : string) (ws : list string) : list string :=
  match w with
  | EmptyString => ws
  | _ => w :: ws
  end.

(** The word the string starts with (empty when it starts with white space
    or is empty) and the words after it. *)
Fixpoint words_from (s : string) : string * list string :=
  match s with
  | EmptyString => (EmptyString, [])
  | String c s' =>
      let '(w, ws) := words_from s' in
      if is_str_space c then (EmptyString, cons_word w ws) else (String c w, ws)
  end.

(** [s.split()] *)
Definition str_words (s : string) : list string :=
  let '(w, ws) := words_from s in cons_word w ws.

(** [float(s)]: the built-in is a parameter of the functions below; [None]
    is its [ValueError]. *)
Definition float_parser : Type := string → option Q.

Definition py_float (parse : float_parser) (s : string) : result Q :=
  match parse s with
  | Some x => Ok x
  | None => Raise (ValueError InvalidLiteral)
  end.

(** A [float] restricted to whole numbers, for the examples. *)
Definition whole_numbers : float_parser :=
  λ s, match py_int s with
       | Ok n => Some (inject_Z n)
       | Raise _ => None
       end.

(** One line of the file: [name, stla, stlo, stel = line.split()[0:4]] and the
    dictionary [{name: {"stla": float(stla), "stlo": float(stlo),
    "stel": float(stel)}}]. *)
Definition database_record (parse : float_parser) (line : string)
    : result (string * station_info) :=
  '(name, stla, stlo, stel) ← unpack4 (slice 0 4 (str_words line));
  stla ← py_float parse stla;
  stlo ← py_float parse stlo;
  stel ← py_float parse stel;
  Ok (name, mkInfo stla stlo stel).

(** The body of [for line in f]: [stations.update(station)]. *)
Definition database_line (parse : float_parser) (stations : gmap string station_info)
    (line : string) : result (gmap string station_info) :=
  '(name, info) ← database_record parse line;
  Ok (<[name := info]> stations).

(** [get_station_database(stationinfo_dir)]; [lines] are the lines of the
    file. *)
Definition get_station_database (parse : float_parser) (lines : list string)
    : result (gmap string station_info) :=
  for_each (database_line parse) lines ∅.

(** ** get_stats *)

(** The header of a trace: [t.stats['station']], ['network'], ['channel'],
    and the days [t.stats['starttime'].date] and [t.stats['endtime'].date],
    numbered in calendar order. *)
Record trace : Type := mkTrace {
  tr_station : string;
  tr_network : string;
  tr_channel : string;
  tr_startday : Z;
  tr_endday : Z
}.

(** One value of the dictionary [get_stats] returns. *)
Record station_stats : Type := mkStats {
  stats_network : string;
  firstday : Z;
  lastday : Z
}.

Inductive stats_exn : Type :=
| NotImplementedError
| SeveralNetworks (stationname : string) (networks : list string).

(** The distinct elements of a list, in order of first occurrence. *)
Fixpoint first_seen {A} `{EqDecision A} (l : list A) : list A :=
  match l with
  | [] => []
  | x :: l' => x :: filter (λ y, y ≠ x) (first_seen l')
  end.

(** A [set] of strings is iterated in an order that depends on the hashes
    of its elements. The order is a parameter of [get_stats]: it maps the
    distinct elements, in order of first occurrence, to the sequence the
    iteration yields. *)
Definition set_order : Type := list string → list string.

(** [set(...)] of strings, as the sequence its iteration yields. *)
Definition str_set (order : set_order) (l : list string) : list string :=
  order (first_seen l).

(** [min(...)] and [max(...)] of a non-empty sequence of days; an empty one
    cannot occur where they are called and yields 0. *)
Definition min_day (days : list Z) : Z :=
  match days with
  | [] => 0%Z
  | d :: ds => foldl Z.min d ds
  end.
Definition max_day (days : list Z) : Z :=
  match days with
  | [] => 0%Z
  | d :: ds => foldl Z.max d ds
  end.

(** The body of [for stationname in stations]. *)
Definition station_stats_of (order : set_order) (traces : list trace)
    (stationstats : gmap string station_stats) (stationname : string)
    : outcome stats_exn (gmap string station_stats) :=
  let stationtraces := filter (λ t, tr_station t = stationname) traces in
  let networks := str_set order (tr_network <$> stationtraces) in
  match networks with
  | _ :: _ :: _ => Raises (SeveralNetworks stationname networks)
  | _ =>
      (* list(networks)[0]; the set is not empty, the station has a trace *)
      let network := default EmptyString (head networks) in
      let firstday := min_day (tr_startday <$> stationtraces) in
      let lastday := max_day (tr_endday <$> stationtraces) in
      Returns (<[stationname := mkStats network firstday lastday]> stationstats)
  end.

Fixpoint stats_loop (order : set_order) (traces : list trace) (stations : list string)
    (stationstats : gmap string station_stats)
    : outcome stats_exn (gmap string station_stats) :=
  match stations with
  | [] => Returns stationstats
  | stationname :: rest =>
      match station_stats_of order traces stationstats stationname with
      | Returns stationstats' => stats_loop order traces rest stationstats'
      | Raises e => Raises e
      end
  end.

(** [get_stats(filepath, channel, fast)]; [st] is the stream
    [obspy.core.read(filepath, headonly=True)] yields. *)
Definition get_stats (order : set_order) (st : list trace) (channel : string)
    (fast : bool) : outcome stats_exn (gmap string station_stats) :=
  if fast then Raises NotImplementedError
  else
    let traces := filter (λ t, tr_channel t = channel) st in
    let stations := str_set order (tr_station <$> traces) in
    stats_loop order traces stations ∅.

(** ** Vocabulary of the further statements *)

(** The stations the first loop builds from the sightings. *)
Definition scanned (mseed_dir : string) (sgs : list sighting) : list Station :=
  heap (foldl (record_sighting mseed_dir) (mkStore [] []) sgs).

(** Where a scanned station comes from: its first sighting. *)
Definition first_sighting (sgs : list sighting) (s : Station) : Prop :=
  ∃ sgs1 sg sgs2,
    sgs = sgs1 ++ sg :: sgs2 ∧ BOOLATTRS s = sg_key sg ∧
    (∀ x, x ∈ sgs1 → sg_key x ≠ sg_key sg) ∧
    file s = sg_filename sg.

(** [(a, b) <= (c, d)] on pairs of integers. *)
Definition pair_le (a b c d : Z) : Prop := (a < c ∨ a = c ∧ b ≤ d)%Z.

(** A file the first loop passes over with [continue]: its directory name
    parses, and either its month lies outside the window, or its name has
    four fields and its network or channel is filtered out. *)
Definition skipped (startday endday : option date) (networks channels : list string)
    (f : string) : Prop :=
  ∃ y m d,
    py_int (str_slice 0 4 (os_path_split f).1) = Ok y ∧
    py_int (str_slice 4 6 (os_path_split f).1) = Ok m ∧
    py_int (str_slice 6 8 (os_path_split f).1) = Ok d ∧
    ((∃ sd, startday = Some sd ∧ ¬ pair_le (year sd) (month sd) y m) ∨
     (∃ ed, endday = Some ed ∧ ¬ pair_le y m (year ed) (month ed)) ∨
     (∃ net nm loc ch,
        slice 0 4 (str_split "." (os_path_split f).2) = [net; nm; loc; ch] ∧
        (networks ≠ [] ∧ net ∉ networks ∨ channels ≠ [] ∧ ch ∉ channels))).

(** Four-digit years and two-digit fields that print and parse back. *)
Definition year_ok (y : Z) : bool :=
  match str_of_nat y with
  | String a (String b (String c (String d EmptyString))) =>
      match py_int (String a (String b (String c (String d EmptyString)))) with
      | Ok n => (n =? y)%Z
      | Raise _ => false
      end
  | _ => false
  end.

Definition field_ok (n : Z) : bool :=
  match pad2 n with
  | String a (String b EmptyString) =>
      match py_int (String a (String b EmptyString)) with
      | Ok k => (k =? n)%Z
      | Raise _ => false
      end
  | _ => false
  end.

(** The string holds no dot. *)
Fixpoint no_dot (s : string) : bool :=
  match s with
  | EmptyString => true
  | String c s' => negb (Ascii.eqb c ".") && no_dot s'
  end.

(** An exception that the [except] clause of [get_paz] does not handle. *)
Definition uncaught (e : exn) : Prop :=
  e ≠ SEEDParserException ∧ e ≠ AssertionError.

(** An iteration order yields the elements of the set, each once. *)
Definition set_order_ok (order : set_order) : Prop := ∀ l, order l ≡ₚ l.

(** A trace of the stream on the channel and of the station. *)
Definition on_channel (channel : string) (st : list trace) (stationname : string)
    (t : trace) : Prop :=
  t ∈ st ∧ tr_channel t = channel ∧ tr_station t = stationname.

(** The station has traces on the channel under two network codes. *)
Definition several_networks (channel : string) (st : list trace)
    (stationname : string) : Prop :=
  ∃ t1 t2, on_channel channel st stationname t1 ∧
           on_channel channel st stationname t2 ∧
           tr_network t1 ≠ tr_network t2.

(** The value [get_stats] stores for a station: the first of its network
    codes, the earliest start day and the latest end day of its traces on
    the channel. *)
Definition stats_entry (order : set_order) (channel : string) (st : list trace)
    (stationname : string) : station_stats :=
  let stationtraces := filter (λ t, tr_station t = stationname)
                         (filter (λ t, tr_channel t = channel) st) in
  mkStats (default EmptyString (head (str_set order (tr_network <$> stationtraces))))
          (min_day (tr_startday <$> stationtraces))
          (max_day (tr_endday <$> stationtraces)).

(** The directory name of the file does not parse: one of [subdir[0:4]],
    [subdir[4:6]] and [subdir[6:8]] is no integer. *)
Definition bad_subdir (f : string) : Prop :=
  py_int (str_slice 0 4 (os_path_split f).1) = Raise (ValueError InvalidLiteral) ∨
  py_int (str_slice 4 6 (os_path_split f).1) = Raise (ValueError InvalidLiteral) ∨
  py_int (str_slice 6 8 (os_path_split f).1) = Raise (ValueError InvalidLiteral).

(** The directory name of the file parses, its month lies inside the
    window, and the file name has fewer than four dot-separated fields. *)
Definition short_name (startday endday : option date) (f : string) : Prop :=
  ∃ y m d,
    py_int (str_slice 0 4 (os_path_split f).1) = Ok y ∧
    py_int (str_slice 4 6 (os_path_split f).1) = Ok m ∧
    py_int (str_slice 6 8 (os_path_split f).1) = Ok d ∧
    (∀ sd, startday = Some sd → pair_le (year sd) (month sd) y m) ∧
    (∀ ed, endday = Some ed → pair_le y m (year ed) (month ed)) ∧
    length (str_split "." (os_path_split f).2) < 4.

(** A file name that starts with a digit, as the names of the documented
    convention [<year>.SAC.PZS.<network>.<station>.<channel>] do. *)
Definition year_first (n : string) : bool :=
  match n with
  | String c _ => match digit_of c with Some _ => true | None => false end
  | EmptyString => false
  end.

(** * Properties *)

(** ** Sanity checks of the Python built-ins *)

Example str_split_ex :
  str_split "." "BL.CACB.00.BHZ.D.mseed" = ["BL"; "CACB"; "00"; "BHZ"; "D"; "mseed"].
Proof. reflexivity. Qed.

Example py_int_ex :
  py_int "2016" = Ok 2016%Z ∧ py_int " +0_8 " = Ok 8%Z ∧
  py_int EmptyString = Raise (ValueError InvalidLiteral) ∧
  py_int "1__0" = Raise (ValueError InvalidLiteral).
Proof. repeat split. Qed.

Example os_path_split_ex :
  os_path_split "20160806/BL.CACB.00.BHZ.D.mseed" = ("20160806", "BL.CACB.00.BHZ.D.mseed") ∧
  os_path_split "/a//b" = ("/a", "b") ∧ os_path_split "/b" = ("/", "b") ∧
  os_path_split "b" = (EmptyString, "b").
Proof. repeat split. Qed.

Example os_path_join_ex :
  os_path_join "/data/pz" "SAC_PZs_XJ" = "/data/pz/SAC_PZs_XJ" ∧
  os_path_join "/data/pz/" "SAC_PZs_XJ" = "/data/pz/SAC_PZs_XJ" ∧
  os_path_join EmptyString "x" = "x".
Proof. repeat split. Qed.

(** ** String order *)

Lemma str_compare_refl (s : string) : String.compare s s = Eq.
Proof.
  pose proof (String.compare_antisym s s) as H.
  destruct (String.compare s s); simpl in H; congruence.
Qed.

Lemma str_ltb_irrefl (s : string) : String.ltb s s = false.
Proof. unfold String.ltb. by rewrite str_compare_refl. Qed.

Lemma str_compare_lt_trans (s1 s2 s3 : string) :
  String.compare s1 s2 = Lt → String.compare s2 s3 = Lt → String.compare s1 s3 = Lt.
Proof.
  revert s2 s3.
  induction s1 as [|a1 s1 IH]; intros [|a2 s2] [|a3 s3] H12 H23;
    simpl in *; try done.
  destruct (Ascii.compare a1 a2) eqn:E12; try done.
  - apply Ascii.compare_eq_iff in E12 as ->.
    destruct (Ascii.compare a2 a3); try done. eauto.
  - destruct (Ascii.compare a2 a3) eqn:E23; try done.
    + apply Ascii.compare_eq_iff in E23 as ->. by rewrite E12.
    + assert (Ascii.compare a1 a3 = Lt) as ->; [|done].
      unfold Ascii.compare in *.
      apply N.compare_lt_iff. etrans; by apply N.compare_lt_iff.
Qed.

Lemma str_ltb_trans (s1 s2 s3 : string) :
  String.ltb s1 s2 = true → String.ltb s2 s3 = true → String.ltb s1 s3 = true.
Proof.
  unfold String.ltb. intros H12 H23.
  destruct (String.compare s1 s2) eqn:E12; try done.
  destruct (String.compare s2 s3) eqn:E23; try done.
  by rewrite (str_compare_lt_trans _ _ _ E12 E23).
Qed.

Lemma str_ltb_total (s1 s2 : string) :
  String.ltb s1 s2 = true ∨ s1 = s2 ∨ String.ltb s2 s1 = true.
Proof.
  unfold String.ltb. rewrite (String.compare_antisym s2 s1).
  destruct (String.compare s1 s2) eqn:E; simpl; auto.
  right; left. by apply String.compare_eq_iff.
Qed.

Lemma str_ltb_asym (s1 s2 : string) :
  String.ltb s1 s2 = true → String.ltb s2 s1 = false.
Proof.
  unfold String.ltb. rewrite (String.compare_antisym s2 s1).
  by destruct (String.compare s1 s2).
Qed.

(** ** Python list comparisons *)

Lemma list_eqb_eq (xs ys : list string) : list_eqb xs ys = true ↔ xs = ys.
Proof.
  revert ys. induction xs as [|x xs IH]; intros [|y ys]; simpl; try done.
  rewrite andb_true_iff, String.eqb_eq, IH. split.
  - by intros [-> ->].
  - by intros [= -> ->].
Qed.

Lemma list_eqb_refl (xs : list string) : list_eqb xs xs = true.
Proof. by apply list_eqb_eq. Qed.

Lemma all_eq_eq (xs ys : list string) :
  length xs = length ys → all_eq xs ys = true ↔ xs = ys.
Proof.
  revert ys. induction xs as [|x xs IH]; intros [|y ys] Hlen; simpl in *; try done.
  rewrite andb_true_iff, String.eqb_eq, IH by lia. split.
  - by intros [-> ->].
  - by intros [= -> ->].
Qed.

Lemma py_list_lt_irrefl (xs : list string) : py_list_lt xs xs = false.
Proof. induction xs as [|x xs IH]; simpl; [done|]. by rewrite String.eqb_refl. Qed.

Lemma py_list_lt_trans (xs ys zs : list string) :
  py_list_lt xs ys = true → py_list_lt ys zs = true → py_list_lt xs zs = true.
Proof.
  revert ys zs.
  induction xs as [|x xs IH]; intros [|y ys] [|z zs]; simpl; try done.
  destruct (String.eqb_spec x y) as [->|Hxy].
  - destruct (String.eqb_spec y z) as [->|Hyz]; [by apply IH|done].
  - destruct (String.eqb_spec y z) as [->|Hyz].
    + destruct (String.eqb_spec x z); done.
    + intros Hlt1 Hlt2.
      pose proof (str_ltb_trans _ _ _ Hlt1 Hlt2) as Hlt.
      destruct (String.eqb_spec x z) as [->|]; [|done].
      by rewrite str_ltb_irrefl in Hlt.
Qed.

Lemma py_list_lt_total (xs ys : list string) :
  py_list_lt xs ys = true ∨ xs = ys ∨ py_list_lt ys xs = true.
Proof.
  revert ys. induction xs as [|x xs IH]; intros [|y ys]; simpl; auto.
  rewrite (String.eqb_sym y x).
  destruct (String.eqb_spec x y) as [->|Hxy].
  - destruct (IH ys) as [?|[->|?]]; auto.
  - destruct (str_ltb_total x y) as [?|[?|?]]; auto; done.
Qed.

Lemma py_list_lt_asym (xs ys : list string) :
  py_list_lt xs ys = true → py_list_lt ys xs = false.
Proof.
  intros H. destruct (py_list_lt ys xs) eqn:E; [|done].
  by rewrite <- (py_list_lt_irrefl xs), <- (py_list_lt_trans _ _ _ H E).
Qed.

(** ** Station comparisons *)

Lemma BOOLATTRS_inj (a b : Station) :
  BOOLATTRS a = BOOLATTRS b ↔
  name a = name b ∧ network a = network b ∧ channel a = channel b.
Proof.
  unfold BOOLATTRS. split.
  - intros [= H1 H2 H3]. auto.
  - intros (H1 & H2 & H3). by rewrite H1, H2, H3.
Qed.

Lemma Station_eq_spec (a b : Station) :
  Station_eq a b = true ↔ BOOLATTRS a = BOOLATTRS b.
Proof. unfold Station_eq. by apply all_eq_eq. Qed.

Lemma Station_eq_refl (a : Station) : Station_eq a a = true.
Proof. by apply Station_eq_spec. Qed.

(** C6: two stations are equal exactly when name, network and channel
    agree; [!=] is the negation of [==]; the file pattern, the base
    directory, the date directories and the coordinates play no part. *)
Theorem Station_eq_iff_key (a b : Station) :
  (Station_eq a b = true ↔
     name a = name b ∧ network a = network b ∧ channel a = channel b) ∧
  Station_ne a b = negb (Station_eq a b) ∧
  (∀ f1 f2 d1 d2 sd1 sd2 c1 c2,
     Station_eq (mkStation (name a) (network a) (channel a) f1 d1 sd1 c1)
                (mkStation (name b) (network b) (channel b) f2 d2 sd2 c2)
     = Station_eq a b).
Proof.
  split; [|split].
  - by rewrite Station_eq_spec, BOOLATTRS_inj.
  - done.
  - done.
Qed.

Lemma Station_eq_iff_key_witness :
  let a := mkStation "CACB" "BL" "BHZ" "BL.CACB.00.BHZ.*.mseed" "/data" ["20160806"] [] in
  let b := mkStation "CACB" "BL" "BHZ" "BL.CACB.10.BHZ.*.mseed" "/archive" []
             [Some 1%Q; Some 2%Q; Some 3%Q] in
  Station_eq a b = true ∧ Station_ne a b = false.
Proof.
  intros a b. destruct (Station_eq_iff_key a b) as (Hiff & Hne & _).
  assert (Heq : Station_eq a b = true) by (apply Hiff; repeat split).
  split; [exact Heq|]. rewrite Hne, Heq. reflexivity.
Defined.

Lemma Station_lt_lex3 (a b : Station) : Station_lt a b = true ↔ lex3 a b.
Proof.
  unfold Station_lt, lex3, BOOLATTRS; simpl.
  destruct (String.eqb_spec (name a) (name b)) as [->|Hn].
  - rewrite str_ltb_irrefl.
    destruct (String.eqb_spec (network a) (network b)) as [->|Hw].
    + rewrite str_ltb_irrefl.
      destruct (String.eqb_spec (channel a) (channel b)) as [->|Hc].
      * rewrite str_ltb_irrefl. intuition discriminate.
      * intuition discriminate.
    + intuition discriminate.
  - intuition discriminate.
Qed.

(** C7: [<] is the lexicographic order of the (name, network, channel)
    triples, a strict total order whose equality is [==]: it is
    irreflexive and transitive, exactly one of [a < b], [a == b], [a > b]
    holds, [a > b] is [b < a], and [<=], [>], [>=] are derived from [<] and
    [==] as stated. *)
Theorem Station_order_total (a b c : Station) :
  (Station_lt a b = true ↔ lex3 a b) ∧
  Station_lt a a = false ∧
  (Station_lt a b = true → Station_lt b c = true → Station_lt a c = true) ∧
  (Station_lt a b = true ∧ Station_eq a b = false ∧ Station_gt a b = false ∨
   Station_lt a b = false ∧ Station_eq a b = true ∧ Station_gt a b = false ∨
   Station_lt a b = false ∧ Station_eq a b = false ∧ Station_gt a b = true) ∧
  Station_gt a b = Station_lt b a ∧
  Station_le a b = Station_lt a b || Station_eq a b ∧
  Station_gt a b = negb (Station_le a b) ∧
  Station_ge a b = negb (Station_lt a b).
Proof.
  assert (Hex : Station_lt a b = true ∧ Station_eq a b = false ∧ Station_lt b a = false ∨
                Station_lt a b = false ∧ Station_eq a b = true ∧ Station_lt b a = false ∨
                Station_lt a b = false ∧ Station_eq a b = false ∧ Station_lt b a = true).
  { unfold Station_lt.
    destruct (Station_eq a b) eqn:Heq.
    - apply Station_eq_spec in Heq. rewrite Heq, py_list_lt_irrefl. auto.
    - assert (BOOLATTRS a ≠ BOOLATTRS b) as Hne.
      { intros ?%Station_eq_spec. congruence. }
      destruct (py_list_lt_total (BOOLATTRS a) (BOOLATTRS b)) as [H|[H|H]]; [|done|].
      + rewrite H, (py_list_lt_asym _ _ H). auto.
      + rewrite H, (py_list_lt_asym _ _ H). auto. }
  assert (Hgt : Station_gt a b = Station_lt b a).
  { unfold Station_gt, Station_le. destruct Hex as [(->&->&->)|[(->&->&->)|(->&->&->)]]; done. }
  repeat split.
  - by intros ?%Station_lt_lex3.
  - by intros ?%Station_lt_lex3.
  - apply py_list_lt_irrefl.
  - apply py_list_lt_trans.
  - rewrite Hgt. done.
  - done.
Qed.

Lemma Station_order_total_witness :
  let a := mkStation "AKS" "XJ" "BHZ" "XJ.AKS.00.BHZ.*.mseed" "/data" [] [] in
  let b := mkStation "CACB" "BL" "BHZ" "BL.CACB.00.BHZ.*.mseed" "/data" [] [] in
  let c := mkStation "CACB" "BL" "LHZ" "BL.CACB.00.LHZ.*.mseed" "/data" [] [] in
  Station_lt a b = true ∧ Station_lt b c = true ∧ Station_lt a c = true.
Proof.
  intros a b c.
  pose proof (Station_order_total a b c) as (_ & _ & Htrans & _).
  split; [reflexivity|]. split; [reflexivity|].
  apply Htrans; reflexivity.
Defined.

(** ** get_paz *)

Lemma inventory_paz_dict {PAZ} (channelid cid : string) (t : Z)
    (startdate enddate : option Z) (paz : PAZ) :
  (channelid = cid ∧ in_window startdate enddate t →
     inventory_paz channelid t (PazDict cid startdate enddate paz) = Ok paz) ∧
  (¬ (channelid = cid ∧ in_window startdate enddate t) →
     inventory_paz channelid t (PazDict cid startdate enddate paz) = Raise AssertionError).
Proof.
  unfold in_window; simpl.
  destruct (String.eqb_spec channelid cid) as [->|Hne]; simpl.
  - destruct startdate as [sd|], enddate as [ed|]; simpl;
      repeat match goal with
             | |- context [(?a <=? ?b)%Z] => destruct (Z.leb_spec a b); simpl
             end;
      (split; [done || (intros (_ & H1 & H2);
                        try (specialize (H1 _ eq_refl)); try (specialize (H2 _ eq_refl)); lia)
              | done || (intros []; repeat split; intros; simplify_eq; lia)]).
  - split; [by intros [? _] | done].
Qed.

Lemma get_paz_skip {PAZ} (channelid : string) (t : Z) (pre rest : list (inventory PAZ)) :
  Forall (λ i, falls_through (inventory_paz channelid t i)) pre →
  get_paz channelid t (pre ++ rest) = get_paz channelid t rest.
Proof.
  induction 1 as [|inv pre [Hinv|Hinv] _ IH]; simpl; [done| |]; by rewrite Hinv.
Qed.

(** C5: [get_paz] tries the inventories in order. An inventory with a
    [getPAZ] method answers, or fails, as that method does on the channel
    id and [t]. A dictionary inventory answers with its PAZ when the
    channel id is the same and [t] lies in its validity window, and fails
    with [AssertionError] otherwise; an inventory that fails with
    [AssertionError] or [SEEDParserException] is skipped; the result is
    the PAZ of the first inventory that answers; when every inventory is
    skipped, [NoPAZFound] is raised with a message naming the channel
    id. *)
Theorem get_paz_first_match {PAZ} (channelid : string) (t : Z)
    (inventories : list (inventory PAZ)) :
  (∀ getPAZ : string → Z → result PAZ,
     inventory_paz channelid t (Parser getPAZ) = getPAZ channelid t) ∧
  (∀ cid startdate enddate (paz : PAZ),
     (channelid = cid ∧ in_window startdate enddate t →
        inventory_paz channelid t (PazDict cid startdate enddate paz) = Ok paz) ∧
     (¬ (channelid = cid ∧ in_window startdate enddate t) →
        falls_through (inventory_paz channelid t (PazDict cid startdate enddate paz)))) ∧
  (∀ pre inv post (paz : PAZ),
     inventories = pre ++ inv :: post →
     Forall (λ i, falls_through (inventory_paz channelid t i)) pre →
     inventory_paz channelid t inv = Ok paz →
     get_paz channelid t inventories = Ok paz) ∧
  (Forall (λ i, falls_through (inventory_paz channelid t i)) inventories →
   get_paz channelid t inventories =
     Raise (NoPAZFound ("No PAZ found for channel " +:+ channelid))).
Proof.
  split; [|split; [|split]].
  - intros getPAZ. reflexivity.
  - intros cid sd ed paz.
    destruct (inventory_paz_dict channelid cid t sd ed paz) as [H1 H2].
    split; [done|]. intros H. right. by apply H2.
  - intros pre inv post paz -> Hpre Hinv.
    rewrite (get_paz_skip _ _ _ _ Hpre). simpl. by rewrite Hinv.
  - intros Hall.
    rewrite <- (app_nil_r inventories). by rewrite (get_paz_skip _ _ _ _ Hall).
Qed.

Lemma get_paz_first_match_witness :
  let A := PazDict "XJ.AKS.00.BHZ" None None 1%nat in
  let B := PazDict "BL.CACB.00.BHZ" (Some 10%Z) None 2%nat in
  let P := Parser (λ cid t, if String.eqb cid "BL.CACB.00.BHZ" && (t =? 20)%Z
                            then Ok 3%nat else Raise SEEDParserException) in
  get_paz "BL.CACB.00.BHZ" 20 [A; B] = Ok 2%nat ∧
  get_paz "BL.CACB.00.LHZ" 20 [A; B] =
    Raise (NoPAZFound "No PAZ found for channel BL.CACB.00.LHZ") ∧
  get_paz "BL.CACB.00.BHZ" 20 [A; P; B] = Ok 3%nat ∧
  get_paz "BL.CACB.00.BHZ" 21 [A; P; B] = Ok 2%nat.
Proof.
  intros A B P. split; [|split; [|split]].
  - apply (get_paz_first_match "BL.CACB.00.BHZ" 20 [A; B]) with (pre := [A]) (inv := B) (post := []).
    + reflexivity.
    + constructor; [right; reflexivity | constructor].
    + reflexivity.
  - apply (get_paz_first_match "BL.CACB.00.LHZ" 20 [A; B]).
    constructor; [right; reflexivity |].
    constructor; [right; reflexivity | constructor].
  - apply (get_paz_first_match "BL.CACB.00.BHZ" 20 [A; P; B])
      with (pre := [A]) (inv := P) (post := [B]).
    + reflexivity.
    + constructor; [right; reflexivity | constructor].
    + reflexivity.
  - apply (get_paz_first_match "BL.CACB.00.BHZ" 21 [A; P; B])
      with (pre := [A; P]) (inv := B) (post := []).
    + reflexivity.
    + constructor; [right; reflexivity |].
      constructor; [left; reflexivity | constructor].
    + reflexivity.
Defined.

(** ** Station.dist *)

Lemma unpack3_length {A} (l : list A) :
  (length l = 3 → ∃ a b c, l = [a; b; c] ∧ unpack3 l = Ok (a, b, c)) ∧
  (length l ≠ 3 → unpack_error (unpack3 l)).
Proof.
  unfold unpack_error.
  destruct l as [|a [|b [|c [|d l]]]]; simpl; split; try done; eauto.
Qed.

(** C10: [Station.dist] unpacks three values from both coordinates. It
    raises the unpacking error when either coordinate does not have exactly
    three elements, in particular for the default [(None, None)] of a new
    station and for a two-element [(lon, lat)] mean such as the
    within-tolerance branch of [get_stations] assigns; with two
    three-element coordinates it returns what [psutils.dist] returns for
    the two longitudes and latitudes. *)
Theorem Station_dist_needs_triple {R : Type}
    (psutils_dist : option Q → option Q → option Q → option Q → result R)
    (a b : Station) :
  (length (coord a) ≠ 3 ∨ length (coord b) ≠ 3 →
     unpack_error (Station_dist psutils_dist a b)) ∧
  (∀ lon1 lat1 el1 lon2 lat2 el2,
     coord a = [lon1; lat1; el1] → coord b = [lon2; lat2; el2] →
     Station_dist psutils_dist a b = psutils_dist lon1 lat1 lon2 lat2) ∧
  (∀ n w c f d sd,
     unpack_error (Station_dist psutils_dist (Station_init n w c f d sd None) b)) ∧
  (∀ lon lat, coord a = [Some lon; Some lat] →
     unpack_error (Station_dist psutils_dist a b)) ∧
  (∀ st r lons lats, r < length (heap st) →
     unpack_error
       (Station_dist psutils_dist
          (heap (assign_coord st r [Some (np_mean lons); Some (np_mean lats)]) !!! r) b)).
Proof.
  assert (Hleft : ∀ s, length (coord s) ≠ 3 →
            unpack_error (Station_dist psutils_dist s b)).
  { intros s Hs. unfold Station_dist.
    destruct (unpack3_length (coord s)) as [_ H]. specialize (H Hs).
    unfold unpack_error in *. destruct H as [-> | ->]; simpl; auto. }
  repeat split.
  - intros [Ha|Hb]; [by apply Hleft|].
    destruct (decide (length (coord a) = 3)) as [Ha|Ha]; [|by apply Hleft].
    unfold Station_dist.
    destruct (unpack3_length (coord a)) as [H _].
    destruct (H Ha) as (x & y & z & _ & ->). simpl.
    destruct (unpack3_length (coord b)) as [_ H'].
    unfold unpack_error in *. destruct (H' Hb) as [-> | ->]; simpl; auto.
  - intros lon1 lat1 el1 lon2 lat2 el2 Ha Hb.
    unfold Station_dist. by rewrite Ha, Hb.
  - intros n w c f d sd. apply Hleft. simpl. lia.
  - intros lon lat Ha. apply Hleft. rewrite Ha. simpl. lia.
  - intros st r lons lats Hr. apply Hleft. unfold assign_coord; simpl.
    rewrite list_lookup_total_alter_eq by done. simpl. lia.
Qed.

Lemma Station_dist_needs_triple_witness :
  let pd := λ (lon1 lat1 lon2 lat2 : option Q), Ok (lon1, lat1, lon2, lat2) in
  let a := mkStation "CACB" "BL" "BHZ" "BL.CACB.00.BHZ.*.mseed" "/data" [] [Some 1%Q; Some 2%Q] in
  let b := mkStation "AKS" "XJ" "BHZ" "XJ.AKS.00.BHZ.*.mseed" "/data" []
             [Some 3%Q; Some 4%Q; Some 5%Q] in
  unpack_error (Station_dist pd a b) ∧
  Station_dist pd b b = Ok (Some 3%Q, Some 4%Q, Some 3%Q, Some 4%Q).
Proof.
  intros pd a b. split.
  - apply (Station_dist_needs_triple pd a b). left. simpl. lia.
  - apply (Station_dist_needs_triple pd b b) with (el1 := Some 5%Q) (el2 := Some 5%Q);
      reflexivity.
Defined.

(** ** get_RESP_filelists *)

(** C9: whatever directory is passed and whatever it holds,
    [get_RESP_filelists] raises [TypeError]: its first statement rebinds
    [resp_filepath] to an empty list, which [os.path.join] rejects. The
    loop body would raise as well, since it adds a string to that list. *)
Theorem get_RESP_filelists_raises (resp_filepath : string) (listing : list string) :
  get_RESP_filelists resp_filepath listing = Raise TypeError ∧
  (∀ (acc : list string) (f : string),
     (item ← py_add (PyList acc) (PyStr f); py_append (PyList acc) item)
     = Raise TypeError).
Proof.
  split.
  - unfold get_RESP_filelists. reflexivity.
  - intros acc f. reflexivity.
Qed.

Example get_RESP_filelists_ex :
  get_RESP_filelists "/data/resp" ["RESP.XJ.AKS.BHZ"] = Raise TypeError ∧
  glob_pattern (os_path_join "/data/resp" "RESP*") ["RESP.XJ.AKS.BHZ"; "notes.txt"]
    = ["/data/resp/RESP.XJ.AKS.BHZ"].
Proof. split; reflexivity. Qed.

(** ** Paths *)

Lemma rsplit_sep_no_sep (b : string) : no_sep b = true → rsplit_sep b = (EmptyString, b).
Proof.
  induction b as [|c b IH]; simpl; [done|].
  intros [Hc Hb]%andb_true_iff. rewrite (IH Hb).
  by destruct (Ascii.eqb c "/").
Qed.

Lemma rsplit_sep_app (a b : string) :
  no_sep b = true →
  rsplit_sep (a +:+ b) = ((rsplit_sep a).1, (rsplit_sep a).2 +:+ b).
Proof.
  intros Hb. induction a as [|c a IH]; simpl.
  - by rewrite rsplit_sep_no_sep.
  - rewrite IH. destruct (rsplit_sep a) as [[|h0 h] t]; simpl; [|done].
    by destruct (Ascii.eqb c "/").
Qed.

Lemma rsplit_sep_app_sep (a b : string) :
  no_sep b = true → rsplit_sep (a +:+ "/" +:+ b) = (a +:+ "/", b).
Proof.
  intros Hb. induction a as [|c a IH]; simpl.
  - by rewrite rsplit_sep_no_sep.
  - rewrite IH. by destruct a.
Qed.

(** The last component of [os.path.join(a, b)] is [b] when [b] is a plain
    name. *)
Lemma os_path_join_tail (a b : string) :
  no_sep b = true → (rsplit_sep (os_path_join a b)).2 = b.
Proof.
  intros Hb. unfold os_path_join.
  assert (Hgoal : (rsplit_sep match a with
                      | EmptyString => b
                      | String _ _ => if ends_with_sep a then a +:+ b else a +:+ "/" +:+ b
                      end).2 = b).
  { destruct a as [|c a]; [by rewrite rsplit_sep_no_sep|].
    destruct (ends_with_sep (String c a)) eqn:E.
    - rewrite rsplit_sep_app by done.
      unfold ends_with_sep in E.
      destruct (rsplit_sep (String c a)) as [[|] [|]]; done.
    - by rewrite rsplit_sep_app_sep. }
  destruct b as [|c b]; [done|].
  destruct (Ascii.eqb_spec c "/") as [->|Hc]; [done|].
  destruct c as [[] [] [] [] [] [] [] []]; done.
Qed.

Lemma str_split_nonempty (sep : ascii) (s : string) : str_split sep s ≠ [].
Proof.
  induction s as [|c s IH]; simpl; [done|].
  destruct (Ascii.eqb c sep); [done|]. by destruct (str_split sep s).
Qed.

Lemma glob_pattern_join (dir pfx : string) (listing : list string) :
  no_sep pfx = true → str_split "*" pfx = [pfx] →
  glob_pattern (os_path_join dir (pfx +:+ "*")) listing =
  glob_prefix (os_path_split (os_path_join dir (pfx +:+ "*"))).1 listing pfx.
Proof.
  intros Hsep Hstar. unfold glob_pattern.
  assert (Htail : (os_path_split (os_path_join dir (pfx +:+ "*"))).2 = pfx +:+ "*").
  { unfold os_path_split.
    pose proof (os_path_join_tail dir (pfx +:+ "*")) as H.
    destruct (rsplit_sep (os_path_join dir (pfx +:+ "*"))) as [h t]; simpl in *.
    assert (no_sep (pfx +:+ "*") = true) as Hs.
    { clear -Hsep. induction pfx as [|c p IH]; simpl in *; [done|].
      apply andb_true_iff in Hsep as [-> ?]. simpl. auto. }
    rewrite (H Hs). by destruct (rstrip_sep h). }
  destruct (os_path_split (os_path_join dir (pfx +:+ "*"))) as [d pat]; simpl in *.
  subst pat.
  assert (str_split "*" (pfx +:+ "*") = [pfx; EmptyString]) as ->; [|done].
  clear -Hstar. induction pfx as [|c p IH]; simpl in *; [done|].
  destruct (Ascii.eqb c "*"); [done|].
  destruct (str_split "*" p) as [|tok toks] eqn:E; [by apply str_split_nonempty in E|].
  injection Hstar as <- ->. by rewrite IH.
Qed.

(** ** get_SACPZ_filelists *)

Lemma responseid_tokens (f : string) :
  (6 ≤ length (str_split "_" (os_path_basename f)) →
     ∃ t0 t1 net sta chn loc more,
       str_split "_" (os_path_basename f) = t0 :: t1 :: net :: sta :: chn :: loc :: more ∧
       responseid f = Ok (str_join "." [net; sta; loc; chn])) ∧
  (length (str_split "_" (os_path_basename f)) < 6 →
     responseid f = Raise (ValueError NotEnoughValues)).
Proof.
  unfold responseid.
  destruct (str_split "_" (os_path_basename f))
    as [|t0 [|t1 [|net [|sta [|chn [|loc more]]]]]]; simpl; split; try lia; try done.
  intros _. by exists t0, t1, net, sta, chn, loc, more.
Qed.

Lemma sacpz_loop_ok (flist : list string) (m0 : gmap string string) :
  (∀ f, f ∈ flist → 6 ≤ length (str_split "_" (os_path_basename f))) →
  ∃ m, for_each sacpz_body flist m0 = Ok m ∧
    (∀ id g, m !! id = Some g →
       m0 !! id = Some g ∨ g ∈ flist ∧ responseid g = Ok id) ∧
    (∀ id, is_Some (m0 !! id) → is_Some (m !! id)) ∧
    (∀ f id, f ∈ flist → responseid f = Ok id → is_Some (m !! id)).
Proof.
  revert m0. induction flist as [|f flist IH]; intros m0 Hlen; simpl.
  - exists m0. repeat split; auto. intros f id Hf. by apply elem_of_nil in Hf.
  - destruct (responseid_tokens f) as [Htok _].
    destruct Htok as (t0 & t1 & net & sta & chn & loc & more & _ & Hid).
    { apply Hlen. left. }
    assert (sacpz_body m0 f = Ok (<[str_join "." [net; sta; loc; chn] := f]> m0)) as ->.
    { unfold sacpz_body. by rewrite Hid. }
    simpl.
    destruct (IH (<[str_join "." [net; sta; loc; chn] := f]> m0)) as (m & Hm & H1 & H2 & H3).
    { intros g Hg. apply Hlen. by right. }
    exists m. split; [done|]. repeat split.
    + intros id g Hg. destruct (H1 id g Hg) as [Hins|[Hin Hr]].
      * apply lookup_insert_Some in Hins as [[<- <-]|[_ ?]]; [|by left].
        right. split; [left|done].
      * right. split; [by right|done].
    + intros id [v Hv]. apply H2.
      destruct (decide (str_join "." [net; sta; loc; chn] = id)) as [<-|Hne].
      * rewrite lookup_insert_eq. eauto.
      * rewrite lookup_insert_ne by done. eauto.
    + intros g id Hg Hr. apply elem_of_cons in Hg as [->|Hg]; [|by eapply H3].
      apply H2. rewrite Hid in Hr. injection Hr as <-.
      rewrite lookup_insert_eq. eauto.
Qed.

Lemma sacpz_loop_raises (flist : list string) (m0 : gmap string string) :
  (∃ f, f ∈ flist ∧ length (str_split "_" (os_path_basename f)) < 6) →
  for_each sacpz_body flist m0 = Raise (ValueError NotEnoughValues).
Proof.
  revert m0. induction flist as [|f flist IH]; intros m0 (g & Hg & Hlen).
  - by apply elem_of_nil in Hg.
  - simpl.
    destruct (decide (6 ≤ length (str_split "_" (os_path_basename f)))) as [Hf|Hf].
    + destruct (responseid_tokens f) as [Htok _].
      destruct (Htok Hf) as (t0 & t1 & net & sta & chn & loc & more & _ & Hid).
      assert (sacpz_body m0 f = Ok (<[str_join "." [net; sta; loc; chn] := f]> m0)) as ->.
      { unfold sacpz_body. by rewrite Hid. }
      simpl. apply IH. exists g. split; [|done].
      apply elem_of_cons in Hg as [->|Hg]; [lia|done].
    + destruct (responseid_tokens f) as [_ Hid].
      assert (sacpz_body m0 f = Raise (ValueError NotEnoughValues)) as ->; [|done].
      unfold sacpz_body. rewrite Hid by lia. done.
Qed.

(** X22: what [get_SACPZ_filelists] does with the names it lists, for a
    directory name without wildcard: the files listed are the directory
    entries whose name starts with [SAC_PZ], each joined to the directory.
    When all of them have six or more underscore-delimited tokens in their
    basename, the function returns a dictionary in which tokens 2, 3, 5, 4
    of each listed file, joined by dots (network.station.location.channel),
    are a key bound to a listed file with those tokens, and every binding
    is such a file under its own key. A listed file with fewer than six
    tokens makes the function raise [ValueError]. *)
Theorem get_SACPZ_filelists_spec (resp_filepath : string) (listing : list string) :
  has_magic resp_filepath = false →
  let flist := glob_prefix (os_path_split (os_path_join resp_filepath "SAC_PZ*")).1
                 listing "SAC_PZ" in
  ((∀ f, f ∈ flist → 6 ≤ length (str_split "_" (os_path_basename f))) →
   ∃ m, get_SACPZ_filelists resp_filepath listing = Ok m ∧
     (∀ f, f ∈ flist →
        ∃ t0 t1 net sta chn loc more g,
          str_split "_" (os_path_basename f) = t0 :: t1 :: net :: sta :: chn :: loc :: more ∧
          m !! str_join "." [net; sta; loc; chn] = Some g ∧
          g ∈ flist ∧ responseid g = responseid f) ∧
     (∀ id g, m !! id = Some g → g ∈ flist ∧ responseid g = Ok id)) ∧
  ((∃ f, f ∈ flist ∧ length (str_split "_" (os_path_basename f)) < 6) →
   get_SACPZ_filelists resp_filepath listing = Raise (ValueError NotEnoughValues)).
Proof.
  intros _ flist.
  assert (Hglob : glob_pattern (os_path_join resp_filepath "SAC_PZ*") listing = flist).
  { by apply (glob_pattern_join resp_filepath "SAC_PZ" listing). }
  unfold get_SACPZ_filelists. rewrite Hglob. split.
  - intros Hlen.
    destruct (sacpz_loop_ok flist ∅ Hlen) as (m & Hm & H1 & _ & H3).
    exists m. split; [done|]. split.
    + intros f Hf.
      destruct (responseid_tokens f) as [Htok _].
      destruct (Htok (Hlen f Hf)) as (t0 & t1 & net & sta & chn & loc & more & Hsplit & Hid).
      destruct (H3 f _ Hf Hid) as [g Hg].
      exists t0, t1, net, sta, chn, loc, more, g. split; [done|]. split; [done|].
      destruct (H1 _ _ Hg) as [Hemp|[Hin Hr]]; [by rewrite lookup_empty in Hemp|].
      by rewrite Hid.
    + intros id g Hg.
      destruct (H1 _ _ Hg) as [Hemp|?]; [by rewrite lookup_empty in Hemp|done].
  - apply sacpz_loop_raises.
Qed.

Lemma get_SACPZ_filelists_spec_witness :
  get_SACPZ_filelists "/data/pz"
    ["SAC_PZs_XJ_AKS_BHZ_00_2016.001"; "notes.txt"; "SAC_PZs_broken"]
    = Raise (ValueError NotEnoughValues) ∧
  ∃ m, get_SACPZ_filelists "/data/pz" ["SAC_PZs_XJ_AKS_BHZ_00_2016.001"; "notes.txt"] = Ok m ∧
       ∀ id g, m !! id = Some g →
         g ∈ ["/data/pz/SAC_PZs_XJ_AKS_BHZ_00_2016.001"] ∧ responseid g = Ok id.
Proof.
  split.
  - apply (get_SACPZ_filelists_spec "/data/pz"
             ["SAC_PZs_XJ_AKS_BHZ_00_2016.001"; "notes.txt"; "SAC_PZs_broken"] eq_refl).
    exists "/data/pz/SAC_PZs_broken". split; [|vm_compute; lia].
    vm_compute. right. left.
  - destruct (get_SACPZ_filelists_spec "/data/pz"
                ["SAC_PZs_XJ_AKS_BHZ_00_2016.001"; "notes.txt"] eq_refl) as [Hok _].
    destruct Hok as (m & Hm & _ & Hbind).
    + intros f Hf. vm_compute in Hf.
      apply list_elem_of_singleton in Hf as ->. vm_compute. lia.
    + exists m. split; [exact Hm | exact Hbind].
Defined.

Lemma year_first_not_listed (n : string) :
  year_first n = true → String.prefix "SAC_PZ" n = false.
Proof.
  destruct n as [|c n]; [done|]. intros Hyear.
  destruct c as [[] [] [] [] [] [] [] []]; first [discriminate Hyear | reflexivity].
Qed.

Lemma filter_year_first (listing : list string) :
  filter (λ n, String.prefix "SAC_PZ" n = true)
    (filter (λ n, year_first n = false) listing)
  = filter (λ n, String.prefix "SAC_PZ" n = true) listing.
Proof.
  induction listing as [|n listing IH]; [done|].
  rewrite (filter_cons (λ n, year_first n = false)).
  destruct (decide (year_first n = false)) as [Hn|Hn].
  - rewrite !filter_cons, IH. done.
  - rewrite filter_cons, IH.
    destruct (decide (String.prefix "SAC_PZ" n = true)) as [Hp|]; [|done].
    apply not_false_is_true, year_first_not_listed in Hn. congruence.
Qed.

(** C8: the file names the docstring documents, and those of the claim,
    start with the year, and the glob [SAC_PZ*] lists none of them. For a
    directory name without wildcard, the result is the one of the
    directory without its files named year first; and when all its files
    are named that way the function returns the empty dictionary, so no
    file of the documented convention is ever a value of the result. *)
Theorem get_SACPZ_filelists_documented_names (resp_filepath : string)
    (listing : list string) :
  has_magic resp_filepath = false →
  get_SACPZ_filelists resp_filepath listing =
    get_SACPZ_filelists resp_filepath (filter (λ n, year_first n = false) listing) ∧
  ((∀ n, n ∈ listing → year_first n = true) →
   get_SACPZ_filelists resp_filepath listing = Ok ∅).
Proof.
  intros _. unfold get_SACPZ_filelists.
  rewrite !(glob_pattern_join resp_filepath "SAC_PZ") by reflexivity.
  unfold glob_prefix. split.
  - by rewrite filter_year_first.
  - intros Hall.
    assert (filter (λ n, String.prefix "SAC_PZ" n = true) listing = []) as ->; [|done].
    induction listing as [|n listing IH]; [done|].
    rewrite filter_cons, decide_False.
    + apply IH. intros n' Hn'. apply Hall. by right.
    + rewrite (year_first_not_listed n); [done|]. apply Hall. left.
Qed.

Lemma get_SACPZ_filelists_documented_names_witness :
  get_SACPZ_filelists "/data/pz"
    ["2016.SAC.PZS.XJ.AKS.BHZ"; "2016.SAC_PZ.XJ.AKS.BHZ.00"; "2016_SAC_PZ_XJ_AKS_BHZ_00"]
    = Ok ∅.
Proof.
  apply (proj2 (get_SACPZ_filelists_documented_names "/data/pz"
                  ["2016.SAC.PZS.XJ.AKS.BHZ"; "2016.SAC_PZ.XJ.AKS.BHZ.00";
                   "2016_SAC_PZ_XJ_AKS_BHZ_00"] eq_refl)).
  intros n Hn.
  repeat (apply elem_of_cons in Hn as [->|Hn]; [reflexivity|]).
  by apply elem_of_nil in Hn.
Defined.

Example get_SACPZ_filelists_ex :
  (λ m : gmap string string, map_to_list m) <$>
    match get_SACPZ_filelists "/data/pz"
            ["SAC_PZs_XJ_AKS_BHZ_00_2016.001"; "RESP.XJ.AKS.BHZ"] with
    | Ok m => Some m
    | Raise _ => None
    end
  = Some [("XJ.AKS.00.BHZ", "/data/pz/SAC_PZs_XJ_AKS_BHZ_00_2016.001")].
Proof. reflexivity. Qed.

(** ** get_stations: the scan *)

Lemma sighting_match_key (sg : sighting) (s : Station) :
  sighting_match sg s = true ↔ BOOLATTRS s = sg_key sg.
Proof.
  unfold sighting_match, BOOLATTRS, sg_key. rewrite list_eqb_eq. split.
  - intros [= H1 H2 H3]. by rewrite H1, H2, H3.
  - intros [= H1 H2 H3]. by rewrite H1, H2, H3.
Qed.

Lemma find_station_wf (sg : sighting) (st : store) :
  store_wf st →
  (find_station sg st = None ∧ ∀ s, s ∈ heap st → BOOLATTRS s ≠ sg_key sg) ∨
  (∃ r s, find_station sg st = Some r ∧ heap st !! r = Some s ∧ BOOLATTRS s = sg_key sg).
Proof.
  intros Hwf. unfold find_station. rewrite Hwf.
  destruct (list_find _ _) as [[i r]|] eqn:E; simpl.
  - right. apply list_find_Some in E as (Hi & Hm & _).
    apply lookup_seq in Hi as [-> Hlt]. simpl in *.
    destruct (lookup_lt_is_Some_2 _ _ Hlt) as [s Hs].
    exists i, s. split; [done|]. split; [done|].
    apply sighting_match_key. by rewrite (list_lookup_total_correct _ _ _ Hs) in Hm.
  - left. split; [done|]. intros s Hs Hkey.
    apply list_find_None in E.
    apply list_elem_of_lookup in Hs as [i Hi].
    rewrite Forall_forall in E. apply (E i).
    + apply elem_of_seq. apply lookup_lt_Some in Hi. lia.
    + rewrite (list_lookup_total_correct _ _ _ Hi). by apply sighting_match_key.
Qed.

Lemma BOOLATTRS_alter_subdirs (g : list string → list string) (r : nat) (h : list Station) :
  BOOLATTRS <$> alter (set_subdirs g) r h = BOOLATTRS <$> h.
Proof.
  apply list_eq. intros j. rewrite !list_lookup_fmap.
  destruct (decide (r = j)) as [->|Hne].
  - rewrite list_lookup_alter_eq. by destruct (h !! j).
  - by rewrite list_lookup_alter_ne.
Qed.

Lemma BOOLATTRS_alter_coord (c : list (option Q)) (r : nat) (h : list Station) :
  BOOLATTRS <$> alter (set_coord c) r h = BOOLATTRS <$> h.
Proof.
  apply list_eq. intros j. rewrite !list_lookup_fmap.
  destruct (decide (r = j)) as [->|Hne].
  - rewrite list_lookup_alter_eq. by destruct (h !! j).
  - by rewrite list_lookup_alter_ne.
Qed.

Lemma NoDup_key_lookup (h : list Station) (i j : nat) (s s' : Station) :
  NoDup (BOOLATTRS <$> h) → h !! i = Some s → h !! j = Some s' →
  BOOLATTRS s = BOOLATTRS s' → i = j.
Proof.
  intros Hnd Hi Hj Hkey.
  apply (NoDup_lookup _ i j (BOOLATTRS s) Hnd); rewrite list_lookup_fmap.
  - by rewrite Hi.
  - by rewrite Hj, Hkey.
Qed.

Lemma filter_none {A} (P : A → Prop) `{∀ x, Decision (P x)} (l : list A) :
  (∀ x, x ∈ l → ¬ P x) → filter P l = [].
Proof.
  induction l as [|x l IH]; intros Hl; [done|].
  rewrite filter_cons_False by (apply Hl; left).
  apply IH. intros y Hy. apply Hl. by right.
Qed.

Section Scan.
Variables (mseed_dir : string) (startday endday : option date).
Variables (networks channels : list string).

Lemma scan_inv_init : scan_inv mseed_dir [] (mkStore [] []).
Proof.
  split; [done|]. split; [constructor|].
  split; by intros ? ?%elem_of_nil.
Qed.

Lemma scan_inv_record (sgs : list sighting) (st : store) (sg : sighting) :
  scan_inv mseed_dir sgs st →
  scan_inv mseed_dir (sgs ++ [sg]) (record_sighting mseed_dir st sg).
Proof.
  intros (Hwf & Hnd & Hsub & Hcov). unfold record_sighting.
  destruct (find_station_wf sg st Hwf) as [[-> Hfresh]|(r & s & -> & Hr & Hkey)].
  - (* a new station *)
    set (new := Station_init _ _ _ _ _ _ _).
    assert (Hnew : BOOLATTRS new = sg_key sg) by done.
    split; [|split; [|split]]; simpl.
    + unfold store_wf in *; simpl. rewrite Hwf, length_app. simpl.
      by rewrite Nat.add_1_r, seq_S.
    + rewrite fmap_app. apply NoDup_app. split; [done|]. split.
      * intros k Hk Hk'. apply list_elem_of_singleton in Hk'. subst k.
        apply list_elem_of_fmap in Hk as (s & Hs & Hin).
        apply (Hfresh s Hin). by rewrite <- Hs.
      * apply NoDup_singleton.
    + intros s [Hs|Hs%list_elem_of_singleton]%elem_of_app.
      * destruct (Hsub s Hs) as (-> & -> & ->). rewrite filter_app, fmap_app.
        rewrite (filter_none _ [sg]).
        { by rewrite app_nil_r. }
        intros x ->%list_elem_of_singleton Hx. by apply (Hfresh s Hs).
      * subst s. rewrite filter_app, fmap_app, (filter_none _ sgs).
        { rewrite filter_cons_True by done. done. }
        intros x Hx Hkx. destruct (Hcov x Hx) as (s & Hs & Hks).
        apply (Hfresh s Hs). by rewrite Hks, Hkx.
    + intros x [Hx|Hx%list_elem_of_singleton]%elem_of_app.
      * destruct (Hcov x Hx) as (s & Hs & Hks). exists s. split; [|done].
        apply elem_of_app. by left.
      * subst x. exists new. split; [|done]. apply elem_of_app. right. left.
  - (* a station seen before *)
    split; [|split; [|split]]; simpl.
    + unfold store_wf in *; simpl. by rewrite length_alter.
    + by rewrite BOOLATTRS_alter_subdirs.
    + intros s' Hs'. apply list_elem_of_lookup in Hs' as [j Hj].
      destruct (decide (r = j)) as [<-|Hne].
      * rewrite list_lookup_alter_eq, Hr in Hj. injection Hj as <-. simpl.
        destruct (Hsub s (list_elem_of_lookup_2 _ _ _ Hr)) as (-> & -> & ->).
        rewrite filter_app, fmap_app, (filter_cons_True _ sg) by done.
        change (BOOLATTRS (set_subdirs _ s)) with (BOOLATTRS s). done.
      * rewrite list_lookup_alter_ne in Hj by done.
        destruct (Hsub s' (list_elem_of_lookup_2 _ _ _ Hj)) as (-> & -> & ->).
        rewrite filter_app, fmap_app, (filter_none _ [sg]).
        { by rewrite app_nil_r. }
        intros x ->%list_elem_of_singleton Hx. apply Hne.
        apply (NoDup_key_lookup _ _ _ _ _ Hnd Hr Hj). by rewrite Hkey, Hx.
    + intros x [Hx|Hx%list_elem_of_singleton]%elem_of_app.
      * destruct (Hcov x Hx) as (s0 & Hs0 & Hks).
        apply list_elem_of_lookup in Hs0 as [j Hj].
        destruct (decide (r = j)) as [<-|Hne].
        -- exists (set_subdirs (λ ds, ds ++ [sg_subdir sg]) s0). split; [|done].
           apply (list_elem_of_lookup_2 _ r). by rewrite list_lookup_alter_eq, Hj.
        -- exists s0. split; [|done].
           apply (list_elem_of_lookup_2 _ j). by rewrite list_lookup_alter_ne.
      * subst x. exists (set_subdirs (λ ds, ds ++ [sg_subdir sg]) s). split; [|done].
        apply (list_elem_of_lookup_2 _ r). by rewrite list_lookup_alter_eq, Hr.
Qed.

Lemma scan_loop_inv (files : list string) (sgs0 : list sighting) (st st' : store) :
  scan_inv mseed_dir sgs0 st →
  for_each (scan_file mseed_dir startday endday networks channels) files st = Ok st' →
  ∃ sgs, sightings startday endday networks channels files = Ok sgs ∧
         scan_inv mseed_dir (sgs0 ++ sgs) st'.
Proof.
  revert sgs0 st. induction files as [|f files IH]; intros sgs0 st Hinv Hrun; simpl in *.
  - injection Hrun as <-. exists []. by rewrite app_nil_r.
  - destruct (scan_file mseed_dir startday endday networks channels st f)
      as [st1|e] eqn:Hstep; simpl in Hrun; [|discriminate Hrun].
    unfold scan_file in Hstep.
    destruct (inspect_file startday endday networks channels f) as [[sg|]|e];
      simpl in *; [| |discriminate Hstep]; injection Hstep as <-.
    + destruct (IH (sgs0 ++ [sg]) _ (scan_inv_record _ _ sg Hinv) Hrun) as (sgs & -> & Hinv').
      exists (sg :: sgs). split; [done|]. by rewrite <- app_assoc in Hinv'.
    + destruct (IH sgs0 _ Hinv Hrun) as (sgs & -> & Hinv').
      by exists sgs.
Qed.

Lemma scan_files_inv (files : list string) (st : store) :
  scan_files mseed_dir files startday endday networks channels = Ok st →
  ∃ sgs, sightings startday endday networks channels files = Ok sgs ∧
         scan_inv mseed_dir sgs st.
Proof.
  intros Hrun. by apply (scan_loop_inv _ [] _ _ scan_inv_init) in Hrun.
Qed.

End Scan.

(** ** get_stations: the coordinates *)

Section Resolve.
Variables (xml_inventories : list xml_inventory).
Variables (dataless_inventories : list dataless_inventory).
Variables (coord_tolerance : Q).

Lemma for_each_unbound (rs : list nat) (st : store) :
  for_each (resolve_station xml_inventories dataless_inventories None coord_tolerance) rs st
  = match rs with
    | [] => Ok st
    | _ :: _ => Raise NameError
    end.
Proof. by destruct rs. Qed.

Lemma resolve_station_database (db : gmap string station_info) (st : store) (r : nat) :
  resolve_station xml_inventories dataless_inventories (Some db) coord_tolerance st r =
  match db !! stationid (heap st !!! r) with
  | Some e => Ok (assign_coord st r (info_coord e))
  | None => stations_remove st r
  end.
Proof.
  unfold resolve_station, database_coords, stationid.
  by destruct (db !! _).
Qed.

Lemma remove_first_app (P : nat → bool) (kept : list nat) (x : nat) (rest : list nat) :
  Forall (λ r, P r = false) kept → P x = true →
  remove_first P (kept ++ x :: rest) = Some (kept ++ rest).
Proof.
  intros Hkept Hx. induction Hkept as [|r kept Hr _ IH]; simpl.
  - by rewrite Hx.
  - by rewrite Hr, IH.
Qed.

(** The database and the heap the scan left, whose stations have pairwise
    different names, networks and channels. *)
Variables (db : gmap string station_info) (h0 : list Station).
Hypothesis Hnd : NoDup (BOOLATTRS <$> h0).

Lemma resolve_inv_step (i : nat) (st : store) :
  i < length h0 → resolve_inv db h0 i st →
  ∃ st', resolve_station xml_inventories dataless_inventories (Some db)
           coord_tolerance st i = Ok st' ∧
         resolve_inv db h0 (S i) st'.
Proof.
  intros Hi (kept & Hsts & Hkept & Hlen & Hkeys & Hdrop & Hout).
  destruct (lookup_lt_is_Some_2 h0 i Hi) as [s Hs].
  assert (Hs' : heap st !! i = Some s).
  { pose proof (f_equal (λ l : list Station, l !! 0) Hdrop) as H. simpl in H.
    rewrite !lookup_drop, Nat.add_0_r in H. by rewrite H. }
  assert (Hseq : seq i (length h0 - i) = i :: seq (S i) (length h0 - S i)).
  { replace (length h0 - i) with (S (length h0 - S i)) by lia. done. }
  assert (Htake : omap (database_station db) (take (S i) h0) =
                  omap (database_station db) (take i h0) ++
                  option_list (database_station db s)).
  { rewrite (take_S_r _ _ _ Hs), omap_app. simpl.
    by destruct (database_station db s). }
  assert (Hdrop' : drop (S i) (heap st) = drop (S i) h0).
  { replace (S i) with (i + 1) by lia. by rewrite <- !drop_drop, Hdrop. }
  rewrite resolve_station_database, (list_lookup_total_correct _ _ _ Hs').
  assert (Hds : database_station db s =
                (λ e, set_coord (info_coord e) s) <$> db !! stationid s) by done.
  destruct (db !! stationid s) as [e|]; rewrite Hds in Htake; simpl in Htake.
  - (* the database knows the station *)
    eexists. split; [done|].
    exists (kept ++ [i]). unfold assign_coord; simpl.
    split; [by rewrite Hsts, Hseq, <- app_assoc|].
    split.
    { apply Forall_app. split; [eapply Forall_impl; [done|simpl; lia]|].
      constructor; [lia|constructor]. }
    split; [by rewrite length_alter|].
    split; [by rewrite BOOLATTRS_alter_coord|].
    split; [rewrite drop_alter_lt by lia; done|].
    rewrite Htake, fmap_app, <- Hout. f_equal.
    + apply Forall_fmap_ext. eapply Forall_impl; [done|]. simpl. intros r Hr.
      apply list_lookup_total_alter_ne. lia.
    + simpl. rewrite list_lookup_total_alter_eq by lia.
      by rewrite (list_lookup_total_correct _ _ _ Hs').
  - (* no record: the station is removed *)
    unfold stations_remove. rewrite Hsts, Hseq.
    rewrite remove_first_app.
    + eexists. split; [done|]. exists kept. simpl.
      split; [done|].
      split; [eapply Forall_impl; [done|simpl; lia]|].
      split; [done|]. split; [done|]. split; [done|].
      by rewrite Htake, app_nil_r.
    + eapply Forall_impl; [done|]. simpl. intros r Hr.
      apply orb_false_iff. split; [apply Nat.eqb_neq; lia|].
      destruct (Station_eq (heap st !!! r) (heap st !!! i)) eqn:Heq; [|done].
      exfalso. apply Station_eq_spec in Heq.
      assert (Hrlt : r < length (heap st)) by lia.
      destruct (lookup_lt_is_Some_2 _ _ Hrlt) as [sr Hsr].
      rewrite (list_lookup_total_correct _ _ _ Hsr),
              (list_lookup_total_correct _ _ _ Hs') in Heq.
      assert (r = i); [|lia].
      eapply NoDup_key_lookup; [|done..]. by rewrite Hkeys.
    + by rewrite Nat.eqb_refl.
Qed.

Lemma resolve_loop (k i : nat) (st : store) :
  i + k = length h0 → resolve_inv db h0 i st →
  ∃ st', for_each (resolve_station xml_inventories dataless_inventories (Some db)
                     coord_tolerance) (seq i k) st = Ok st' ∧
         resolve_inv db h0 (length h0) st'.
Proof.
  revert i st. induction k as [|k IH]; intros i st Hik Hinv; simpl.
  - exists st. split; [done|]. by replace (length h0) with i by lia.
  - destruct (resolve_inv_step i st) as (st1 & -> & Hinv1); [lia|done|].
    simpl. apply IH; [lia|done].
Qed.

End Resolve.

(** With a database, the result is the scanned stations that have a
    record, each with the coordinate of its record, in order. *)
Lemma get_stations_with_database (mseed_dir : string) (files : list string)
    (xml_inventories : list xml_inventory)
    (dataless_inventories : list dataless_inventory)
    (db : gmap string station_info) (networks channels : list string)
    (startday endday : option date) (coord_tolerance : Q) (st : store) :
  database_truthy (Some db) = true →
  scan_files mseed_dir files startday endday networks channels = Ok st →
  get_stations mseed_dir files xml_inventories dataless_inventories (Some db)
    networks channels startday endday coord_tolerance
  = Ok (omap (database_station db) (heap st)).
Proof.
  intros Hdb Hscan. unfold get_stations. rewrite Hscan, Hdb. simpl.
  destruct (scan_files_inv _ _ _ _ _ _ _ Hscan) as (sgs & _ & Hwf & Hnd & _).
  destruct (resolve_loop xml_inventories dataless_inventories coord_tolerance db
              (heap st) Hnd (length (heap st)) 0 st) as (st' & Hrun & Hinv); [done| |].
  { exists []. simpl. rewrite Nat.sub_0_r. repeat split; try done. }
  rewrite Hwf, Hrun. simpl.
  destruct Hinv as (kept & Hsts & _ & _ & _ & _ & Hout).
  rewrite Nat.sub_diag, app_nil_r in Hsts.
  unfold deref. by rewrite Hsts, Hout, take_ge.
Qed.

(** Without a database, the second loop raises at its first station. *)
Lemma get_stations_without_database (mseed_dir : string) (files : list string)
    (xml_inventories : list xml_inventory)
    (dataless_inventories : list dataless_inventory)
    (database : database_arg) (networks channels : list string)
    (startday endday : option date) (coord_tolerance : Q) (st : store) :
  database_truthy database = false →
  scan_files mseed_dir files startday endday networks channels = Ok st →
  get_stations mseed_dir files xml_inventories dataless_inventories database
    networks channels startday endday coord_tolerance
  = match stations st with
    | [] => Ok []
    | _ :: _ => Raise NameError
    end.
Proof.
  intros Hdb Hscan. unfold get_stations. rewrite Hscan, Hdb. simpl.
  rewrite for_each_unbound.
  destruct (stations st) eqn:E; simpl; [|done].
  unfold deref. by rewrite E.
Qed.

Lemma deref_wf (st : store) : store_wf st → deref st = heap st.
Proof.
  intros Hwf. unfold deref. rewrite Hwf. apply list_eq. intros i.
  rewrite list_lookup_fmap.
  destruct (decide (i < length (heap st))) as [Hi|Hi].
  - rewrite lookup_seq_lt by done. simpl.
    destruct (lookup_lt_is_Some_2 _ _ Hi) as [s Hs].
    by rewrite (list_lookup_total_correct _ _ _ Hs), Hs.
  - rewrite lookup_seq_ge, lookup_ge_None_2 by lia. done.
Qed.

Lemma stationid_key (a b : Station) :
  BOOLATTRS a = BOOLATTRS b → stationid a = stationid b.
Proof. intros (Hn & Hw & _)%BOOLATTRS_inj. unfold stationid. by rewrite Hn, Hw. Qed.

Lemma database_station_Some (db : gmap string station_info) (s s' : Station) :
  database_station db s = Some s' ↔
  ∃ e, db !! stationid s = Some e ∧ s' = set_coord (info_coord e) s.
Proof.
  unfold database_station. destruct (db !! stationid s) as [e|]; simpl.
  - split; [intros [= <-]; eauto | intros (e' & [= <-] & ->); done].
  - split; [done | intros (e' & ? & _); done].
Qed.

Lemma database_stations_keys (db : gmap string station_info) (h : list Station) (k : list string) :
  k ∈ BOOLATTRS <$> omap (database_station db) h → k ∈ BOOLATTRS <$> h.
Proof.
  intros (s' & -> & Hs')%list_elem_of_fmap.
  apply list_elem_of_omap in Hs' as (s & Hs & (e & _ & ->)%database_station_Some).
  apply list_elem_of_fmap. by exists s.
Qed.

Lemma database_stations_NoDup (db : gmap string station_info) (h : list Station) :
  NoDup (BOOLATTRS <$> h) → NoDup (BOOLATTRS <$> omap (database_station db) h).
Proof.
  induction h as [|s h IH]; simpl; [done|].
  intros [Hs Hh]%NoDup_cons.
  destruct (database_station db s) as [s'|] eqn:E; simpl; [|by apply IH].
  apply database_station_Some in E as (e & _ & ->).
  apply NoDup_cons. split; [|by apply IH].
  intros Hin. by apply Hs, (database_stations_keys db).
Qed.

(** Whatever [get_stations] returns comes from the scan and carries the
    coordinate of a database record: no returned station has a
    coordinate taken from the inventories. *)
Lemma get_stations_result (mseed_dir : string) (files : list string)
    (xml_inventories : list xml_inventory)
    (dataless_inventories : list dataless_inventory)
    (database : database_arg) (networks channels : list string)
    (startday endday : option date) (coord_tolerance : Q) (out : list Station) :
  get_stations mseed_dir files xml_inventories dataless_inventories database
    networks channels startday endday coord_tolerance = Ok out →
  ∃ st, scan_files mseed_dir files startday endday networks channels = Ok st ∧
    (out = [] ∨
     ∃ db, database = Some db ∧ database_truthy database = true ∧
           out = omap (database_station db) (heap st)).
Proof.
  intros Hrun.
  destruct (scan_files mseed_dir files startday endday networks channels)
    as [st|e] eqn:Hscan; [|by unfold get_stations in Hrun; rewrite Hscan in Hrun].
  exists st. split; [done|].
  destruct (database_truthy database) eqn:Hdb.
  - destruct database as [db|]; [|done]. right. exists db.
    rewrite (get_stations_with_database _ _ _ _ _ _ _ _ _ _ _ Hdb Hscan) in Hrun.
    injection Hrun as <-. done.
  - left.
    rewrite (get_stations_without_database _ _ _ _ _ _ _ _ _ _ _ Hdb Hscan) in Hrun.
    destruct (stations st); [by injection Hrun|done].
Qed.

Lemma get_stations_coord_from_database (mseed_dir : string) (files : list string)
    (xml_inventories : list xml_inventory)
    (dataless_inventories : list dataless_inventory)
    (database : database_arg) (networks channels : list string)
    (startday endday : option date) (coord_tolerance : Q) (out : list Station) :
  get_stations mseed_dir files xml_inventories dataless_inventories database
    networks channels startday endday coord_tolerance = Ok out →
  ∀ s, s ∈ out →
    ∃ db e, database = Some db ∧ db !! stationid s = Some e ∧
            coord s = [Some (stlo e); Some (stla e); Some (stel e)].
Proof.
  intros Hrun s Hs.
  destruct (get_stations_result _ _ _ _ _ _ _ _ _ _ _ Hrun)
    as (st & _ & [->|(db & -> & _ & ->)]); [by apply elem_of_nil in Hs|].
  apply list_elem_of_omap in Hs as (s0 & _ & (e & He & ->)%database_station_Some).
  by exists db, e.
Qed.

(** ** The largest pairwise difference *)

Lemma Qmax_cases (x y : Q) :
  (Qmax x y = x ∨ Qmax x y = y) ∧ (x <= Qmax x y)%Q ∧ (y <= Qmax x y)%Q.
Proof.
  split; [|split; [apply Q.le_max_l | apply Q.le_max_r]].
  unfold Qmax, GenericMinMax.gmax. destruct (x ?= y)%Q; auto.
Qed.

Lemma foldl_Qmax_spec (ds : list Q) (d : Q) :
  foldl Qmax d ds ∈ d :: ds ∧ ∀ x, x ∈ d :: ds → (x <= foldl Qmax d ds)%Q.
Proof.
  revert d. induction ds as [|y ds IH]; intros d; simpl.
  - split; [left|]. intros x ->%list_elem_of_singleton. apply Qle_refl.
  - destruct (IH (Qmax d y)) as [Hin Hle].
    destruct (Qmax_cases d y) as (Hcase & Hd & Hy). split.
    + apply elem_of_cons in Hin as [Hin|Hin]; [|by right; right].
      rewrite Hin. destruct Hcase as [-> | ->]; [left|right; left].
    + intros x [->|[->|Hx]%elem_of_cons]%elem_of_cons.
      * eapply Qle_trans; [exact Hd|]. apply Hle. left.
      * eapply Qle_trans; [exact Hy|]. apply Hle. left.
      * apply Hle. by right.
Qed.

Lemma combinations2_elem (l : list Q) (a b : Q) :
  (a, b) ∈ combinations2 l ↔
  ∃ i j, i < j ∧ l !! i = Some a ∧ l !! j = Some b.
Proof.
  induction l as [|x l IH]; simpl.
  - split; [by intros ?%elem_of_nil | by intros (i & j & _ & ? & _)].
  - rewrite elem_of_app, list_elem_of_fmap, IH. split.
    + intros [(y & [= -> ->] & Hy)|(i & j & Hij & Hi & Hj)].
      * apply list_elem_of_lookup in Hy as [j Hj]. exists 0, (S j).
        split; [lia|]. done.
      * exists (S i), (S j). split; [lia|]. done.
    + intros (i & j & Hij & Hi & Hj).
      destruct j as [|j]; [lia|]. destruct i as [|i]; simpl in *.
      * left. injection Hi as ->. exists b. split; [done|].
        by eapply list_elem_of_lookup_2.
      * right. exists i, j. split; [lia|]. done.
Qed.

(** [max_abs_diff (combinations2 l)] is the largest [|b - a|] over the pairs
    of positions of [l], and it exists as soon as [l] has two elements. *)
Lemma max_abs_diff_pairwise (l : list Q) :
  2 ≤ length l →
  ∃ d, max_abs_diff (combinations2 l) = Ok d ∧
    (∀ i j a b, i < j → l !! i = Some a → l !! j = Some b → (Qabs (b - a) <= d)%Q) ∧
    (∃ i j a b, i < j ∧ l !! i = Some a ∧ l !! j = Some b ∧ d = Qabs (b - a)%Q).
Proof.
  intros Hlen. unfold max_abs_diff.
  set (diffs := (λ '(a, b), Qabs (b - a)%Q) <$> combinations2 l).
  assert (Hdiffs : ∀ x, x ∈ diffs ↔
            ∃ i j a b, i < j ∧ l !! i = Some a ∧ l !! j = Some b ∧ x = Qabs (b - a)%Q).
  { intros x. unfold diffs. rewrite list_elem_of_fmap. split.
    - intros ([a b] & -> & (i & j & ? & ? & ?)%combinations2_elem).
      by exists i, j, a, b.
    - intros (i & j & a & b & Hij & Hi & Hj & ->). exists (a, b). split; [done|].
      apply combinations2_elem. by exists i, j. }
  destruct diffs as [|d ds] eqn:E.
  - exfalso. destruct l as [|a [|b l]]; simpl in Hlen; try lia.
    apply (elem_of_nil (Qabs (b - a)%Q)). apply Hdiffs.
    exists 0, 1, a, b. split; [lia|]. done.
  - destruct (foldl_Qmax_spec ds d) as [Hin Hle].
    exists (foldl Qmax d ds). split; [done|]. split.
    + intros i j a b Hij Hi Hj. apply Hle, Hdiffs. by exists i, j, a, b.
    + by apply Hdiffs.
Qed.

(** What the last branch of the coordinate statement does with two or more
    (lon, lat) observations. *)
Lemma apply_coords_several (coord_tolerance : Q) (st : store) (r : nat)
    (c1 c2 : tuple) (cs : list tuple) (lons lats : list Q) (dlon dlat : Q) :
  unpack_pairs (λ lon _, lon) (c1 :: c2 :: cs) = Ok lons →
  unpack_pairs (λ _ lat, lat) (c1 :: c2 :: cs) = Ok lats →
  max_abs_diff (combinations2 lons) = Ok dlon →
  max_abs_diff (combinations2 lats) = Ok dlat →
  apply_coords coord_tolerance st r (c1 :: c2 :: cs) =
    if Qle_bool dlon coord_tolerance && Qle_bool dlat coord_tolerance
    then Ok (assign_coord st r [Some (np_mean lons); Some (np_mean lats)])
    else stations_remove st r.
Proof.
  intros Hlons Hlats Hdlon Hdlat. unfold apply_coords.
  by rewrite Hlons, Hlats; simpl; rewrite Hdlon, Hdlat.
Qed.

(** ** get_stations: the claims *)

(** C3: with a falsy [database] (the default [False], or an empty
    dictionary) and at least one station found by the scan,
    [get_stations] raises [NameError]: [stationinfo] is unbound when the
    second loop reads it, whatever the inventories hold. *)
Theorem get_stations_unbound_stationinfo (mseed_dir : string) (files : list string)
    (xml_inventories : list xml_inventory)
    (dataless_inventories : list dataless_inventory)
    (database : database_arg) (networks channels : list string)
    (startday endday : option date) (coord_tolerance : Q) (st : store) :
  database_truthy database = false →
  scan_files mseed_dir files startday endday networks channels = Ok st →
  deref st ≠ [] →
  get_stations mseed_dir files xml_inventories dataless_inventories database
    networks channels startday endday coord_tolerance = Raise NameError.
Proof.
  intros Hdb Hscan Hne.
  rewrite (get_stations_without_database _ _ _ _ _ _ _ _ _ _ _ Hdb Hscan).
  unfold deref in Hne. by destruct (stations st).
Qed.

Lemma get_stations_unbound_stationinfo_witness :
  database_truthy None = false ∧ database_truthy (Some ∅) = false ∧
  get_stations "/data" ["20160806/BL.CACB.00.BHZ.D.mseed"]
    [[mkXmlNetwork "BL" [mkXmlStation "CACB" 10%Q 20%Q]]] [] None
    [] [] None None (1 # 10000)%Q = Raise NameError.
Proof.
  split; [reflexivity|]. split; [reflexivity|].
  eapply get_stations_unbound_stationinfo.
  - reflexivity.
  - reflexivity.
  - vm_compute. discriminate.
Defined.

(** C2 (as the code has it): when a non-empty database is passed,
    [get_stations] returns the stations found by the scan that have a record in the database, in
    order, each with the coordinate of its record. So for every station
    found by the scan: if the database has a record under "network.name",
    the station is returned with the record's (stlo, stla, stel) as
    coordinate, whatever the inventories hold; if the database has no
    such record, no station with that name, network and channel is
    returned. *)
Theorem get_stations_database_precedence (mseed_dir : string) (files : list string)
    (xml_inventories : list xml_inventory)
    (dataless_inventories : list dataless_inventory)
    (db : gmap string station_info) (networks channels : list string)
    (startday endday : option date) (coord_tolerance : Q) (st : store) :
  database_truthy (Some db) = true →
  scan_files mseed_dir files startday endday networks channels = Ok st →
  let out := omap (database_station db) (deref st) in
  get_stations mseed_dir files xml_inventories dataless_inventories (Some db)
    networks channels startday endday coord_tolerance = Ok out ∧
  ∀ s, s ∈ deref st →
    (∀ e, db !! stationid s = Some e →
       set_coord [Some (stlo e); Some (stla e); Some (stel e)] s ∈ out ∧
       ∀ s', s' ∈ out → Station_eq s' s = true →
             coord s' = [Some (stlo e); Some (stla e); Some (stel e)]) ∧
    (db !! stationid s = None →
       ∀ s', s' ∈ out → Station_eq s' s = false).
Proof.
  intros Hdb Hscan out. subst out.
  destruct (scan_files_inv _ _ _ _ _ _ _ Hscan) as (sgs & _ & Hwf & _).
  rewrite (deref_wf _ Hwf).
  split; [by apply get_stations_with_database|].
  intros s Hs.
  assert (Hfrom : ∀ s', s' ∈ omap (database_station db) (heap st) →
            Station_eq s' s = true →
            ∃ e, db !! stationid s = Some e ∧ coord s' = info_coord e).
  { intros s' (s0 & _ & (e & He & ->)%database_station_Some)%list_elem_of_omap Heq.
    apply Station_eq_spec in Heq.
    exists e. split; [|done]. by rewrite <- (stationid_key _ _ Heq). }
  split.
  - intros e He. split.
    + apply list_elem_of_omap. exists s. split; [done|].
      apply database_station_Some. by exists e.
    + intros s' Hs' Heq. destruct (Hfrom s' Hs' Heq) as (e' & He' & ->).
      rewrite He in He'. by injection He' as <-.
  - intros Hnone s' Hs'. destruct (Station_eq s' s) eqn:Heq; [|done].
    destruct (Hfrom s' Hs' Heq) as (e' & He' & _). by rewrite Hnone in He'.
Qed.

Lemma get_stations_database_precedence_witness :
  let db : gmap string station_info :=
    {[ "BL.CACB" := mkInfo (-(45 # 2))%Q (-(863 # 20))%Q 12%Q ]} in
  let inventory := [mkXmlNetwork "BL" [mkXmlStation "CACB" 10%Q 20%Q;
                                       mkXmlStation "NUPB" 11%Q 21%Q]] in
  let files := ["20160806/BL.CACB.00.BHZ.D.mseed"; "20160806/BL.NUPB.00.BHZ.D.mseed"] in
  let cacb := mkStation "CACB" "BL" "BHZ" "BL.CACB.00.BHZ.*.mseed" "/data"
                ["20160806"] [None; None] in
  ∃ out,
    get_stations "/data" files [inventory] [] (Some db) [] [] None None (1 # 10000)%Q
      = Ok out ∧
    set_coord [Some (-(863 # 20))%Q; Some (-(45 # 2))%Q; Some 12%Q] cacb ∈ out.
Proof.
  intros db inventory files cacb.
  destruct (get_stations_database_precedence "/data" files [inventory] [] db [] []
              None None (1 # 10000)%Q
              (mkStore [cacb; mkStation "NUPB" "BL" "BHZ" "BL.NUPB.00.BHZ.*.mseed"
                                "/data" ["20160806"] [None; None]] [0; 1]))
    as [Hout Hall].
  - reflexivity.
  - reflexivity.
  - eexists. split; [exact Hout|].
    destruct (Hall cacb) as [Hrec _]; [left|].
    apply (Hrec (mkInfo (-(45 # 2))%Q (-(863 # 20))%Q 12%Q)). reflexivity.
Defined.

(** C2, as stated, fails: an empty dictionary is a supplied database that
    lacks the key of the station, yet the station is not dropped from a
    returned list: the test [if database:] takes the empty dictionary for
    no database, and [get_stations] raises [NameError] instead of
    returning. *)
Lemma get_stations_empty_database :
  let db : gmap string station_info := ∅ in
  let inventory := [mkXmlNetwork "BL" [mkXmlStation "CACB" 10%Q 20%Q]] in
  let files := ["20160806/BL.CACB.00.BHZ.D.mseed"] in
  db !! "BL.CACB" = None ∧
  get_stations "/data" files [inventory] [] (Some db) [] [] None None (1 # 10000)%Q
    = Raise NameError ∧
  ¬ ∃ out,
      get_stations "/data" files [inventory] [] (Some db) [] [] None None (1 # 10000)%Q
        = Ok out.
Proof.
  intros db inventory files.
  assert (Hrun : get_stations "/data" files [inventory] [] (Some db) [] [] None None
                   (1 # 10000)%Q = Raise NameError) by reflexivity.
  split; [reflexivity|]. split; [exact Hrun|].
  intros [out Hout]. rewrite Hrun in Hout. discriminate Hout.
Qed.

(** C4 (as the code has it): when [get_stations] returns, no two returned
    stations have the same name, network and channel, and the [subdirs]
    of each returned station lists, in file order, the date directory of
    every file that passed the filters and has that station's name,
    network and channel: one entry per file, so that a date directory
    occurs as often as it holds such files. *)
Theorem get_stations_subdirs (mseed_dir : string) (files : list string)
    (xml_inventories : list xml_inventory)
    (dataless_inventories : list dataless_inventory)
    (database : database_arg) (networks channels : list string)
    (startday endday : option date) (coord_tolerance : Q) (out : list Station) :
  get_stations mseed_dir files xml_inventories dataless_inventories database
    networks channels startday endday coord_tolerance = Ok out →
  ∃ sgs,
    sightings startday endday networks channels files = Ok sgs ∧
    NoDup (BOOLATTRS <$> out) ∧
    ∀ s, s ∈ out →
      subdirs s = sg_subdir <$> filter (λ sg, sg_key sg = BOOLATTRS s) sgs.
Proof.
  intros Hrun.
  destruct (get_stations_result _ _ _ _ _ _ _ _ _ _ _ Hrun) as (st & Hscan & Hout).
  destruct (scan_files_inv _ _ _ _ _ _ _ Hscan) as (sgs & Hsgs & _ & Hnd & Hsub & _).
  exists sgs. split; [done|].
  destruct Hout as [->|(db & _ & _ & ->)].
  - split; [constructor|]. by intros s ?%elem_of_nil.
  - split; [by apply database_stations_NoDup|].
    intros s (s0 & Hs0 & (e & _ & ->)%database_station_Some)%list_elem_of_omap.
    destruct (Hsub s0 Hs0) as (Hsd & _). exact Hsd.
Qed.

Lemma get_stations_subdirs_witness :
  let db : gmap string station_info := {[ "BL.CACB" := mkInfo 1%Q 2%Q 3%Q ]} in
  let files := ["20160806/BL.CACB.00.BHZ.D.mseed"; "20160807/BL.CACB.00.BHZ.D.mseed"] in
  let out := [mkStation "CACB" "BL" "BHZ" "BL.CACB.00.BHZ.*.mseed" "/data"
                ["20160806"; "20160807"] [Some 2%Q; Some 1%Q; Some 3%Q]] in
  ∃ sgs,
    sightings None None [] [] files = Ok sgs ∧
    NoDup (BOOLATTRS <$> out) ∧
    ∀ s, s ∈ out →
      subdirs s = sg_subdir <$> filter (λ sg, sg_key sg = BOOLATTRS s) sgs.
Proof.
  intros db files out.
  apply (get_stations_subdirs "/data" files [] [] (Some db) [] [] None None
           (1 # 10000)%Q out).
  reflexivity.
Defined.

(** C4, as stated, fails: two files of one station in the same date
    directory (here they differ in the location code) put that directory
    twice into [subdirs]. *)
Lemma get_stations_repeated_subdir :
  let db : gmap string station_info := {[ "BL.CACB" := mkInfo 1%Q 2%Q 3%Q ]} in
  let files := ["20160806/BL.CACB.00.BHZ.D.mseed"; "20160806/BL.CACB.10.BHZ.D.mseed"] in
  let out := [mkStation "CACB" "BL" "BHZ" "BL.CACB.00.BHZ.*.mseed" "/data"
                ["20160806"; "20160806"] [Some 2%Q; Some 1%Q; Some 3%Q]] in
  get_stations "/data" files [] [] (Some db) [] [] None None (1 # 10000)%Q = Ok out ∧
  ¬ Forall (λ s, NoDup (subdirs s)) out.
Proof.
  intros db files out. split; [reflexivity|].
  intros Hall. apply Forall_inv in Hall. simpl in Hall.
  apply NoDup_cons in Hall as [Hnotin _]. apply Hnotin. left.
Qed.

(** C1 at a concrete input: one station, two StationXML inventories whose
    observations (10, 20) and (10.00005, 20) differ by less than the
    tolerance 1e-4. The two observations are both in the set built from
    the inventories, and the last branch of the coordinate statement, run
    on that set, assigns their mean; but [get_stations] never runs it on
    that set: without a database it raises [NameError], with a database
    it returns the database coordinate or drops the station. *)
Theorem get_stations_two_observations :
  let files := ["20160806/BL.CACB.00.BHZ.D.mseed"] in
  let inv1 := [mkXmlNetwork "BL" [mkXmlStation "CACB" 10%Q 20%Q]] in
  let inv2 := [mkXmlNetwork "BL" [mkXmlStation "CACB" (1000005 # 100000)%Q 20%Q]] in
  let tol := (1 # 10000)%Q in
  let sta := mkStation "CACB" "BL" "BHZ" "BL.CACB.00.BHZ.*.mseed" "/data"
               ["20160806"] [None; None] in
  let observations := [[10%Q; 20%Q]; [(1000005 # 100000)%Q; 20%Q]] in
  let db : gmap string station_info := {[ "BL.CACB" := mkInfo 1%Q 2%Q 3%Q ]} in
  let other : gmap string station_info := {[ "XJ.AKS" := mkInfo 1%Q 2%Q 3%Q ]} in
  scan_files "/data" files None None [] [] = Ok (mkStore [sta] [0]) ∧
  py_set_union (py_set (dataless_coords [] sta)) (xml_coords [inv1; inv2] sta)
    = observations ∧
  apply_coords tol (mkStore [sta] [0]) 0 observations
    = Ok (mkStore [set_coord [Some (np_mean [10%Q; (1000005 # 100000)%Q]);
                              Some (np_mean [20%Q; 20%Q])] sta] [0]) ∧
  (np_mean [10%Q; (1000005 # 100000)%Q] == 2000005 # 200000)%Q ∧
  get_stations "/data" files [inv1; inv2] [] None [] [] None None tol
    = Raise NameError ∧
  get_stations "/data" files [inv1; inv2] [] (Some db) [] [] None None tol
    = Ok [set_coord [Some 2%Q; Some 1%Q; Some 3%Q] sta] ∧
  get_stations "/data" files [inv1; inv2] [] (Some other) [] [] None None tol
    = Ok [].
Proof. repeat split. Qed.

(** * Further properties *)

(** ** get_stations: what a file contributes *)

Lemma pair_ltb_false (a b c d : Z) : pair_ltb a b c d = false ↔ pair_le c d a b.
Proof. unfold pair_ltb, pair_le. lia. Qed.

Lemma filtered_out_false (allowed : list string) (x : string) :
  filtered_out allowed x = false ↔ (allowed ≠ [] → x ∈ allowed).
Proof.
  unfold filtered_out. destruct allowed as [|a l]; [by split|].
  rewrite negb_false_iff, bool_decide_eq_true. split; [auto|]. intros H. by apply H.
Qed.

(** What [inspect_file] has checked when it lets a file through. *)
Lemma inspect_file_Some (startday endday : option date) (networks channels : list string)
    (f : string) (sg : sighting) :
  inspect_file startday endday networks channels f = Ok (Some sg) →
  ∃ y m d loc,
    sg_subdir sg = (os_path_split f).1 ∧
    py_int (str_slice 0 4 (sg_subdir sg)) = Ok y ∧
    py_int (str_slice 4 6 (sg_subdir sg)) = Ok m ∧
    py_int (str_slice 6 8 (sg_subdir sg)) = Ok d ∧
    (∀ sd, startday = Some sd → pair_le (year sd) (month sd) y m) ∧
    (∀ ed, endday = Some ed → pair_le y m (year ed) (month ed)) ∧
    slice 0 4 (str_split "." (os_path_split f).2)
      = [sg_network sg; sg_name sg; loc; sg_channel sg] ∧
    sg_filename sg
      = str_join "." [sg_network sg; sg_name sg; loc; sg_channel sg; "*"; "mseed"] ∧
    (networks ≠ [] → sg_network sg ∈ networks) ∧
    (channels ≠ [] → sg_channel sg ∈ channels).
Proof.
  unfold inspect_file.
  destruct (os_path_split f) as [subdir raw]; simpl.
  destruct (py_int (str_slice 0 4 subdir)) as [y|] eqn:Hy; simpl; [|done].
  destruct (py_int (str_slice 4 6 subdir)) as [m|] eqn:Hm; simpl; [|done].
  destruct (py_int (str_slice 6 8 subdir)) as [d|] eqn:Hd; simpl; [|done].
  destruct (from_option _ false ((λ d0, (year d0, month d0)) <$> startday)) eqn:Hs; [done|].
  destruct (from_option _ false ((λ d0, (year d0, month d0)) <$> endday)) eqn:He; [done|].
  destruct (unpack4 (slice 0 4 (str_split "." raw))) as [[[[net nm] loc] ch]|] eqn:Hu;
    simpl; [|done].
  destruct (filtered_out networks net) eqn:Hn; [done|].
  destruct (filtered_out channels ch) eqn:Hc; [done|].
  intros [= <-]. simpl. exists y, m, d, loc.
  repeat split; try done.
  - intros sd ->. simpl in Hs. by apply pair_ltb_false.
  - intros ed ->. simpl in He. by apply pair_ltb_false.
  - unfold unpack4 in Hu.
    destruct (slice 0 4 (str_split "." raw)) as [|a [|b [|c [|e [|? ?]]]]]; try done.
    by injection Hu as -> -> -> ->.
  - by apply (proj1 (filtered_out_false _ _)).
  - by apply (proj1 (filtered_out_false _ _)).
Qed.

(** The only exceptions of [inspect_file]. *)
Lemma inspect_file_Raise (startday endday : option date) (networks channels : list string)
    (f : string) (e : exn) :
  inspect_file startday endday networks channels f = Raise e →
  e = ValueError InvalidLiteral ∨ e = ValueError NotEnoughValues.
Proof.
  unfold inspect_file.
  destruct (os_path_split f) as [subdir raw]; simpl.
  unfold py_int.
  repeat match goal with
         | |- context [match ?x with Some _ => _ | None => _ end] =>
             destruct x; simpl; [|intros [= <-]; by left]
         end.
  destruct (from_option _ false ((λ d0, (year d0, month d0)) <$> startday)); [done|].
  destruct (from_option _ false ((λ d0, (year d0, month d0)) <$> endday)); [done|].
  destruct (slice 0 4 (str_split "." raw)) as [|a [|b [|c [|d0 l]]]] eqn:Hsl; simpl;
    try (intros [= <-]; by right).
  destruct l as [|x l]; simpl.
  - destruct (filtered_out networks a); [done|].
    by destruct (filtered_out channels d0).
  - exfalso. assert (length (slice 0 4 (str_split "." raw)) ≤ 4) as Hlen.
    { unfold slice. rewrite length_take. lia. }
    rewrite Hsl in Hlen. simpl in Hlen. lia.
Qed.

Lemma sightings_elem (startday endday : option date) (networks channels : list string)
    (files : list string) (sgs : list sighting) :
  sightings startday endday networks channels files = Ok sgs →
  ∀ sg, sg ∈ sgs ↔
        ∃ f, f ∈ files ∧ inspect_file startday endday networks channels f = Ok (Some sg).
Proof.
  revert sgs. induction files as [|f files IH]; simpl; intros sgs Hs sg.
  - injection Hs as <-. split; [by intros ?%elem_of_nil|].
    by intros (f & ?%elem_of_nil & _).
  - destruct (inspect_file startday endday networks channels f) as [osg|] eqn:Hf;
      simpl in Hs; [|done].
    destruct (sightings startday endday networks channels files) as [sgs'|] eqn:Hrest;
      simpl in Hs; [|done].
    injection Hs as <-. rewrite elem_of_app, (IH sgs' eq_refl). split.
    + intros [Hsg|(f' & Hf' & Hi)].
      * exists f. split; [left|]. destruct osg as [sg'|]; simpl in Hsg.
        -- apply list_elem_of_singleton in Hsg. by subst.
        -- by apply elem_of_nil in Hsg.
      * exists f'. split; [by right|done].
    + intros (f' & [->|Hf']%elem_of_cons & Hi).
      * left. rewrite Hf in Hi. injection Hi as ->. simpl. left.
      * right. by exists f'.
Qed.

Lemma sightings_Raise (startday endday : option date) (networks channels : list string)
    (files : list string) :
  (∀ e, sightings startday endday networks channels files = Raise e →
        ∃ f, f ∈ files ∧ inspect_file startday endday networks channels f = Raise e) ∧
  (∀ f e, f ∈ files → inspect_file startday endday networks channels f = Raise e →
          ∃ e', sightings startday endday networks channels files = Raise e').
Proof.
  induction files as [|f files [IH1 IH2]]; simpl.
  - split; [done|]. by intros f e ?%elem_of_nil.
  - destruct (inspect_file startday endday networks channels f) as [osg|e0] eqn:Hf; simpl.
    + destruct (sightings startday endday networks channels files) as [sgs'|e1]; simpl.
      * split; [done|]. intros f' e [->|Hf']%elem_of_cons Hi.
        -- by rewrite Hf in Hi.
        -- destruct (IH2 f' e Hf' Hi) as [e' ?]. done.
      * split; [|eauto]. intros e [= <-].
        destruct (IH1 e1 eq_refl) as (f' & ? & ?). exists f'. split; [by right|done].
    + split; [|eauto]. intros e [= <-]. exists f. split; [left|done].
Qed.

(** The first loop, as a fold over the sightings. *)
Lemma scan_loop_fold (mseed_dir : string) (startday endday : option date)
    (networks channels : list string) (files : list string) (st : store) :
  for_each (scan_file mseed_dir startday endday networks channels) files st =
  match sightings startday endday networks channels files with
  | Ok sgs => Ok (foldl (record_sighting mseed_dir) st sgs)
  | Raise e => Raise e
  end.
Proof.
  revert st. induction files as [|f files IH]; intros st; simpl; [done|].
  assert (Hstep : scan_file mseed_dir startday endday networks channels st f =
                  match inspect_file startday endday networks channels f with
                  | Ok (Some sg) => Ok (record_sighting mseed_dir st sg)
                  | Ok None => Ok st
                  | Raise e => Raise e
                  end).
  { unfold scan_file.
    by destruct (inspect_file startday endday networks channels f) as [[sg|]|e]. }
  rewrite Hstep.
  destruct (inspect_file startday endday networks channels f) as [[sg|]|e]; simpl; [| |done].
  - rewrite IH. by destruct (sightings startday endday networks channels files).
  - rewrite IH. by destruct (sightings startday endday networks channels files).
Qed.

Lemma scan_fold_inv (mseed_dir : string) (sgs : list sighting) :
  scan_inv mseed_dir sgs (foldl (record_sighting mseed_dir) (mkStore [] []) sgs).
Proof.
  induction sgs as [|sg sgs IH] using rev_ind; [apply scan_inv_init|].
  rewrite foldl_app. simpl. by apply scan_inv_record.
Qed.

Lemma first_seen_elem {A} `{EqDecision A} (l : list A) (x : A) :
  x ∈ first_seen l ↔ x ∈ l.
Proof.
  induction l as [|y l IH]; simpl; [done|].
  rewrite !elem_of_cons, list_elem_of_filter, IH.
  destruct (decide (x = y)) as [->|?]; intuition.
Qed.

Lemma first_seen_NoDup {A} `{EqDecision A} (l : list A) : NoDup (first_seen l).
Proof.
  induction l as [|y l IH]; simpl; [constructor|].
  apply NoDup_cons. split.
  - rewrite list_elem_of_filter. by intros [? _].
  - by apply NoDup_filter.
Qed.

Lemma first_seen_snoc {A} `{EqDecision A} (l : list A) (y : A) :
  first_seen (l ++ [y]) = if decide (y ∈ l) then first_seen l else first_seen l ++ [y].
Proof.
  induction l as [|x l IH]; simpl.
  - destruct (decide (y ∈ [])) as [Hy|_]; [by apply elem_of_nil in Hy|done].
  - rewrite IH. destruct (decide (y ∈ l)) as [Hy|Hy].
    + destruct (decide (y ∈ x :: l)) as [_|Hn]; [done|]. exfalso. apply Hn. by right.
    + rewrite filter_app. destruct (decide (y = x)) as [->|Hne].
      * destruct (decide (x ∈ x :: l)) as [_|Hn]; [|exfalso; apply Hn; left].
        rewrite (filter_cons_False _ x) by (by intros ?). by rewrite filter_nil, app_nil_r.
      * destruct (decide (y ∈ x :: l)) as [[?|?]%elem_of_cons|_]; [done..|].
        by rewrite (filter_cons_True _ y) by done.
Qed.

Lemma first_sighting_snoc (sgs : list sighting) (sg : sighting) (s : Station) :
  first_sighting sgs s → first_sighting (sgs ++ [sg]) s.
Proof.
  intros (sgs1 & sg0 & sgs2 & -> & ? & ? & ?).
  exists sgs1, sg0, (sgs2 ++ [sg]). by rewrite <- app_assoc.
Qed.

Lemma scan_fold_origin (mseed_dir : string) (sgs : list sighting) :
  BOOLATTRS <$> scanned mseed_dir sgs = first_seen (sg_key <$> sgs) ∧
  ∀ s, s ∈ scanned mseed_dir sgs → first_sighting sgs s.
Proof.
  unfold scanned.
  induction sgs as [|sg sgs [IHk IHo]] using rev_ind.
  { split; [done|]. by intros s ?%elem_of_nil. }
  rewrite foldl_app. simpl.
  pose proof (scan_fold_inv mseed_dir sgs) as (Hwf & Hnd & Hsub & Hcov).
  set (st := foldl (record_sighting mseed_dir) (mkStore [] []) sgs) in *.
  rewrite fmap_app. simpl. rewrite first_seen_snoc.
  unfold record_sighting.
  destruct (find_station_wf sg st Hwf) as [[-> Hfresh]|(r & s & -> & Hr & Hkey)]; simpl.
  - (* a new station *)
    assert (Hnotin : sg_key sg ∉ sg_key <$> sgs).
    { intros (x & Hx & Hin)%list_elem_of_fmap.
      destruct (Hcov x Hin) as (s & Hs & Hks). apply (Hfresh s Hs). by rewrite Hks. }
    destruct (decide (sg_key sg ∈ sg_key <$> sgs)) as [?|_]; [done|]. split.
    + by rewrite fmap_app, IHk.
    + intros s [Hs|Hs%list_elem_of_singleton]%elem_of_app.
      * by apply first_sighting_snoc, IHo.
      * subst s. exists sgs, sg, []. repeat split; try done.
        intros x Hx Hkx. apply Hnotin. apply list_elem_of_fmap. by exists x.
  - (* a station seen before *)
    assert (Hin : sg_key sg ∈ sg_key <$> sgs).
    { apply first_seen_elem. rewrite <- IHk, <- Hkey.
      apply list_elem_of_fmap. exists s. split; [done|]. by eapply list_elem_of_lookup_2. }
    destruct (decide (sg_key sg ∈ sg_key <$> sgs)) as [_|?]; [|done]. split.
    + by rewrite BOOLATTRS_alter_subdirs.
    + intros s' [j Hj]%list_elem_of_lookup. apply first_sighting_snoc.
      destruct (decide (r = j)) as [<-|Hne].
      * rewrite list_lookup_alter_eq, Hr in Hj. injection Hj as <-.
        destruct (IHo s (list_elem_of_lookup_2 _ _ _ Hr)) as (l1 & x & l2 & ? & ? & ? & ?).
        by exists l1, x, l2.
      * rewrite list_lookup_alter_ne in Hj by done.
        by apply IHo, (list_elem_of_lookup_2 _ j).
Qed.

(** [get_stations], case by case. *)
Lemma get_stations_cases (mseed_dir : string) (files : list string)
    (xml_inventories : list xml_inventory)
    (dataless_inventories : list dataless_inventory)
    (database : database_arg) (networks channels : list string)
    (startday endday : option date) (coord_tolerance : Q) :
  get_stations mseed_dir files xml_inventories dataless_inventories database
    networks channels startday endday coord_tolerance =
  match sightings startday endday networks channels files with
  | Raise e => Raise e
  | Ok sgs =>
      if database_truthy database
      then Ok (omap (database_station (default ∅ database)) (scanned mseed_dir sgs))
      else match sgs with
           | [] => Ok []
           | _ :: _ => Raise NameError
           end
  end.
Proof.
  destruct (scan_files mseed_dir files startday endday networks channels) as [st|e] eqn:Hscan.
  - pose proof Hscan as Hfold. unfold scan_files in Hfold. rewrite scan_loop_fold in Hfold.
    destruct (sightings startday endday networks channels files) as [sgs|] eqn:Hs; [|done].
    injection Hfold as Hst.
    destruct (database_truthy database) eqn:Hdb.
    + destruct database as [db|]; [|done]. simpl.
      rewrite (get_stations_with_database _ _ _ _ _ _ _ _ _ _ _ Hdb Hscan).
      unfold scanned. by rewrite Hst.
    + rewrite (get_stations_without_database _ _ _ _ _ _ _ _ _ _ _ Hdb Hscan).
      pose proof (scan_fold_inv mseed_dir sgs) as (Hwf & _ & _ & Hcov).
      rewrite Hst in Hwf, Hcov. rewrite Hwf.
      destruct sgs as [|sg sgs]; [by subst st|].
      destruct (Hcov sg) as (s & Hs' & _); [left|].
      destruct (heap st); [by apply elem_of_nil in Hs'|done].
  - unfold get_stations. rewrite Hscan. simpl.
    unfold scan_files in Hscan. rewrite scan_loop_fold in Hscan.
    destruct (sightings startday endday networks channels files); [done|].
    by injection Hscan as ->.
Qed.

Lemma skipped_inspect (startday endday : option date) (networks channels : list string)
    (f : string) :
  skipped startday endday networks channels f →
  inspect_file startday endday networks channels f = Ok None.
Proof.
  intros (y & m & d & Hy & Hm & Hd & Hwhy). unfold inspect_file.
  destruct (os_path_split f) as [subdir raw]; simpl in *.
  rewrite Hy, Hm, Hd. simpl.
  destruct (from_option _ false ((λ d0, (year d0, month d0)) <$> startday)) eqn:Hs; [done|].
  destruct (from_option _ false ((λ d0, (year d0, month d0)) <$> endday)) eqn:He; [done|].
  destruct Hwhy as [(sd & -> & Hout)|[(ed & -> & Hout)|(net & nm & loc & ch & -> & Hflt)]].
  - simpl in Hs. by apply pair_ltb_false in Hs.
  - simpl in He. by apply pair_ltb_false in He.
  - simpl.
    destruct (filtered_out networks net) eqn:Hn; [done|].
    destruct (filtered_out channels ch) eqn:Hc; [done|].
    pose proof (proj1 (filtered_out_false _ _) Hn) as Hn'.
    pose proof (proj1 (filtered_out_false _ _) Hc) as Hc'.
    destruct Hflt as [[? Hnot]|[? Hnot]]; destruct Hnot; auto.
Qed.

Lemma sightings_app (startday endday : option date) (networks channels : list string)
    (l1 l2 : list string) :
  sightings startday endday networks channels (l1 ++ l2) =
  sgs1 ← sightings startday endday networks channels l1;
  sgs2 ← sightings startday endday networks channels l2;
  Ok (sgs1 ++ sgs2).
Proof.
  induction l1 as [|f l1 IH]; simpl.
  - by destruct (sightings startday endday networks channels l2).
  - destruct (inspect_file startday endday networks channels f) as [osg|]; simpl; [|done].
    rewrite IH.
    destruct (sightings startday endday networks channels l1) as [sgs1|]; simpl; [|done].
    destruct (sightings startday endday networks channels l2) as [sgs2|]; simpl; [|done].
    by rewrite app_assoc.
Qed.

Lemma get_stations_Ok (mseed_dir : string) (files : list string)
    (xml_inventories : list xml_inventory)
    (dataless_inventories : list dataless_inventory)
    (database : database_arg) (networks channels : list string)
    (startday endday : option date) (coord_tolerance : Q) (out : list Station) :
  get_stations mseed_dir files xml_inventories dataless_inventories database
    networks channels startday endday coord_tolerance = Ok out →
  ∃ sgs, sightings startday endday networks channels files = Ok sgs ∧
    ∀ s, s ∈ out →
      ∃ s0 e, s0 ∈ scanned mseed_dir sgs ∧ s = set_coord (info_coord e) s0.
Proof.
  rewrite get_stations_cases.
  destruct (sightings startday endday networks channels files) as [sgs|]; [|done].
  intros Hout. exists sgs. split; [done|]. intros s Hs.
  destruct (database_truthy database).
  - injection Hout as <-.
    apply list_elem_of_omap in Hs as (s0 & Hs0 & (e & _ & ->)%database_station_Some).
    by exists s0, e.
  - destruct sgs; [|done]. injection Hout as <-. by apply elem_of_nil in Hs.
Qed.

(** ** get_stations: further statements *)

(** X1: the inventories and the tolerance have no influence on what
    [get_stations] returns or raises. *)
Theorem get_stations_ignores_inventories (mseed_dir : string) (files : list string)
    (xml1 xml2 : list xml_inventory) (dataless1 dataless2 : list dataless_inventory)
    (database : database_arg) (networks channels : list string)
    (startday endday : option date) (tolerance1 tolerance2 : Q) :
  get_stations mseed_dir files xml1 dataless1 database
    networks channels startday endday tolerance1 =
  get_stations mseed_dir files xml2 dataless2 database
    networks channels startday endday tolerance2.
Proof. by rewrite !get_stations_cases. Qed.

(** X2: without a database ([False] or an empty dictionary)
    [get_stations] returns only when no file passes the filters, and then
    it returns the empty list. *)
Theorem get_stations_default_database (mseed_dir : string) (files : list string)
    (xml_inventories : list xml_inventory)
    (dataless_inventories : list dataless_inventory)
    (database : database_arg) (networks channels : list string)
    (startday endday : option date) (coord_tolerance : Q) :
  database_truthy database = false →
  (∀ out,
     get_stations mseed_dir files xml_inventories dataless_inventories database
       networks channels startday endday coord_tolerance = Ok out →
     out = [] ∧ sightings startday endday networks channels files = Ok []) ∧
  (sightings startday endday networks channels files = Ok [] →
   get_stations mseed_dir files xml_inventories dataless_inventories database
     networks channels startday endday coord_tolerance = Ok []).
Proof.
  intros Hdb. rewrite get_stations_cases, Hdb.
  destruct (sightings startday endday networks channels files) as [[|sg sgs]|e];
    split; try done.
  by intros out [= <-].
Qed.

Lemma get_stations_default_database_witness :
  get_stations "/data" ["20160806/BL.CACB.00.BHZ.D.mseed"] [] [] None
    ["XJ"] [] None None (1 # 10000)%Q = Ok [].
Proof.
  apply (get_stations_default_database "/data" ["20160806/BL.CACB.00.BHZ.D.mseed"]
           [] [] None ["XJ"] [] None None (1 # 10000)%Q); reflexivity.
Defined.

Lemma bad_file_Raise (startday endday : option date) (networks channels : list string)
    (f : string) :
  bad_subdir f ∨ short_name startday endday f →
  ∃ e, inspect_file startday endday networks channels f = Raise e.
Proof.
  unfold bad_subdir, short_name, inspect_file.
  destruct (os_path_split f) as [subdir raw]; simpl.
  intros [Hbad|(y & m & d & Hy & Hm & Hd & Hstart & Hend & Hlen)].
  - destruct (py_int (str_slice 0 4 subdir)) as [y|e1]; simpl; [|eauto].
    destruct (py_int (str_slice 4 6 subdir)) as [m|e2]; simpl; [|eauto].
    destruct (py_int (str_slice 6 8 subdir)) as [d|e3]; simpl; [|eauto].
    destruct Hbad as [Hbad|[Hbad|Hbad]]; discriminate Hbad.
  - rewrite Hy, Hm, Hd. simpl.
    assert (from_option (λ '(y0, m0), pair_ltb y m y0 m0) false
              ((λ d0, (year d0, month d0)) <$> startday) = false) as ->.
    { destruct startday as [sd|]; simpl; [|done].
      apply pair_ltb_false. by apply Hstart. }
    assert (from_option (λ '(y0, m0), pair_ltb y0 m0 y m) false
              ((λ d0, (year d0, month d0)) <$> endday) = false) as ->.
    { destruct endday as [ed|]; simpl; [|done].
      apply pair_ltb_false. by apply Hend. }
    exists (ValueError NotEnoughValues).
    destruct (str_split "." raw) as [|a [|b [|c [|x l]]]]; simpl in *; try done. lia.
Qed.

(** X3: a file whose directory name is not three integers (whether or not
    it lies inside the month window), or a file inside the month window
    whose name has fewer than four dot-separated fields, makes
    [get_stations] raise [ValueError], whatever the database and the
    other files. *)
Theorem get_stations_bad_file (mseed_dir : string) (files : list string)
    (xml_inventories : list xml_inventory)
    (dataless_inventories : list dataless_inventory)
    (database : database_arg) (networks channels : list string)
    (startday endday : option date) (coord_tolerance : Q) (f : string) :
  f ∈ files →
  bad_subdir f ∨ short_name startday endday f →
  ∃ why,
    get_stations mseed_dir files xml_inventories dataless_inventories database
      networks channels startday endday coord_tolerance = Raise (ValueError why) ∧
    (why = InvalidLiteral ∨ why = NotEnoughValues).
Proof.
  intros Hf Hbad. rewrite get_stations_cases.
  destruct (bad_file_Raise startday endday networks channels f Hbad) as [e He].
  destruct (sightings_Raise startday endday networks channels files) as [H1 H2].
  destruct (H2 f e Hf He) as [e' He']. rewrite He'.
  destruct (H1 e' He') as (f' & _ & Hf').
  apply inspect_file_Raise in Hf' as [-> | ->]; eauto.
Qed.

Lemma get_stations_bad_file_witness :
  (∃ why,
     get_stations "/data" ["20160806/BL.CACB.00.BHZ.D.mseed"; "201601xx/BL.CACB.00.BHZ.D.mseed"]
       [] [] (Some {[ "BL.CACB" := mkInfo 1%Q 2%Q 3%Q ]}) ["BL"] []
       (Some (mkDate 2016 8 1)) None (1 # 10000)%Q
       = Raise (ValueError why) ∧
     (why = InvalidLiteral ∨ why = NotEnoughValues)) ∧
  (∃ why,
     get_stations "/data" ["20160806/BL.CACB.00.BHZ.D.mseed"; "20160806/notes.mseed"]
       [] [] (Some {[ "BL.CACB" := mkInfo 1%Q 2%Q 3%Q ]}) ["BL"] []
       (Some (mkDate 2016 8 1)) None (1 # 10000)%Q
       = Raise (ValueError why) ∧
     (why = InvalidLiteral ∨ why = NotEnoughValues)).
Proof.
  split.
  - apply (get_stations_bad_file _ _ _ _ _ _ _ _ _ _ "201601xx/BL.CACB.00.BHZ.D.mseed").
    + right. left.
    + left. right. right. reflexivity.
  - apply (get_stations_bad_file _ _ _ _ _ _ _ _ _ _ "20160806/notes.mseed").
    + right. left.
    + right. exists 2016%Z, 8%Z, 6%Z. repeat split.
      * intros sd Hsd. injection Hsd as <-. unfold pair_le. simpl. lia.
      * intros ed Hed. discriminate Hed.
      * vm_compute. lia.
Defined.

(** X4: a file that the first loop passes over, because its month lies
    outside the window (whatever its name looks like) or because its
    network or channel is filtered out, can be taken out of the file list
    without changing what [get_stations] returns or raises. *)
Theorem get_stations_skipped_file (mseed_dir : string) (before after : list string)
    (f : string) (xml_inventories : list xml_inventory)
    (dataless_inventories : list dataless_inventory)
    (database : database_arg) (networks channels : list string)
    (startday endday : option date) (coord_tolerance : Q) :
  skipped startday endday networks channels f →
  get_stations mseed_dir (before ++ f :: after) xml_inventories dataless_inventories
    database networks channels startday endday coord_tolerance =
  get_stations mseed_dir (before ++ after) xml_inventories dataless_inventories
    database networks channels startday endday coord_tolerance.
Proof.
  intros Hf%skipped_inspect. rewrite !get_stations_cases, !sightings_app. simpl.
  rewrite Hf. simpl.
  destruct (sightings startday endday networks channels before); simpl; [|done].
  by destruct (sightings startday endday networks channels after).
Qed.

Lemma get_stations_skipped_file_witness :
  let db : gmap string station_info := {[ "BL.CACB" := mkInfo 1%Q 2%Q 3%Q ]} in
  get_stations "/data" (["20160806/BL.CACB.00.BHZ.D.mseed"] ++ "20150101/junk" :: [])
    [] [] (Some db) [] [] (Some (mkDate 2016 8 20)) None (1 # 10000)%Q =
  get_stations "/data" (["20160806/BL.CACB.00.BHZ.D.mseed"] ++ [])
    [] [] (Some db) [] [] (Some (mkDate 2016 8 20)) None (1 # 10000)%Q.
Proof.
  intros db. apply get_stations_skipped_file.
  exists 2015%Z, 1%Z, 1%Z. split; [reflexivity|]. split; [reflexivity|].
  split; [reflexivity|]. left. exists (mkDate 2016 8 20). split; [reflexivity|].
  unfold pair_le. simpl. lia.
Defined.

Lemma scanned_station (mseed_dir : string) (startday endday : option date)
    (networks channels : list string) (files : list string) (sgs : list sighting)
    (s0 : Station) :
  sightings startday endday networks channels files = Ok sgs →
  s0 ∈ scanned mseed_dir sgs →
  ∃ sg f,
    first_sighting sgs s0 ∧ sg ∈ sgs ∧ BOOLATTRS s0 = sg_key sg ∧
    file s0 = sg_filename sg ∧ f ∈ files ∧
    inspect_file startday endday networks channels f = Ok (Some sg) ∧
    basedir s0 = mseed_dir ∧
    subdirs s0 = sg_subdir <$> filter (λ x, sg_key x = BOOLATTRS s0) sgs.
Proof.
  intros Hsgs Hs0.
  destruct (scan_fold_origin mseed_dir sgs) as [_ Horigin].
  pose proof (Horigin s0 Hs0) as Hfirst.
  destruct Hfirst as (sgs1 & sg & sgs2 & Heq & Hkey & Hbefore & Hfile).
  assert (Hin : sg ∈ sgs) by (rewrite Heq; apply elem_of_app; right; left).
  destruct (proj1 (sightings_elem _ _ _ _ _ _ Hsgs sg) Hin) as (f & Hf & Hi).
  pose proof (scan_fold_inv mseed_dir sgs) as (_ & _ & Hsub & _).
  destruct (Hsub s0 Hs0) as (Hsd & Hbd & _).
  exists sg, f. repeat split; try done.
  by exists sgs1, sg, sgs2.
Qed.

(** X5: every station [get_stations] returns has [mseed_dir] as base
    directory and at least one date directory, passes the network and
    channel filters, and has the file pattern
    network.name.LOC.channel.*.mseed, where LOC is the location code in the
    name of the first file of the station that passed the filters. *)
Theorem get_stations_fields (mseed_dir : string) (files : list string)
    (xml_inventories : list xml_inventory)
    (dataless_inventories : list dataless_inventory)
    (database : database_arg) (networks channels : list string)
    (startday endday : option date) (coord_tolerance : Q) (out : list Station) :
  get_stations mseed_dir files xml_inventories dataless_inventories database
    networks channels startday endday coord_tolerance = Ok out →
  ∃ sgs, sightings startday endday networks channels files = Ok sgs ∧
    ∀ s, s ∈ out →
      basedir s = mseed_dir ∧ subdirs s ≠ [] ∧
      (networks ≠ [] → network s ∈ networks) ∧
      (channels ≠ [] → channel s ∈ channels) ∧
      ∃ sg f loc,
        first_sighting sgs s ∧ file s = sg_filename sg ∧ f ∈ files ∧
        inspect_file startday endday networks channels f = Ok (Some sg) ∧
        slice 0 4 (str_split "." (os_path_split f).2)
          = [network s; name s; loc; channel s] ∧
        file s = str_join "." [network s; name s; loc; channel s; "*"; "mseed"].
Proof.
  intros Hrun.
  destruct (get_stations_Ok _ _ _ _ _ _ _ _ _ _ _ Hrun) as (sgs & Hsgs & Hout).
  exists sgs. split; [done|]. intros s Hs.
  destruct (Hout s Hs) as (s0 & e & Hs0 & ->).
  destruct (scanned_station _ _ _ _ _ _ _ _ Hsgs Hs0)
    as (sg & f & Hfirst & Hin & Hkey & Hfile & Hf & Hi & Hbd & Hsd).
  destruct (inspect_file_Some _ _ _ _ _ _ Hi)
    as (y & m & d & loc & _ & _ & _ & _ & _ & _ & Htok & Hname & Hnet & Hch).
  pose proof Hkey as Hkey'. unfold BOOLATTRS, sg_key in Hkey'.
  injection Hkey' as Hn' Hw' Hc'.
  simpl. split; [done|]. split.
  { rewrite Hsd. intros Hnil. apply fmap_nil_inv in Hnil.
    assert (sg ∉ sgs) as Hnot; [|done].
    eapply filter_nil_not_elem_of; [exact Hnil|]. by simpl. }
  rewrite Hn', Hw', Hc'.
  split; [done|]. split; [done|].
  exists sg, f, loc. repeat split; try done.
  by rewrite Hfile.
Qed.

Lemma get_stations_fields_witness :
  let db : gmap string station_info := {[ "BL.CACB" := mkInfo 1%Q 2%Q 3%Q ]} in
  let files := ["20160806/BL.CACB.10.BHZ.D.mseed"; "20160807/BL.CACB.00.BHZ.D.mseed";
                "20160807/XJ.AKS.00.BHZ.D.mseed"] in
  let out := [mkStation "CACB" "BL" "BHZ" "BL.CACB.10.BHZ.*.mseed" "/data"
                ["20160806"; "20160807"] [Some 2%Q; Some 1%Q; Some 3%Q]] in
  ∃ sgs, sightings None None ["BL"] ["BHZ"] files = Ok sgs ∧
    ∀ s, s ∈ out →
      basedir s = "/data" ∧ subdirs s ≠ [] ∧
      (["BL"] ≠ [] → network s ∈ ["BL"]) ∧
      (["BHZ"] ≠ [] → channel s ∈ ["BHZ"]) ∧
      ∃ sg f loc,
        first_sighting sgs s ∧ file s = sg_filename sg ∧ f ∈ files ∧
        inspect_file None None ["BL"] ["BHZ"] f = Ok (Some sg) ∧
        slice 0 4 (str_split "." (os_path_split f).2)
          = [network s; name s; loc; channel s] ∧
        file s = str_join "." [network s; name s; loc; channel s; "*"; "mseed"].
Proof.
  intros db files out.
  apply (get_stations_fields "/data" files [] [] (Some db) ["BL"] ["BHZ"] None None
           (1 # 10000)%Q out).
  reflexivity.
Defined.

(** X6: every date directory of every returned station parses into a
    year, a month and a day, and its (year, month) is at least the
    (year, month) of [startday] and at most the (year, month) of
    [endday], when these are given. *)
Theorem get_stations_month_window (mseed_dir : string) (files : list string)
    (xml_inventories : list xml_inventory)
    (dataless_inventories : list dataless_inventory)
    (database : database_arg) (networks channels : list string)
    (startday endday : option date) (coord_tolerance : Q) (out : list Station) :
  get_stations mseed_dir files xml_inventories dataless_inventories database
    networks channels startday endday coord_tolerance = Ok out →
  ∀ s dir, s ∈ out → dir ∈ subdirs s →
    ∃ y m d,
      py_int (str_slice 0 4 dir) = Ok y ∧
      py_int (str_slice 4 6 dir) = Ok m ∧
      py_int (str_slice 6 8 dir) = Ok d ∧
      (∀ sd, startday = Some sd → pair_le (year sd) (month sd) y m) ∧
      (∀ ed, endday = Some ed → pair_le y m (year ed) (month ed)).
Proof.
  intros Hrun s dir Hs Hdir.
  destruct (get_stations_Ok _ _ _ _ _ _ _ _ _ _ _ Hrun) as (sgs & Hsgs & Hout).
  destruct (Hout s Hs) as (s0 & e & Hs0 & ->). simpl in Hdir.
  pose proof (scan_fold_inv mseed_dir sgs) as (_ & _ & Hsub & _).
  destruct (Hsub s0 Hs0) as (Hsd & _). rewrite Hsd in Hdir.
  apply list_elem_of_fmap in Hdir as (sg & -> & [_ Hsg]%list_elem_of_filter).
  destruct (proj1 (sightings_elem _ _ _ _ _ _ Hsgs sg) Hsg) as (f & _ & Hi).
  destruct (inspect_file_Some _ _ _ _ _ _ Hi)
    as (y & m & d & loc & _ & Hy & Hm & Hd & Hstart & Hend & _).
  by exists y, m, d.
Qed.

Lemma get_stations_month_window_witness :
  let db : gmap string station_info := {[ "BL.CACB" := mkInfo 1%Q 2%Q 3%Q ]} in
  let files := ["20160731/BL.CACB.00.BHZ.D.mseed"; "20160801/BL.CACB.00.BHZ.D.mseed"] in
  let s := mkStation "CACB" "BL" "BHZ" "BL.CACB.00.BHZ.*.mseed" "/data"
             ["20160801"] [Some 2%Q; Some 1%Q; Some 3%Q] in
  ∃ y m d,
    py_int (str_slice 0 4 "20160801") = Ok y ∧
    py_int (str_slice 4 6 "20160801") = Ok m ∧
    py_int (str_slice 6 8 "20160801") = Ok d ∧
    (∀ sd, Some (mkDate 2016 8 20) = Some sd → pair_le (year sd) (month sd) y m) ∧
    (∀ ed, @None date = Some ed → pair_le y m (year ed) (month ed)).
Proof.
  intros db files s.
  apply (get_stations_month_window "/data" files [] [] (Some db) [] []
           (Some (mkDate 2016 8 20)) None (1 # 10000)%Q [s] eq_refl s "20160801").
  - left.
  - left.
Defined.

Lemma database_stations_sublist (db : gmap string station_info) (h : list Station) :
  sublist (BOOLATTRS <$> omap (database_station db) h) (BOOLATTRS <$> h).
Proof.
  induction h as [|s h IH]; simpl; [constructor|].
  destruct (database_station db s) as [s'|] eqn:E; simpl.
  - apply database_station_Some in E as (e & _ & ->). by constructor.
  - by constructor.
Qed.

(** X7: the returned stations have pairwise different (name, network,
    channel) and stand in the order in which the scan first met them. *)
Theorem get_stations_order (mseed_dir : string) (files : list string)
    (xml_inventories : list xml_inventory)
    (dataless_inventories : list dataless_inventory)
    (database : database_arg) (networks channels : list string)
    (startday endday : option date) (coord_tolerance : Q) (out : list Station) :
  get_stations mseed_dir files xml_inventories dataless_inventories database
    networks channels startday endday coord_tolerance = Ok out →
  ∃ sgs, sightings startday endday networks channels files = Ok sgs ∧
    sublist (BOOLATTRS <$> out) (first_seen (sg_key <$> sgs)).
Proof.
  rewrite get_stations_cases.
  destruct (sightings startday endday networks channels files) as [sgs|]; [|done].
  intros Hout. exists sgs. split; [done|].
  destruct (scan_fold_origin mseed_dir sgs) as [<- _].
  destruct (database_truthy database).
  - injection Hout as <-. apply database_stations_sublist.
  - destruct sgs; [|done]. injection Hout as <-. constructor.
Qed.

Lemma get_stations_order_witness :
  let db : gmap string station_info :=
    {[ "BL.CACB" := mkInfo 1%Q 2%Q 3%Q ]} ∪ {[ "XJ.AKS" := mkInfo 4%Q 5%Q 6%Q ]} in
  let files := ["20160806/XJ.AKS.00.BHZ.D.mseed"; "20160806/BL.CACB.00.BHZ.D.mseed";
                "20160807/XJ.AKS.00.BHZ.D.mseed"] in
  let out := [mkStation "AKS" "XJ" "BHZ" "XJ.AKS.00.BHZ.*.mseed" "/data"
                ["20160806"; "20160807"] [Some 5%Q; Some 4%Q; Some 6%Q];
              mkStation "CACB" "BL" "BHZ" "BL.CACB.00.BHZ.*.mseed" "/data"
                ["20160806"] [Some 2%Q; Some 1%Q; Some 3%Q]] in
  ∃ sgs, sightings None None [] [] files = Ok sgs ∧
    sublist (BOOLATTRS <$> out) (first_seen (sg_key <$> sgs)).
Proof.
  intros db files out.
  apply (get_stations_order "/data" files [] [] (Some db) [] [] None None
           (1 # 10000)%Q out).
  reflexivity.
Defined.

(** X8: [Station.dist] never fails to unpack on two stations that
    [get_stations] returned: each carries the three values of a database
    record, and [psutils.dist] receives the two longitudes (stlo) and
    latitudes (stla) of the records. *)
Theorem get_stations_dist {R : Type}
    (psutils_dist : option Q → option Q → option Q → option Q → result R)
    (mseed_dir : string) (files : list string)
    (xml_inventories : list xml_inventory)
    (dataless_inventories : list dataless_inventory)
    (database : database_arg) (networks channels : list string)
    (startday endday : option date) (coord_tolerance : Q) (out : list Station) :
  get_stations mseed_dir files xml_inventories dataless_inventories database
    networks channels startday endday coord_tolerance = Ok out →
  ∀ a b, a ∈ out → b ∈ out →
    ∃ db ea eb,
      database = Some db ∧
      db !! stationid a = Some ea ∧ db !! stationid b = Some eb ∧
      Station_dist psutils_dist a b =
        psutils_dist (Some (stlo ea)) (Some (stla ea)) (Some (stlo eb)) (Some (stla eb)).
Proof.
  intros Hrun a b Ha Hb.
  destruct (get_stations_coord_from_database _ _ _ _ _ _ _ _ _ _ _ Hrun a Ha)
    as (db & ea & -> & Hea & Hca).
  destruct (get_stations_coord_from_database _ _ _ _ _ _ _ _ _ _ _ Hrun b Hb)
    as (db' & eb & [= <-] & Heb & Hcb).
  exists db, ea, eb. repeat split; try done.
  unfold Station_dist. by rewrite Hca, Hcb.
Qed.

Lemma get_stations_dist_witness :
  let pd := λ (lon1 lat1 lon2 lat2 : option Q), Ok (lon1, lat1, lon2, lat2) in
  let db : gmap string station_info := {[ "BL.CACB" := mkInfo 1%Q 2%Q 3%Q ]} in
  let s := mkStation "CACB" "BL" "BHZ" "BL.CACB.00.BHZ.*.mseed" "/data"
             ["20160806"] [Some 2%Q; Some 1%Q; Some 3%Q] in
  ∃ db' ea eb,
    Some db = Some db' ∧
    db' !! stationid s = Some ea ∧ db' !! stationid s = Some eb ∧
    Station_dist pd s s = pd (Some (stlo ea)) (Some (stla ea)) (Some (stlo eb)) (Some (stla eb)).
Proof.
  intros pd db s.
  apply (get_stations_dist pd "/data" ["20160806/BL.CACB.00.BHZ.D.mseed"] [] []
           (Some db) [] [] None None (1 # 10000)%Q [s] eq_refl s s); left.
Defined.

(** ** Station.getpath *)

Lemma getpath_cases (self : Station) (t : moment) :
  (strftime_Ymd (calendar t) ∈ subdirs self →
   getpath self t =
     Returns (os_path_join (os_path_join (basedir self) (strftime_Ymd (calendar t)))
                (file self))) ∧
  (strftime_Ymd (calendar t) ∉ subdirs self →
   getpath self t =
     match date_attr t with
     | Some d =>
         Raises (NoData ("No data for station " +:+ name self +:+
                         " at date " +:+ d +:+ "!!"))
     | None => Raises AttributeError
     end).
Proof.
  unfold getpath. split; intros H.
  - by rewrite bool_decide_eq_true_2.
  - by rewrite bool_decide_eq_false_2.
Qed.

(** X9: for a station that [get_stations] returned, [getpath] gives
    mseed_dir/YYYYMMDD/pattern for exactly the days whose directory held a
    file of the station that passed the filters; for any other day it
    raises the no-data exception, or [AttributeError] when the argument is
    a plain [date] (which has no attribute [date] to put in the message). *)
Theorem get_stations_getpath (mseed_dir : string) (files : list string)
    (xml_inventories : list xml_inventory)
    (dataless_inventories : list dataless_inventory)
    (database : database_arg) (networks channels : list string)
    (startday endday : option date) (coord_tolerance : Q) (out : list Station) :
  get_stations mseed_dir files xml_inventories dataless_inventories database
    networks channels startday endday coord_tolerance = Ok out →
  ∃ sgs, sightings startday endday networks channels files = Ok sgs ∧
    ∀ s t, s ∈ out →
      let seen := ∃ sg, sg ∈ sgs ∧ sg_key sg = BOOLATTRS s ∧
                        sg_subdir sg = strftime_Ymd (calendar t) in
      (seen →
       getpath s t =
         Returns (os_path_join (os_path_join mseed_dir (strftime_Ymd (calendar t)))
                    (file s))) ∧
      (¬ seen →
       getpath s t =
         match date_attr t with
         | Some d =>
             Raises (NoData ("No data for station " +:+ name s +:+
                             " at date " +:+ d +:+ "!!"))
         | None => Raises AttributeError
         end).
Proof.
  intros Hrun.
  destruct (get_stations_Ok _ _ _ _ _ _ _ _ _ _ _ Hrun) as (sgs & Hsgs & Hout).
  exists sgs. split; [done|]. intros s t Hs seen. subst seen.
  destruct (Hout s Hs) as (s0 & e & Hs0 & ->).
  pose proof (scan_fold_inv mseed_dir sgs) as (_ & _ & Hsub & _).
  destruct (Hsub s0 Hs0) as (Hsd & Hbd & _).
  assert (Hiff : strftime_Ymd (calendar t) ∈ subdirs (set_coord (info_coord e) s0) ↔
                 ∃ sg, sg ∈ sgs ∧ sg_key sg = BOOLATTRS (set_coord (info_coord e) s0) ∧
                       sg_subdir sg = strftime_Ymd (calendar t)).
  { simpl. rewrite Hsd, list_elem_of_fmap. split.
    - intros (sg & -> & [Hk Hin]%list_elem_of_filter). by exists sg.
    - intros (sg & Hin & Hk & Hd). exists sg. split; [done|].
      by apply list_elem_of_filter. }
  destruct (getpath_cases (set_coord (info_coord e) s0) t) as [Hyes Hno].
  split.
  - intros Hseen. rewrite Hyes by (by apply Hiff). simpl. by rewrite Hbd.
  - intros Hnot. rewrite Hno; [done|]. by rewrite Hiff.
Qed.

Lemma get_stations_getpath_witness :
  let db : gmap string station_info := {[ "BL.CACB" := mkInfo 1%Q 2%Q 3%Q ]} in
  let s := mkStation "CACB" "BL" "BHZ" "BL.CACB.00.BHZ.*.mseed" "/data"
             ["20160806"] [Some 2%Q; Some 1%Q; Some 3%Q] in
  getpath s (mkMoment (mkDate 2016 8 6) None)
    = Returns "/data/20160806/BL.CACB.00.BHZ.*.mseed" ∧
  getpath s (mkMoment (mkDate 2016 8 7) None) = Raises AttributeError.
Proof.
  intros db s.
  destruct (get_stations_getpath "/data" ["20160806/BL.CACB.00.BHZ.D.mseed"] [] []
              (Some db) [] [] None None (1 # 10000)%Q [s] eq_refl)
    as (sgs & Hsgs & Hpath).
  injection Hsgs as <-. split.
  - apply (Hpath s (mkMoment (mkDate 2016 8 6) None)); [left|].
    eexists. split; [left|]. split; reflexivity.
  - apply (Hpath s (mkMoment (mkDate 2016 8 7) None)); [left|].
    intros (sg & Hin & _ & Hd). apply list_elem_of_singleton in Hin. subst sg.
    discriminate Hd.
Defined.

Lemma years_ok (y : Z) : (1000 ≤ y ≤ 9999)%Z → year_ok y = true.
Proof.
  intros Hy.
  assert (Hall : forallb year_ok (seqZ 1000 9000) = true) by (vm_compute; reflexivity).
  rewrite forallb_forall in Hall. apply Hall.
  apply list_elem_of_In, elem_of_seqZ. lia.
Qed.

Lemma fields_ok (n : Z) : (0 ≤ n ≤ 99)%Z → field_ok n = true.
Proof.
  intros Hn.
  assert (Hall : forallb field_ok (seqZ 0 100) = true) by (vm_compute; reflexivity).
  rewrite forallb_forall in Hall. apply Hall.
  apply list_elem_of_In, elem_of_seqZ. lia.
Qed.

(** X10: the directory name [getpath] builds for a day of a four-digit
    year is read back by the scan as that year, month and day. *)
Theorem strftime_scan_round_trip (d : date) :
  (1000 ≤ year d ≤ 9999)%Z → (1 ≤ month d ≤ 12)%Z → (1 ≤ day d ≤ 31)%Z →
  py_int (str_slice 0 4 (strftime_Ymd d)) = Ok (year d) ∧
  py_int (str_slice 4 6 (strftime_Ymd d)) = Ok (month d) ∧
  py_int (str_slice 6 8 (strftime_Ymd d)) = Ok (day d) ∧
  String.length (strftime_Ymd d) = 8.
Proof.
  intros Hy Hm Hd. unfold strftime_Ymd.
  pose proof (years_ok (year d) Hy) as Hyear.
  pose proof (fields_ok (month d) ltac:(lia)) as Hmonth.
  pose proof (fields_ok (day d) ltac:(lia)) as Hday.
  unfold year_ok in Hyear. unfold field_ok in Hmonth, Hday.
  destruct (str_of_nat (year d)) as [|a [|b [|c [|e [|? ?]]]]]; try done.
  destruct (pad2 (month d)) as [|m1 [|m2 [|? ?]]]; try done.
  destruct (pad2 (day d)) as [|d1 [|d2 [|? ?]]]; try done.
  change (str_slice 0 4 _) with (String a (String b (String c (String e EmptyString)))).
  change (str_slice 4 6 _) with (String m1 (String m2 EmptyString)).
  change (str_slice 6 8 _) with (String d1 (String d2 EmptyString)).
  destruct (py_int (String a _)) as [y|]; [|done].
  destruct (py_int (String m1 _)) as [m|]; [|done].
  destruct (py_int (String d1 _)) as [dd|]; [|done].
  apply Z.eqb_eq in Hyear, Hmonth, Hday. by subst.
Qed.

Lemma strftime_scan_round_trip_witness :
  py_int (str_slice 0 4 (strftime_Ymd (mkDate 2016 8 6))) = Ok 2016%Z ∧
  py_int (str_slice 4 6 (strftime_Ymd (mkDate 2016 8 6))) = Ok 8%Z ∧
  py_int (str_slice 6 8 (strftime_Ymd (mkDate 2016 8 6))) = Ok 6%Z ∧
  String.length (strftime_Ymd (mkDate 2016 8 6)) = 8.
Proof.
  apply (strftime_scan_round_trip (mkDate 2016 8 6)); simpl; lia.
Defined.

(** ** get_station_database *)

Lemma for_each_app {A S} (body : S → A → result S) (l1 l2 : list A) (st : S) :
  for_each body (l1 ++ l2) st = st' ← for_each body l1 st; for_each body l2 st'.
Proof.
  revert st. induction l1 as [|x l1 IH]; intros st; simpl; [done|].
  destruct (body st x); simpl; [apply IH|done].
Qed.

(** A line gives a record exactly when it has four words or more and the
    second, third and fourth are numbers: latitude, longitude, elevation. *)
Lemma database_record_Ok (parse : float_parser) (line name : string) (e : station_info) :
  database_record parse line = Ok (name, e) ↔
  ∃ a b c rest,
    str_words line = name :: a :: b :: c :: rest ∧
    parse a = Some (stla e) ∧ parse b = Some (stlo e) ∧ parse c = Some (stel e).
Proof.
  unfold database_record, slice. simpl.
  destruct (str_words line) as [|w0 [|w1 [|w2 [|w3 rest]]]]; simpl;
    try (split; [done | by intros (? & ? & ? & ? & ? & _)]).
  unfold py_float.
  destruct (parse w1) as [x|] eqn:H1; simpl;
    [|split; [done | intros (? & ? & ? & ? & [= _ <- _ _ _] & ? & _); congruence]].
  destruct (parse w2) as [y|] eqn:H2; simpl;
    [|split; [done | intros (? & ? & ? & ? & [= _ _ <- _ _] & _ & ? & _); congruence]].
  destruct (parse w3) as [z|] eqn:H3; simpl;
    [|split; [done | intros (? & ? & ? & ? & [= _ _ _ <- _] & _ & _ & ?); congruence]].
  split.
  - intros [= <- <-]. by exists w1, w2, w3, rest.
  - intros (a & b & c & r & [= <- <- <- <- _] & Ha & Hb & Hc).
    destruct e as [la lo el]; simpl in *.
    rewrite H1 in Ha. rewrite H2 in Hb. rewrite H3 in Hc.
    by injection Ha as <-; injection Hb as <-; injection Hc as <-.
Qed.

Lemma database_record_name (parse : float_parser) (line name : string) (e : station_info) :
  database_record parse line = Ok (name, e) → head (str_words line) = Some name.
Proof. intros (a & b & c & rest & -> & _)%database_record_Ok. done. Qed.

Lemma database_record_Raise (parse : float_parser) (line : string) (e : exn) :
  database_record parse line = Raise e →
  e = ValueError NotEnoughValues ∨ e = ValueError InvalidLiteral.
Proof.
  unfold database_record, slice. simpl.
  destruct (str_words line) as [|w0 [|w1 [|w2 [|w3 rest]]]]; simpl;
    try (intros [= <-]; by left).
  unfold py_float.
  destruct (parse w1); simpl; [|intros [= <-]; by right].
  destruct (parse w2); simpl; [|intros [= <-]; by right].
  destruct (parse w3); simpl; [done|intros [= <-]; by right].
Qed.

Lemma database_snoc (parse : float_parser) (lines : list string) (line : string) :
  get_station_database parse (lines ++ [line]) =
  stations ← get_station_database parse lines; database_line parse stations line.
Proof.
  unfold get_station_database. rewrite for_each_app.
  destruct (for_each (database_line parse) lines ∅) as [m|]; simpl; [|done].
  by destruct (database_line parse m line).
Qed.

(** The record under a name is that of the last line starting with it. *)
Lemma database_loop_spec (parse : float_parser) (lines : list string)
    (db : gmap string station_info) :
  get_station_database parse lines = Ok db →
  (∀ line, line ∈ lines → ∃ name e, database_record parse line = Ok (name, e)) ∧
  ∀ name e,
    db !! name = Some e ↔
    ∃ l1 line l2,
      lines = l1 ++ line :: l2 ∧ database_record parse line = Ok (name, e) ∧
      ∀ line', line' ∈ l2 → head (str_words line') ≠ Some name.
Proof.
  revert db. induction lines as [|line lines IH] using rev_ind; intros db Hdb.
  { injection Hdb as <-. split; [by intros ? ?%elem_of_nil|].
    intros name e. rewrite lookup_empty. split; [done|].
    intros (l1 & x & l2 & Heq & _). by destruct l1. }
  rewrite database_snoc in Hdb.
  destruct (get_station_database parse lines) as [m|] eqn:Hm; simpl in Hdb; [|done].
  destruct (IH m eq_refl) as [IHok IHlook].
  unfold database_line in Hdb.
  destruct (database_record parse line) as [[nm info]|] eqn:Hrec; simpl in Hdb; [|done].
  injection Hdb as <-. split.
  { intros x [Hx|Hx%list_elem_of_singleton]%elem_of_app; [by apply IHok|subst; eauto]. }
  intros name e. rewrite lookup_insert_Some. split.
  - intros [[<- <-]|[Hne Hlook]].
    + exists lines, line, []. repeat split; try done. by intros ? ?%elem_of_nil.
    + apply IHlook in Hlook as (l1 & x & l2 & -> & Hx & Hlater).
      exists l1, x, (l2 ++ [line]). rewrite <- app_assoc. repeat split; try done.
      intros y [Hy|Hy%list_elem_of_singleton]%elem_of_app; [by apply Hlater|].
      subst y. rewrite (database_record_name _ _ _ _ Hrec). congruence.
  - intros (l1 & x & l2 & Heq & Hx & Hlater).
    destruct l2 as [|y l2 _] using rev_ind.
    + apply app_inj_tail in Heq as [-> ->]. left.
      rewrite Hrec in Hx. by injection Hx as <- <-.
    + rewrite app_comm_cons, app_assoc in Heq. apply app_inj_tail in Heq as [-> ->].
      right. split.
      * intros <-. apply (Hlater y); [apply elem_of_app; right; left|].
        by apply (database_record_name _ _ _ _ Hrec).
      * apply IHlook. exists l1, x, l2. repeat split; try done.
        intros z Hz. apply Hlater. apply elem_of_app. by left.
Qed.

Lemma database_loop_raises (parse : float_parser) (lines : list string)
    (m0 : gmap string station_info) (line : string) :
  line ∈ lines → (∀ r, database_record parse line ≠ Ok r) →
  ∃ why, for_each (database_line parse) lines m0 = Raise (ValueError why).
Proof.
  revert m0. induction lines as [|x lines IH]; intros m0 Hin Hbad.
  { by apply elem_of_nil in Hin. }
  simpl.
  destruct (database_record parse x) as [[nm info]|e] eqn:Hx.
  - assert (database_line parse m0 x = Ok (<[nm := info]> m0)) as ->.
    { unfold database_line. by rewrite Hx. }
    simpl. apply IH; [|done]. apply elem_of_cons in Hin as [->|?]; [|done].
    by destruct (Hbad (nm, info)).
  - assert (database_line parse m0 x = Raise e) as ->.
    { unfold database_line. by rewrite Hx. }
    simpl. apply database_record_Raise in Hx as [-> | ->]; eauto.
Qed.

(** X11: in the dictionary [get_station_database] returns, a name is bound
    to the latitude, longitude and elevation (second, third and fourth
    word) of the last line whose first word is that name; a name that
    starts no line is not bound. *)
Theorem get_station_database_last_line (parse : float_parser) (lines : list string)
    (db : gmap string station_info) :
  get_station_database parse lines = Ok db →
  ∀ name e,
    db !! name = Some e ↔
    ∃ l1 line l2 a b c rest,
      lines = l1 ++ line :: l2 ∧
      str_words line = name :: a :: b :: c :: rest ∧
      parse a = Some (stla e) ∧ parse b = Some (stlo e) ∧ parse c = Some (stel e) ∧
      ∀ line', line' ∈ l2 → head (str_words line') ≠ Some name.
Proof.
  intros Hdb name e.
  destruct (database_loop_spec parse lines db Hdb) as [_ Hlook].
  rewrite Hlook. split.
  - intros (l1 & line & l2 & Heq & (a & b & c & rest & ?)%database_record_Ok & Hlater).
    exists l1, line, l2, a, b, c, rest. tauto.
  - intros (l1 & line & l2 & a & b & c & rest & Heq & Hw & Ha & Hb & Hc & Hlater).
    exists l1, line, l2. split; [done|]. split; [|done].
    apply database_record_Ok. by exists a, b, c, rest.
Qed.

Lemma get_station_database_last_line_witness :
  let lines := ["BL.CACB 1 2 3"; "XJ.AKS 4 5 6"; "BL.CACB -22 -43 12 moved"] in
  ∃ db, get_station_database whole_numbers lines = Ok db ∧
        db !! "BL.CACB" = Some (mkInfo (inject_Z (-22)) (inject_Z (-43)) (inject_Z 12)).
Proof.
  intros lines. eexists. split; [reflexivity|].
  apply (get_station_database_last_line whole_numbers lines _ eq_refl).
  exists ["BL.CACB 1 2 3"; "XJ.AKS 4 5 6"], "BL.CACB -22 -43 12 moved", [],
         "-22", "-43", "12", ["moved"].
  repeat split. by intros ? ?%elem_of_nil.
Defined.

(** X12: a line with fewer than four words (a blank line, for one) or
    with a second, third or fourth word that is no number makes
    [get_station_database] raise [ValueError], wherever it stands. *)
Theorem get_station_database_bad_line (parse : float_parser) (lines : list string)
    (line : string) :
  line ∈ lines →
  (length (str_words line) < 4 ∨
   ∃ i w, 1 ≤ i ≤ 3 ∧ str_words line !! i = Some w ∧ parse w = None) →
  ∃ why, get_station_database parse lines = Raise (ValueError why).
Proof.
  intros Hin Hbad. apply (database_loop_raises parse lines ∅ line Hin).
  intros [name e] (a & b & c & rest & Hw & Ha & Hb & Hc)%database_record_Ok.
  rewrite Hw in Hbad. destruct Hbad as [Hlen|(i & w & Hi & Hlook & Hnone)].
  - simpl in Hlen. lia.
  - destruct i as [|[|[|[|i]]]]; simpl in Hlook; try lia;
      injection Hlook as <-; congruence.
Qed.

Lemma get_station_database_bad_line_witness :
  ∃ why, get_station_database whole_numbers ["BL.CACB 1 2 3"; " "; "XJ.AKS 4 5 6"]
         = Raise (ValueError why).
Proof.
  apply (get_station_database_bad_line whole_numbers _ " ").
  - right. left.
  - left. vm_compute. lia.
Defined.

Lemma database_lookup_truthy (db : gmap string station_info) (name : string)
    (e : station_info) :
  db !! name = Some e → database_truthy (Some db) = true.
Proof.
  intros Hlook. unfold database_truthy.
  destruct (size db) eqn:Hsize; [|done].
  apply map_size_empty_iff in Hsize. subst db. by rewrite lookup_empty in Hlook.
Qed.

(** X13: a station file read by [get_station_database] and passed to
    [get_stations]: a station found by the scan, for which the last line
    named network.name reads "network.name LAT LON ELEV", is returned with
    the coordinate (LON, LAT, ELEV): longitude first. *)
Theorem database_file_coordinates (parse : float_parser) (lines : list string)
    (db : gmap string station_info)
    (mseed_dir : string) (files : list string)
    (xml_inventories : list xml_inventory)
    (dataless_inventories : list dataless_inventory)
    (networks channels : list string)
    (startday endday : option date) (coord_tolerance : Q) (st : store)
    (s : Station) (l1 l2 : list string) (line a b c : string) (rest : list string)
    (lat lon elev : Q) :
  get_station_database parse lines = Ok db →
  scan_files mseed_dir files startday endday networks channels = Ok st →
  s ∈ deref st →
  lines = l1 ++ line :: l2 →
  str_words line = stationid s :: a :: b :: c :: rest →
  parse a = Some lat → parse b = Some lon → parse c = Some elev →
  (∀ line', line' ∈ l2 → head (str_words line') ≠ Some (stationid s)) →
  ∃ out,
    get_stations mseed_dir files xml_inventories dataless_inventories (Some db)
      networks channels startday endday coord_tolerance = Ok out ∧
    set_coord [Some lon; Some lat; Some elev] s ∈ out.
Proof.
  intros Hdb Hscan Hs Hlines Hwords Ha Hb Hc Hlater.
  destruct (database_loop_spec parse lines db Hdb) as [_ Hlook].
  assert (Hrec : db !! stationid s = Some (mkInfo lat lon elev)).
  { apply Hlook. exists l1, line, l2. split; [done|]. split; [|done].
    apply database_record_Ok. by exists a, b, c, rest. }
  eexists. split.
  - apply get_stations_with_database; [|done]. by eapply database_lookup_truthy.
  - destruct (scan_files_inv _ _ _ _ _ _ _ Hscan) as (sgs & _ & Hwf & _).
    rewrite (deref_wf _ Hwf) in Hs.
    apply list_elem_of_omap. exists s. split; [done|].
    apply database_station_Some. by exists (mkInfo lat lon elev).
Qed.

Lemma database_file_coordinates_witness :
  let s := mkStation "CACB" "BL" "BHZ" "BL.CACB.00.BHZ.*.mseed" "/data"
             ["20160806"] [None; None] in
  ∃ out,
    get_stations "/data" ["20160806/BL.CACB.00.BHZ.D.mseed"] [] []
      (Some {[ "BL.CACB" := mkInfo (inject_Z (-22)) (inject_Z (-43)) (inject_Z 12) ]})
      [] [] None None (1 # 10000)%Q = Ok out ∧
    set_coord [Some (inject_Z (-43)); Some (inject_Z (-22)); Some (inject_Z 12)] s ∈ out.
Proof.
  intros s.
  apply (database_file_coordinates whole_numbers ["BL.CACB -22 -43 12"] _
           "/data" ["20160806/BL.CACB.00.BHZ.D.mseed"] [] [] [] [] None None (1 # 10000)%Q
           (mkStore [s] [0]) s [] [] "BL.CACB -22 -43 12" "-22" "-43" "12" []);
    try reflexivity.
  - left.
  - by intros ? ?%elem_of_nil.
Defined.

(** X14: [get_station_database] returns an empty dictionary for an empty
    file only, and [get_stations] takes an empty dictionary for no
    database: it raises [NameError] as soon as the scan finds a station. *)
Theorem database_empty_file (parse : float_parser) (lines : list string)
    (db : gmap string station_info)
    (mseed_dir : string) (files : list string)
    (xml_inventories : list xml_inventory)
    (dataless_inventories : list dataless_inventory)
    (networks channels : list string)
    (startday endday : option date) (coord_tolerance : Q) (st : store) :
  get_station_database parse lines = Ok db →
  (db = ∅ ↔ lines = []) ∧
  (lines = [] →
   scan_files mseed_dir files startday endday networks channels = Ok st →
   deref st ≠ [] →
   get_stations mseed_dir files xml_inventories dataless_inventories (Some db)
     networks channels startday endday coord_tolerance = Raise NameError).
Proof.
  intros Hdb.
  assert (Hempty : db = ∅ ↔ lines = []).
  { split.
    - intros ->. destruct lines as [|x lines _] using rev_ind; [done|].
      destruct (database_loop_spec parse _ ∅ Hdb) as [Hok Hlook].
      destruct (Hok x) as (name & e & Hx); [apply elem_of_app; right; left|].
      assert ((∅ : gmap string station_info) !! name = Some e) as Hin.
      { apply Hlook. exists lines, x, []. repeat split; try done.
        by intros ? ?%elem_of_nil. }
      by rewrite lookup_empty in Hin.
    - intros ->. by injection Hdb as <-. }
  split; [done|]. intros Hlines Hscan Hne.
  apply Hempty in Hlines. subst db.
  rewrite (get_stations_without_database _ _ _ _ (Some ∅) _ _ _ _ _ st); [|done|done].
  unfold deref in Hne. by destruct (stations st).
Qed.

Lemma database_empty_file_witness :
  get_stations "/data" ["20160806/BL.CACB.00.BHZ.D.mseed"] [] [] (Some ∅)
    [] [] None None (1 # 10000)%Q = Raise NameError.
Proof.
  eapply (database_empty_file whole_numbers [] ∅).
  - reflexivity.
  - reflexivity.
  - reflexivity.
  - vm_compute. discriminate.
Defined.

(** ** get_paz: further statements *)

Lemma inventory_paz_outcome {PAZ} (channelid : string) (t : Z) (inv : inventory PAZ) :
  (∃ paz, inventory_paz channelid t inv = Ok paz) ∨
  falls_through (inventory_paz channelid t inv) ∨
  (∃ e, inventory_paz channelid t inv = Raise e ∧ uncaught e).
Proof.
  destruct (inventory_paz channelid t inv) as [paz|e]; [left; eauto|].
  destruct e; try (right; right; eexists; split; [done|split; done]).
  - right; left; by right.
  - right; left; by left.
Qed.

(** X15: what the outcome of [get_paz] says about the inventories. A
    response comes from an inventory before which all others were skipped;
    an exception is either [NoPAZFound] after all inventories were
    skipped, or the unhandled exception of the first inventory that was
    not skipped and did not answer. *)
Theorem get_paz_outcome {PAZ} (channelid : string) (t : Z)
    (inventories : list (inventory PAZ)) :
  (∀ paz, get_paz channelid t inventories = Ok paz →
     ∃ pre inv post, inventories = pre ++ inv :: post ∧
       Forall (λ i, falls_through (inventory_paz channelid t i)) pre ∧
       inventory_paz channelid t inv = Ok paz) ∧
  (∀ e, get_paz channelid t inventories = Raise e →
     (e = NoPAZFound ("No PAZ found for channel " +:+ channelid) ∧
      Forall (λ i, falls_through (inventory_paz channelid t i)) inventories) ∨
     (∃ pre inv post, inventories = pre ++ inv :: post ∧
        Forall (λ i, falls_through (inventory_paz channelid t i)) pre ∧
        inventory_paz channelid t inv = Raise e ∧ uncaught e)).
Proof.
  induction inventories as [|inv rest [IHok IHerr]]; simpl.
  { split; [done|]. intros e [= <-]. left. split; [done|constructor]. }
  destruct (inventory_paz_outcome channelid t inv)
    as [[paz Hinv]|[Hskip|(e & Hinv & Hunc)]].
  - rewrite Hinv. split; [|done]. intros ? [= <-].
    exists [], inv, rest. split; [done|]. split; [constructor|done].
  - assert (Hstep : match inventory_paz channelid t inv with
                    | Ok paz => Ok paz
                    | Raise SEEDParserException | Raise AssertionError =>
                        get_paz channelid t rest
                    | Raise e => Raise e
                    end = get_paz channelid t rest).
    { by destruct Hskip as [-> | ->]. }
    rewrite Hstep. split.
    + intros paz (pre & i & post & -> & Hpre & Hi)%IHok.
      exists (inv :: pre), i, post. split; [done|]. split; [by constructor|done].
    + intros e [[-> Hall]|(pre & i & post & -> & Hpre & Hi & Hunc)]%IHerr.
      * left. split; [done|by constructor].
      * right. exists (inv :: pre), i, post. split; [done|].
        split; [by constructor|done].
  - assert (Hstep : match inventory_paz channelid t inv with
                    | Ok paz => Ok paz
                    | Raise SEEDParserException | Raise AssertionError =>
                        get_paz channelid t rest
                    | Raise e => Raise e
                    end = Raise e).
    { rewrite Hinv. destruct Hunc as [? ?]. by destruct e. }
    rewrite Hstep. split; [done|]. intros ? [= <-]. right.
    exists [], inv, rest. split; [done|]. split; [constructor|done].
Qed.

Lemma get_paz_outcome_witness :
  let A : inventory nat := PazDict "XJ.AKS.00.BHZ" None None 1 in
  let B : inventory nat := PazDict "BL.CACB.00.BHZ" (Some 10%Z) None 2 in
  ∃ pre inv post, [A; B] = pre ++ inv :: post ∧
    Forall (λ i, falls_through (inventory_paz "BL.CACB.00.BHZ" 20 i)) pre ∧
    inventory_paz "BL.CACB.00.BHZ" 20 inv = Ok 2.
Proof.
  intros A B.
  apply (get_paz_outcome "BL.CACB.00.BHZ" 20 [A; B]). reflexivity.
Defined.

(** X16: an exception of an inventory that the [except] clause does not
    handle ends the lookup, whatever the inventories after it hold; and
    once the lookup over a list gives a response, inventories added at the
    end of the list do not change it. *)
Theorem get_paz_abort_and_extend {PAZ} (channelid : string) (t : Z)
    (pre post : list (inventory PAZ)) (inv : inventory PAZ) :
  (∀ e, Forall (λ i, falls_through (inventory_paz channelid t i)) pre →
        inventory_paz channelid t inv = Raise e → uncaught e →
        get_paz channelid t (pre ++ inv :: post) = Raise e) ∧
  (∀ paz, get_paz channelid t pre = Ok paz →
          get_paz channelid t (pre ++ post) = Ok paz).
Proof.
  split.
  - intros e Hpre Hinv [Hs Ha]. rewrite (get_paz_skip _ _ _ _ Hpre). simpl.
    rewrite Hinv. by destruct e.
  - intros paz. induction pre as [|i pre IH]; simpl; [done|].
    destruct (inventory_paz channelid t i) as [p|e]; [done|].
    destruct e; auto.
Qed.

Lemma get_paz_abort_and_extend_witness :
  let broken : inventory nat := Parser (λ _ _, Raise (OtherError "unreadable")) in
  let good : inventory nat := PazDict "BL.CACB.00.BHZ" None None 7 in
  get_paz "BL.CACB.00.BHZ" 20 ([] ++ broken :: [good]) = Raise (OtherError "unreadable") ∧
  get_paz "BL.CACB.00.BHZ" 20 ([good] ++ [broken]) = Ok 7.
Proof.
  intros broken good. split.
  - apply (get_paz_abort_and_extend "BL.CACB.00.BHZ" 20 [] [good] broken).
    + constructor.
    + reflexivity.
    + split; discriminate.
  - apply (get_paz_abort_and_extend "BL.CACB.00.BHZ" 20 [good] [broken] broken).
    reflexivity.
Defined.

(** ** get_SACPZ_filelists: further statements *)

Lemma sacpz_body_cases (m : gmap string string) (f : string) :
  sacpz_body m f = match responseid f with
                   | Ok id => Ok (<[id := f]> m)
                   | Raise e => Raise e
                   end.
Proof. unfold sacpz_body. by destruct (responseid f). Qed.

Lemma sacpz_loop_last (flist : list string) (m : gmap string string) :
  for_each sacpz_body flist ∅ = Ok m →
  ∀ id f,
    m !! id = Some f ↔
    ∃ l1 l2, flist = l1 ++ f :: l2 ∧ responseid f = Ok id ∧
             ∀ g, g ∈ l2 → responseid g ≠ Ok id.
Proof.
  revert m. induction flist as [|x flist IH] using rev_ind; intros m Hm.
  { injection Hm as <-. intros id f. rewrite lookup_empty. split; [done|].
    intros (l1 & l2 & Heq & _). by destruct l1. }
  rewrite for_each_app in Hm.
  destruct (for_each sacpz_body flist ∅) as [m0|] eqn:Hm0; simpl in Hm; [|done].
  rewrite sacpz_body_cases in Hm.
  destruct (responseid x) as [idx|] eqn:Hx; simpl in Hm; [|done].
  injection Hm as <-. intros id f. rewrite lookup_insert_Some, (IH m0 eq_refl). split.
  - intros [[<- <-]|[Hne (l1 & l2 & -> & Hf & Hlater)]].
    + exists flist, []. repeat split; try done. by intros ? ?%elem_of_nil.
    + exists l1, (l2 ++ [x]). rewrite <- app_assoc. repeat split; try done.
      intros g [Hg|Hg%list_elem_of_singleton]%elem_of_app; [by apply Hlater|].
      subst g. rewrite Hx. congruence.
  - intros (l1 & l2 & Heq & Hf & Hlater).
    destruct l2 as [|y l2 _] using rev_ind.
    + apply app_inj_tail in Heq as [-> ->]. left.
      rewrite Hx in Hf. by injection Hf as <-.
    + rewrite app_comm_cons, app_assoc in Heq. apply app_inj_tail in Heq as [-> ->].
      right. split.
      * intros <-. apply (Hlater y); [apply elem_of_app; right; left|done].
      * exists l1, l2. repeat split; try done.
        intros z Hz. apply Hlater. apply elem_of_app. by left.
Qed.

(** X17: in the dictionary [get_SACPZ_filelists] returns, the file bound
    to a key is the last listed file that has this key: a later file
    replaces an earlier one with the same network, station, location and
    channel; a key that no listed file has is not bound. *)
Theorem get_SACPZ_filelists_last_file (resp_filepath : string) (listing : list string)
    (m : gmap string string) :
  get_SACPZ_filelists resp_filepath listing = Ok m →
  ∀ id f,
    m !! id = Some f ↔
    ∃ l1 l2,
      glob_pattern (os_path_join resp_filepath "SAC_PZ*") listing = l1 ++ f :: l2 ∧
      responseid f = Ok id ∧
      ∀ g, g ∈ l2 → responseid g ≠ Ok id.
Proof. apply sacpz_loop_last. Qed.

Lemma get_SACPZ_filelists_last_file_witness :
  ∃ m, get_SACPZ_filelists "/data/pz"
         ["SAC_PZs_XJ_AKS_BHZ_00_2015"; "SAC_PZs_XJ_AKS_BHZ_00_2016"] = Ok m ∧
       m !! "XJ.AKS.00.BHZ" = Some "/data/pz/SAC_PZs_XJ_AKS_BHZ_00_2016".
Proof.
  eexists. split; [reflexivity|].
  apply (get_SACPZ_filelists_last_file "/data/pz"
           ["SAC_PZs_XJ_AKS_BHZ_00_2015"; "SAC_PZs_XJ_AKS_BHZ_00_2016"] _ eq_refl).
  exists ["/data/pz/SAC_PZs_XJ_AKS_BHZ_00_2015"], [].
  repeat split. by intros ? ?%elem_of_nil.
Defined.

(** ** Station comparisons and __repr__: further statements *)

Lemma Station_le_spec (a b : Station) :
  Station_le a b = true ↔
  py_list_lt (BOOLATTRS a) (BOOLATTRS b) = true ∨ BOOLATTRS a = BOOLATTRS b.
Proof.
  unfold Station_le, Station_lt. by rewrite orb_true_iff, Station_eq_spec.
Qed.

(** X18: [<=] on stations is a total preorder: reflexive, transitive, and
    any two stations are comparable; two stations are below each other
    exactly when they are [==]; [a >= b] is [b <= a]; and stations that
    are [==] behave alike in every comparison. *)
Theorem Station_le_total_preorder (a b c : Station) :
  Station_le a a = true ∧
  (Station_le a b = true → Station_le b c = true → Station_le a c = true) ∧
  (Station_le a b = true ∨ Station_le b a = true) ∧
  (Station_le a b = true ∧ Station_le b a = true ↔ Station_eq a b = true) ∧
  Station_ge a b = Station_le b a ∧
  (Station_eq a b = true →
   Station_eq a c = Station_eq b c ∧ Station_eq c a = Station_eq c b ∧
   Station_lt a c = Station_lt b c ∧ Station_lt c a = Station_lt c b).
Proof.
  split; [|split; [|split; [|split; [|split]]]].
  - apply Station_le_spec. by right.
  - rewrite !Station_le_spec. intros [Hab|Hab] [Hbc|Hbc].
    + left. by eapply py_list_lt_trans.
    + left. by rewrite <- Hbc.
    + left. by rewrite Hab.
    + right. congruence.
  - rewrite !Station_le_spec.
    destruct (py_list_lt_total (BOOLATTRS a) (BOOLATTRS b)) as [?|[?|?]]; auto.
  - rewrite !Station_le_spec, Station_eq_spec. split.
    + intros [[Hab|Hab] [Hba|Hba]]; try done.
      by rewrite (py_list_lt_asym _ _ Hab) in Hba.
    + intros Heq. split; right; done.
  - unfold Station_ge, Station_le, Station_lt.
    destruct (py_list_lt_total (BOOLATTRS a) (BOOLATTRS b)) as [H|[H|H]].
    + rewrite H, (py_list_lt_asym _ _ H). simpl. symmetry.
      apply not_true_is_false. intros Heq%Station_eq_spec.
      by rewrite Heq, py_list_lt_irrefl in H.
    + rewrite H, py_list_lt_irrefl. simpl. symmetry. by apply Station_eq_spec.
    + by rewrite H, (py_list_lt_asym _ _ H).
  - intros Heq%Station_eq_spec. unfold Station_eq, Station_lt. by rewrite Heq.
Qed.

Lemma Station_le_total_preorder_witness :
  let a := mkStation "AKS" "XJ" "BHZ" "XJ.AKS.00.BHZ.*.mseed" "/data" [] [] in
  let b := mkStation "CACB" "BL" "BHZ" "BL.CACB.00.BHZ.*.mseed" "/data" [] [] in
  let c := mkStation "CACB" "BL" "LHZ" "BL.CACB.00.LHZ.*.mseed" "/data" [] [] in
  Station_le a b = true ∧ Station_le b c = true ∧ Station_le a c = true.
Proof.
  intros a b c.
  pose proof (Station_le_total_preorder a b c) as (_ & Htrans & _).
  split; [reflexivity|]. split; [reflexivity|].
  apply Htrans; reflexivity.
Defined.

Lemma no_dot_prefix (n1 n2 r1 r2 : string) :
  no_dot n1 = true → no_dot n2 = true →
  n1 +:+ "." +:+ r1 = n2 +:+ "." +:+ r2 → n1 = n2 ∧ r1 = r2.
Proof.
  revert n2.
  induction n1 as [|c n1 IH]; intros [|d n2]; cbn; cbv [String.append]; fold String.append.
  - intros _ _ Heq. by injection Heq as ->.
  - intros _ [Hd _]%andb_true_iff Heq. injection Heq as <- _. done.
  - intros [Hc _]%andb_true_iff _ Heq. injection Heq as -> _. done.
  - intros [_ H1]%andb_true_iff [_ H2]%andb_true_iff Heq. injection Heq as -> Heq.
    destruct (IH n2 H1 H2 Heq) as [-> ->]. done.
Qed.

Lemma append_inj_last (x y : string) (c : ascii) :
  x +:+ String c EmptyString = y +:+ String c EmptyString → x = y.
Proof.
  revert y.
  induction x as [|a x IH]; intros [|b y]; cbv [String.append]; fold String.append;
    try done.
  - intros [= _ Heq]. by destruct y.
  - intros [= _ Heq]. by destruct x.
  - intros [= -> Heq]. f_equal. by apply IH.
Qed.

(** X19: stations that are [==] have the same [repr]; conversely, when
    the network and channel codes hold no dot, two stations with the same
    [repr] are [==], so the printed form identifies the station. *)
Theorem Station_repr_identifies (a b : Station) :
  (Station_eq a b = true → Station_repr a = Station_repr b) ∧
  (no_dot (network a) = true → no_dot (channel a) = true →
   no_dot (network b) = true → no_dot (channel b) = true →
   Station_repr a = Station_repr b → Station_eq a b = true).
Proof.
  split.
  - intros (Hn & Hw & Hc)%Station_eq_spec%BOOLATTRS_inj.
    unfold Station_repr. by rewrite Hn, Hw, Hc.
  - intros Hwa Hca Hwb Hcb Hrepr. unfold Station_repr in Hrepr.
    apply (inj (String.app "<Station ")) in Hrepr.
    apply no_dot_prefix in Hrepr as [Hw Hrepr]; [|done..].
    apply no_dot_prefix in Hrepr as [Hc Hrepr]; [|done..].
    apply append_inj_last in Hrepr.
    by apply Station_eq_spec, BOOLATTRS_inj.
Qed.

Lemma Station_repr_identifies_witness :
  let a := mkStation "CACB" "BL" "BHZ" "BL.CACB.00.BHZ.*.mseed" "/data" ["20160806"] [] in
  let b := mkStation "CACB" "BL" "BHZ" "BL.CACB.10.BHZ.*.mseed" "/archive" [] [] in
  Station_repr a = Station_repr b ∧ Station_eq a b = true.
Proof.
  intros a b. split.
  - apply (Station_repr_identifies a b). reflexivity.
  - apply (Station_repr_identifies a b); reflexivity.
Defined.

(** ** get_stats *)

Lemma foldl_min_spec (ds : list Z) (d : Z) :
  foldl Z.min d ds ∈ d :: ds ∧ ∀ x, x ∈ d :: ds → (foldl Z.min d ds ≤ x)%Z.
Proof.
  revert d. induction ds as [|a ds IH]; intros d; simpl.
  - split; [left|]. intros x ->%list_elem_of_singleton. lia.
  - destruct (IH (Z.min d a)) as [Hin Hle]. split.
    + apply elem_of_cons in Hin as [Hin|Hin]; [|by do 2 right].
      rewrite Hin. destruct (Z.min_spec d a) as [[_ ->]|[_ ->]]; [left|right; left].
    + intros x Hx.
      assert (foldl Z.min (Z.min d a) ds ≤ Z.min d a)%Z as Hm by (apply Hle; left).
      apply elem_of_cons in Hx as [->|[->|Hx]%elem_of_cons]; [lia|lia|].
      apply Hle. by right.
Qed.

Lemma foldl_max_spec (ds : list Z) (d : Z) :
  foldl Z.max d ds ∈ d :: ds ∧ ∀ x, x ∈ d :: ds → (x ≤ foldl Z.max d ds)%Z.
Proof.
  revert d. induction ds as [|a ds IH]; intros d; simpl.
  - split; [left|]. intros x ->%list_elem_of_singleton. lia.
  - destruct (IH (Z.max d a)) as [Hin Hle]. split.
    + apply elem_of_cons in Hin as [Hin|Hin]; [|by do 2 right].
      rewrite Hin. destruct (Z.max_spec d a) as [[_ ->]|[_ ->]]; [right; left|left].
    + intros x Hx.
      assert (Z.max d a ≤ foldl Z.max (Z.max d a) ds)%Z as Hm by (apply Hle; left).
      apply elem_of_cons in Hx as [->|[->|Hx]%elem_of_cons]; [lia|lia|].
      apply Hle. by right.
Qed.

Lemma min_day_spec (days : list Z) :
  days ≠ [] → min_day days ∈ days ∧ ∀ x, x ∈ days → (min_day days ≤ x)%Z.
Proof. destruct days as [|d ds]; [done|]. intros _. apply foldl_min_spec. Qed.

Lemma max_day_spec (days : list Z) :
  days ≠ [] → max_day days ∈ days ∧ ∀ x, x ∈ days → (x ≤ max_day days)%Z.
Proof. destruct days as [|d ds]; [done|]. intros _. apply foldl_max_spec. Qed.

Section Stats.
Variable order : set_order.
Hypothesis order_ok : set_order_ok order.
Variable channel : string.
Variable st : list trace.

Lemma str_set_elem (l : list string) (x : string) : x ∈ str_set order l ↔ x ∈ l.
Proof. unfold str_set. by rewrite (order_ok (first_seen l)), first_seen_elem. Qed.

Lemma str_set_NoDup (l : list string) : NoDup (str_set order l).
Proof. unfold str_set. rewrite (order_ok (first_seen l)). apply first_seen_NoDup. Qed.

Lemma stationtraces_elem (stationname : string) (t : trace) :
  t ∈ filter (λ t, tr_station t = stationname)
        (filter (λ t, tr_channel t = channel) st) ↔
  on_channel channel st stationname t.
Proof. unfold on_channel. rewrite !list_elem_of_filter. tauto. Qed.

Lemma stations_elem (stationname : string) :
  stationname ∈ str_set order (tr_station <$> filter (λ t, tr_channel t = channel) st) ↔
  ∃ t, on_channel channel st stationname t.
Proof.
  rewrite str_set_elem, list_elem_of_fmap. unfold on_channel. split.
  - intros (t & -> & [Hc Ht]%list_elem_of_filter). by exists t.
  - intros (t & Ht & Hc & <-). exists t. split; [done|]. by apply list_elem_of_filter.
Qed.

Lemma station_stats_of_cases (m : gmap string station_stats) (stationname : string) :
  (¬ several_networks channel st stationname ∧
   station_stats_of order (filter (λ t, tr_channel t = channel) st) m stationname
   = Returns (<[stationname := stats_entry order channel st stationname]> m)) ∨
  (several_networks channel st stationname ∧
   station_stats_of order (filter (λ t, tr_channel t = channel) st) m stationname
   = Raises (SeveralNetworks stationname
               (str_set order
                  (tr_network <$> filter (λ t, tr_station t = stationname)
                                    (filter (λ t, tr_channel t = channel) st))))).
Proof.
  unfold station_stats_of, stats_entry.
  set (stationtraces := filter (λ t, tr_station t = stationname)
                          (filter (λ t, tr_channel t = channel) st)).
  pose proof (str_set_NoDup (tr_network <$> stationtraces)) as Hnd.
  assert (Hel : ∀ n, n ∈ str_set order (tr_network <$> stationtraces) ↔
                     ∃ t, on_channel channel st stationname t ∧ tr_network t = n).
  { intros n. rewrite str_set_elem, list_elem_of_fmap. split.
    - intros (t & -> & Ht%stationtraces_elem). by exists t.
    - intros (t & Ht%stationtraces_elem & <-). by exists t. }
  destruct (str_set order (tr_network <$> stationtraces)) as [|n1 [|n2 rest]] eqn:Hnets.
  - left. split; [|done]. intros (t1 & _ & Ht1 & _).
    assert (tr_network t1 ∈ @nil string) as Hin by (apply Hel; by exists t1).
    by apply elem_of_nil in Hin.
  - left. split; [|done]. intros (t1 & t2 & Ht1 & Ht2 & Hne).
    assert (tr_network t1 ∈ [n1]) as E1%list_elem_of_singleton by (apply Hel; by exists t1).
    assert (tr_network t2 ∈ [n1]) as E2%list_elem_of_singleton by (apply Hel; by exists t2).
    congruence.
  - right. split; [|done].
    destruct (proj1 (Hel n1)) as (t1 & Ht1 & Hn1); [left|].
    destruct (proj1 (Hel n2)) as (t2 & Ht2 & Hn2); [right; left|].
    exists t1, t2. split; [done|]. split; [done|]. rewrite Hn1, Hn2.
    apply NoDup_cons in Hnd as [Hnotin _]. intros ->. apply Hnotin. left.
Qed.

Lemma stats_loop_Returns (stations : list string) (m : gmap string station_stats) :
  (∀ s, s ∈ stations → ¬ several_networks channel st s) →
  ∃ m', stats_loop order (filter (λ t, tr_channel t = channel) st) stations m = Returns m' ∧
        ∀ s, m' !! s = if decide (s ∈ stations) then Some (stats_entry order channel st s) else m !! s.
Proof.
  revert m. induction stations as [|s0 stations IH]; intros m Hone; simpl.
  { exists m. split; [done|]. intros s. destruct (decide (s ∈ [])) as [[]%elem_of_nil|]; done. }
  destruct (station_stats_of_cases m s0) as [[_ ->]|[Hsev _]].
  - destruct (IH (<[s0 := stats_entry order channel st s0]> m)) as (m' & -> & Hm').
    { intros s Hs. apply Hone. by right. }
    exists m'. split; [done|]. intros s. rewrite Hm'.
    destruct (decide (s ∈ stations)) as [Hin|Hnin].
    + rewrite decide_True; [done|by right].
    + destruct (decide (s = s0)) as [->|Hne].
      * rewrite decide_True, lookup_insert_eq; [done|left].
      * rewrite decide_False, lookup_insert_ne; [done|done|].
        by intros [?|?]%elem_of_cons.
  - exfalso. apply (Hone s0); [left|done].
Qed.

Lemma stats_loop_Raises (stations : list string) (m : gmap string station_stats)
    (s : string) :
  s ∈ stations → several_networks channel st s →
  ∃ s', s' ∈ stations ∧ several_networks channel st s' ∧
        stats_loop order (filter (λ t, tr_channel t = channel) st) stations m
        = Raises (SeveralNetworks s'
                    (str_set order
                       (tr_network <$> filter (λ t, tr_station t = s')
                                         (filter (λ t, tr_channel t = channel) st)))).
Proof.
  revert m. induction stations as [|s0 stations IH]; intros m Hin Hsev; simpl.
  { by apply elem_of_nil in Hin. }
  destruct (station_stats_of_cases m s0) as [[Hone ->]|[Hsev0 ->]].
  - apply elem_of_cons in Hin as [->|Hin]; [done|].
    destruct (IH (<[s0 := stats_entry order channel st s0]> m) Hin Hsev) as (s' & Hs' & Hsev' & ->).
    exists s'. split; [by right|done].
  - exists s0. split; [left|done].
Qed.

Lemma stats_entry_spec (stationname : string) (t0 : trace) :
  on_channel channel st stationname t0 →
  ¬ several_networks channel st stationname →
  (∀ t, on_channel channel st stationname t →
        stats_network (stats_entry order channel st stationname) = tr_network t ∧
        (firstday (stats_entry order channel st stationname) ≤ tr_startday t)%Z ∧
        (tr_endday t ≤ lastday (stats_entry order channel st stationname))%Z) ∧
  (∃ t, on_channel channel st stationname t ∧
        tr_startday t = firstday (stats_entry order channel st stationname)) ∧
  (∃ t, on_channel channel st stationname t ∧
        tr_endday t = lastday (stats_entry order channel st stationname)).
Proof.
  intros Ht0 Hone. unfold stats_entry; simpl.
  set (stationtraces := filter (λ t, tr_station t = stationname)
                          (filter (λ t, tr_channel t = channel) st)).
  assert (Hin0 : t0 ∈ stationtraces) by by apply stationtraces_elem.
  assert (Hne : ∀ f : trace → Z, f <$> stationtraces ≠ []).
  { intros f Hnil%fmap_nil_inv. rewrite Hnil in Hin0. by apply elem_of_nil in Hin0. }
  destruct (min_day_spec _ (Hne tr_startday)) as [Hmin_in Hmin_le].
  destruct (max_day_spec _ (Hne tr_endday)) as [Hmax_in Hmax_le].
  split; [|split].
  - intros t Ht. split; [|split].
    + assert (Hn : tr_network t ∈ str_set order (tr_network <$> stationtraces)).
      { apply str_set_elem, list_elem_of_fmap. exists t. split; [done|].
        by apply stationtraces_elem. }
      destruct (str_set order (tr_network <$> stationtraces)) as [|n rest] eqn:Hnets.
      { by apply elem_of_nil in Hn. }
      simpl. apply elem_of_cons in Hn as [->|Hn]; [done|]. exfalso.
      assert (Hfirst : n ∈ str_set order (tr_network <$> stationtraces))
        by (rewrite Hnets; left).
      apply str_set_elem, list_elem_of_fmap in Hfirst as (t1 & -> & Ht1%stationtraces_elem).
      apply Hone. exists t1, t. split; [done|]. split; [done|].
      pose proof (str_set_NoDup (tr_network <$> stationtraces)) as Hnd.
      rewrite Hnets in Hnd. apply NoDup_cons in Hnd as [Hnotin _].
      intros Heq. apply Hnotin. by rewrite Heq.
    + apply Hmin_le, list_elem_of_fmap. exists t. split; [done|]. by apply stationtraces_elem.
    + apply Hmax_le, list_elem_of_fmap. exists t. split; [done|]. by apply stationtraces_elem.
  - apply list_elem_of_fmap in Hmin_in as (t & Heq & Ht%stationtraces_elem). by exists t.
  - apply list_elem_of_fmap in Hmax_in as (t & Heq & Ht%stationtraces_elem). by exists t.
Qed.

Lemma get_stats_Returns :
  (∀ s, ¬ several_networks channel st s) →
  ∃ m, get_stats order st channel false = Returns m ∧
       ∀ s, m !! s =
            if decide (s ∈ str_set order
                             (tr_station <$> filter (λ t, tr_channel t = channel) st))
            then Some (stats_entry order channel st s) else None.
Proof.
  intros Hone. unfold get_stats.
  destruct (stats_loop_Returns
              (str_set order (tr_station <$> filter (λ t, tr_channel t = channel) st)) ∅)
    as (m & Hm & Hlook); [by intros s _|].
  exists m. split; [done|]. intros s. rewrite Hlook.
  by destruct (decide (s ∈ _)).
Qed.

End Stats.

(** X20: [get_stats] with [fast=False], on a stream where no station has
    traces of the channel under two network codes, returns a dictionary
    whose keys are the stations with a trace on the channel; the stats_entry order channel st of
    a station holds the network code of its traces, the earliest start
    day and the latest end day of its traces on the channel. *)
Theorem get_stats_returns (order : set_order) (channel : string) (st : list trace) :
  set_order_ok order →
  (∀ s, ¬ several_networks channel st s) →
  ∃ m, get_stats order st channel false = Returns m ∧
       ∀ s,
         (m !! s = None ↔ ∀ t, ¬ on_channel channel st s t) ∧
         (∀ e, m !! s = Some e →
            (∀ t, on_channel channel st s t →
               stats_network e = tr_network t ∧
               (firstday e ≤ tr_startday t)%Z ∧ (tr_endday t ≤ lastday e)%Z) ∧
            (∃ t, on_channel channel st s t ∧ tr_startday t = firstday e) ∧
            (∃ t, on_channel channel st s t ∧ tr_endday t = lastday e)).
Proof.
  intros Hord Hone.
  destruct (get_stats_Returns order Hord channel st Hone) as (m & Hm & Hlook).
  exists m. split; [done|]. intros s. rewrite Hlook.
  destruct (decide (s ∈ _)) as [Hin|Hnone].
  - apply (stations_elem order Hord) in Hin as [t0 Ht0]. split.
    + split; [done|]. intros Hno. by destruct (Hno t0).
    + intros e [= <-]. by apply (stats_entry_spec order Hord channel st s t0).
  - split; [|done]. split; [|done]. intros _ t Ht.
    apply Hnone, (stations_elem order Hord). by exists t.
Qed.

Lemma get_stats_returns_witness :
  let st := [mkTrace "CACB" "BL" "BHZ" 100 101; mkTrace "AKS" "XJ" "BHZ" 50 50;
             mkTrace "CACB" "BL" "BHZ" 90 95; mkTrace "CACB" "XX" "LHZ" 1 2] in
  ∃ m, get_stats id st "BHZ" false = Returns m ∧
       ∀ s,
         (m !! s = None ↔ ∀ t, ¬ on_channel "BHZ" st s t) ∧
         (∀ e, m !! s = Some e →
            (∀ t, on_channel "BHZ" st s t →
               stats_network e = tr_network t ∧
               (firstday e ≤ tr_startday t)%Z ∧ (tr_endday t ≤ lastday e)%Z) ∧
            (∃ t, on_channel "BHZ" st s t ∧ tr_startday t = firstday e) ∧
            (∃ t, on_channel "BHZ" st s t ∧ tr_endday t = lastday e)).
Proof.
  intros st. apply (get_stats_returns id "BHZ" st).
  - intros l. reflexivity.
  - intros s (t1 & t2 & (H1 & Hc1 & Hs1) & (H2 & Hc2 & Hs2) & Hne).
    apply Hne. clear Hne. subst s.
    repeat (apply elem_of_cons in H1 as [->|H1]);
      repeat (apply elem_of_cons in H2 as [->|H2]);
      try (by apply elem_of_nil in H1); try (by apply elem_of_nil in H2);
      simpl in *; congruence.
Defined.

(** X21: on a stream where some station has traces of the channel under
    two network codes, [get_stats] with [fast=False] returns nothing: it
    raises the exception that names such a station and the set of its
    network codes. With [fast=True], the default, it raises
    [NotImplementedError] whatever the stream holds. *)
Theorem get_stats_several_networks (order : set_order) (channel : string)
    (st : list trace) :
  (set_order_ok order →
   ∀ s, several_networks channel st s →
     ∃ s' networks,
       get_stats order st channel false = Raises (SeveralNetworks s' networks) ∧
       several_networks channel st s' ∧
       ∀ n, n ∈ networks ↔ ∃ t, on_channel channel st s' t ∧ tr_network t = n) ∧
  get_stats order st channel true = Raises NotImplementedError.
Proof.
  split; [|done]. intros Hord s Hsev.
  assert (Hin : s ∈ str_set order
                  (tr_station <$> filter (λ t, tr_channel t = channel) st)).
  { apply (stations_elem order Hord). destruct Hsev as (t1 & _ & Ht1 & _). by exists t1. }
  destruct (stats_loop_Raises order Hord channel st _ ∅ s Hin Hsev)
    as (s' & _ & Hsev' & Hraise).
  eexists s', _. split; [exact Hraise|]. split; [done|].
  intros n. rewrite (str_set_elem order Hord), list_elem_of_fmap. split.
  - intros (t & -> & Ht). exists t. split; [|done].
    by apply (stationtraces_elem channel st).
  - intros (t & Ht & <-). exists t. split; [done|].
    by apply (stationtraces_elem channel st).
Qed.

Lemma get_stats_several_networks_witness :
  let st := [mkTrace "CACB" "BL" "BHZ" 100 101; mkTrace "CACB" "XJ" "BHZ" 50 50] in
  ∃ s' networks,
    get_stats id st "BHZ" false = Raises (SeveralNetworks s' networks) ∧
    several_networks "BHZ" st s' ∧
    ∀ n, n ∈ networks ↔ ∃ t, on_channel "BHZ" st s' t ∧ tr_network t = n.
Proof.
  intros st. apply (proj1 (get_stats_several_networks id "BHZ" st)) with (s := "CACB").
  - intros l. reflexivity.
  - exists (mkTrace "CACB" "BL" "BHZ" 100 101), (mkTrace "CACB" "XJ" "BHZ" 50 50).
    split; [|split].
    + split; [left|done].
    + split; [right; left|done].
    + discriminate.
Defined.
